(** * swfusion/match_era5_smap.py: matching SMAP swaths with ERA5 around tropical cyclones

    A shallow embedding of [matchManager] and the properties of its
    track traversal, swath extraction, hour bucketing and resampling.

    Conventions of the embedding:
    - Python floats are idealised as rationals ([Q]); comparisons of
      coordinates are the boolean comparisons of [Q] and results are stated
      up to [==].
    - A [datetime] is a number of seconds since 0001-01-01 00:00:00 (the
      track table and the swath file carry no fraction of a second); a
      [timedelta] is a number of seconds, read through [td_days] and
      [td_seconds] exactly as Python normalises it.
    - Exceptions and [exit] are the two abnormal constructors of [outcome];
      the calls the program makes to its collaborators are recorded in a
      log threaded through the monad [M]. *)

From Stdlib Require Import ZArith QArith Qabs Qround Lqa List String Bool Lia.
From stdpp Require Import gmap strings list.
Import ListNotations.

Local Open Scope Z_scope.

(** ** Outcomes: normal return, a raised exception, or [SystemExit] *)

Inductive exn : Type :=
| ZeroDivisionError
| IndexError
| ValueError
| TypeError
| KeyError
| UpstreamError (msg : string).

Inductive outcome (A : Type) : Type :=
| Ok (a : A)
| Raise (e : exn)
| SysExit (e : exn).

Arguments Ok {A} a.
Arguments Raise {A} e.
Arguments SysExit {A} e.

Definition obind {A B} (o : outcome A) (k : A -> outcome B) : outcome B :=
  match o with
  | Ok a => k a
  | Raise e => Raise e
  | SysExit e => SysExit e
  end.

(** ** Python list indexing and slicing *)

(** [l[i]]: negative indices count from the end, anything else out of range
    raises [IndexError]. *)
Definition py_index {A} (l : list A) (i : Z) : outcome A :=
  let n := Z.of_nat (length l) in
  let j := if i <? 0 then i + n else i in
  if (j <? 0) || (n <=? j) then Raise IndexError
  else match nth_error l (Z.to_nat j) with
       | Some a => Ok a
       | None => Raise IndexError
       end.

(** Bound of a slice [l[a:b]] clipped to the list, as Python does. *)
Definition py_clip (n i : Z) : Z :=
  let j := if i <? 0 then i + n else i in
  Z.max 0 (Z.min n j).

Definition py_slice {A} (l : list A) (a b : Z) : list A :=
  let n := Z.of_nat (length l) in
  let lo := py_clip n a in
  let hi := py_clip n b in
  firstn (Z.to_nat (hi - lo)) (skipn (Z.to_nat lo) l).

(** [m[a:b, c:d]] on a two-dimensional array stored as rows. *)
Definition py_slice2 {A} (m : list (list A)) (a b c d : Z) : list (list A) :=
  List.map (fun r => py_slice r c d) (py_slice m a b).

(** ** Rational comparisons *)

Definition Qltb (x y : Q) : bool := negb (Qle_bool y x).
Definition Qgtb (x y : Q) : bool := Qltb y x.

(** ** Dates and times *)

Definition datetime := Z.
Definition timedelta := Z.

Definition td_days (d : timedelta) : Z := d / 86400.
Definition td_seconds (d : timedelta) : Z := d mod 86400.

(** [dt.date()] as the number of days since 0001-01-01. *)
Definition dt_date (t : datetime) : Z := t / 86400.
Definition dt_hour (t : datetime) : Z := (t mod 86400) / 3600.
Definition dt_minute (t : datetime) : Z := (t mod 3600) / 60.
Definition dt_second (t : datetime) : Z := t mod 60.

(** [datetime.time(h, m, 0)] raises [ValueError] outside a day. *)
Definition mk_time (h m : Z) : outcome Z :=
  if (0 <=? h) && (h <? 24) && (0 <=? m) && (m <? 60)
  then Ok (h * 3600 + m * 60) else Raise ValueError.

(** [datetime.datetime.combine(date, time)]. *)
Definition combine (date : Z) (time : Z) : datetime := date * 86400 + time.

(** The proleptic Gregorian calendar, one day at a time. *)
Record cal_date : Type := CalDate { cal_year : Z; cal_month : Z; cal_day : Z }.

Definition is_leap (y : Z) : bool :=
  (y mod 4 =? 0) && (negb (y mod 100 =? 0) || (y mod 400 =? 0)).

Definition days_in_month (y m : Z) : Z :=
  if m =? 2 then (if is_leap y then 29 else 28)
  else if (m =? 4) || (m =? 6) || (m =? 9) || (m =? 11) then 30
  else 31.

Definition next_day (d : cal_date) : cal_date :=
  if cal_day d <? days_in_month (cal_year d) (cal_month d)
  then CalDate (cal_year d) (cal_month d) (cal_day d + 1)
  else if cal_month d <? 12
       then CalDate (cal_year d) (cal_month d + 1) 1
       else CalDate (cal_year d + 1) 1 1.

Definition cal_of_days (n : Z) : cal_date :=
  N.iter (Z.to_N n) next_day (CalDate 1 1 1).

(** [dt.day]: the day of the month. *)
Definition dt_day (t : datetime) : Z := cal_day (cal_of_days (dt_date t)).

(** Modelled from the spec: [utils.hour_rounder] is not among the sources.
    The spec speaks of the synoptic "nearest hour" of a timestamp, with
    23:xx able to round into hour 0 of the next day: the hour is kept below
    half past and the next hour is taken from half past on. *)
Definition hour_rounder (t : datetime) : datetime :=
  t - t mod 3600 + (if 30 <=? dt_minute t then 3600 else 0).

(** [t.hour == 23 and utils.hour_rounder(t).hour == 0]: the hour is
    rounded into the next day. *)
Definition rounds_to_next_day (t : datetime) : bool :=
  (dt_hour t =? 23) && (dt_hour (hour_rounder t) =? 0).

(** ** Configuration and grids *)

Record config : Type := Config {
  smap_resolution : Q;            (* CONFIG['rss']['spatial_resolution'] *)
  half_edge_grid_intervals : Z;   (* int(edge_in_degree / 2 / resolution) *)
  minute_missing : Z;             (* CONFIG['smap']['missing_value']['minute'] *)
  wind_missing : Q;               (* CONFIG['smap']['missing_value']['wind'] *)
  pres_lvls : list Q              (* CONFIG['era5']['pres_lvls'] *)
}.

Definition zrange (n : nat) : list Z := List.map Z.of_nat (seq 0 n).

(** [self.lats['smap']] and [self.lons['smap']]. *)
Definition lats_smap (cfg : config) : list Q :=
  List.map (fun y => inject_Z y * smap_resolution cfg - 89.875)%Q (zrange 720).

Definition lons_smap (cfg : config) : list Q :=
  List.map (fun x => inject_Z x * smap_resolution cfg + 0.125)%Q (zrange 1440).

(** Modelled from the spec: [utils.get_nearest_element_and_index] is not
    among the sources.  It returns the value and index closest to the
    coordinate, the first minimal-distance match in iteration order. *)
Fixpoint nearest_from (l : list Q) (v : Q) (i : Z) (best : Q * Z) : Q * Z :=
  match l with
  | [] => best
  | x :: l' =>
      nearest_from l' v (i + 1)
        (if Qltb (Qabs (x - v)) (Qabs (fst best - v)) then (x, i) else best)
  end.

Definition get_nearest_element_and_index (l : list Q) (v : Q) : outcome (Q * Z) :=
  match l with
  | [] => Raise ValueError
  | x :: l' => Ok (nearest_from l' v 1 (x, 0))
  end.

(** ** [get_square_around_tc] *)

Record square : Type := Square {
  sq_success : bool;
  sq_lat1_idx : Z;
  sq_lat2_idx : Z;
  sq_lon1_idx : Z;
  sq_lon2_idx : Z;
  sq_lat1 : Q;
  sq_lon1 : Q
}.

(** [(q + 360) % 360] on a float. *)
Definition Qmod360 (q : Q) : Q :=
  (q - inject_Z (360 * Qfloor (q / 360)))%Q.

(** The body of [get_square_around_tc] over the two coordinate lists of
    the fine grid and the half window in grid steps. *)
Definition square_in_grid (lats lons : list Q) (half : Z) (tc_lon tc_lat : Q)
    : outcome square :=
  obind (get_nearest_element_and_index lons tc_lon) (fun '(_, tc_lon_in_grid_idx) =>
  obind (get_nearest_element_and_index lats tc_lat) (fun '(_, tc_lat_in_grid_idx) =>
  let lat1_idx := tc_lat_in_grid_idx - half in
  obind (py_index lats lat1_idx) (fun lat1 =>
  let lat2_idx := tc_lat_in_grid_idx + half in
  obind (py_index lats lat2_idx) (fun lat2 =>
  let success := negb (Qltb lat1 (-90) || Qgtb lat2 90) in
  let lon1_idx := tc_lon_in_grid_idx - half in
  obind (py_index lons lon1_idx) (fun lon1 =>
  let lon2_idx := tc_lon_in_grid_idx + half in
  obind (py_index lons lon2_idx) (fun lon2 =>
  let lon1 := Qmod360 (lon1 + 360) in
  Ok (Square success lat1_idx lat2_idx lon1_idx lon2_idx lat1 lon1))))))).

Definition get_square_around_tc (cfg : config) (tc_lon tc_lat : Q) : outcome square :=
  square_in_grid (lats_smap cfg) (lons_smap cfg) (half_edge_grid_intervals cfg)
                 tc_lon tc_lat.

(** ** Records of the matching table, areas and the call log *)

(** The arguments of one call to [extract_detail]. *)
Record call : Type := Call {
  c_sid : string;
  c_dt : datetime;
  c_lon : Q;
  c_lat : Q
}.

(** An instance of the SMAPERA5 table class.  The key is the f-string
    [satel_datetime_lon_lat], kept as its three components; the columns
    written by name with [setattr] live in [attrs]. *)
Record row : Type := Row {
  r_sid : string;
  satel_datetime : datetime;
  r_x : Z;
  r_y : Z;
  r_lon : Q;
  r_lat : Q;
  satel_datetime_lon_lat : datetime * Q * Q;
  smap_windspd : Q;
  era5_datetime : option datetime;
  satel_era5_diff_mins : option Z;
  attrs : gmap string Q
}.

(** [[north, west, south, east]]. *)
Record area : Type := Area { north : Q; west : Q; south : Q; east : Q }.

Inductive event : Type :=
| EvExtract (c : call)                 (* extract_detail entered *)
| EvBuckets (satel_part : list row)    (* get_hourtime_row_mapper called *)
| EvInsert (rows : list row)           (* rows handed to the bulk insert *)
| EvLogError (msg : string).           (* self.logger.error *)

(** ** The monad of the pipeline: a call log, exceptions and exit *)

Definition M (A : Type) : Type := list event -> outcome A * list event.

Definition ret {A} (a : A) : M A := fun s => (Ok a, s).

Definition bind {A B} (m : M A) (k : A -> M B) : M B :=
  fun s =>
    match m s with
    | (Ok a, s') => k a s'
    | (Raise e, s') => (Raise e, s')
    | (SysExit e, s') => (SysExit e, s')
    end.

Definition lift {A} (o : outcome A) : M A := fun s => (o, s).

Definition tell (ev : event) : M unit := fun s => (Ok tt, s ++ [ev]).

(** [try: ... except Exception as msg: breakpoint(); exit(msg)].  An
    exception becomes [SystemExit]; [SystemExit] itself is no [Exception]
    and passes through every such handler. *)
Definition exit_on_exception {A} (m : M A) : M A :=
  fun s =>
    match m s with
    | (Raise e, s') => (SysExit e, s')
    | r => r
    end.

Notation "'let*' p ':=' m 'in' k" := (bind m (fun p => k))
  (at level 10, p pattern, m at level 100, k at level 200,
   format "'[v' 'let*'  p  ':='  m  'in' '/' k ']'").

(** [for a in l: f(a)] threading a loop state through fallible steps. *)
Fixpoint for_each {A S} (l : list A) (f : A -> S -> outcome S) (s : S) : outcome S :=
  match l with
  | [] => Ok s
  | a :: l' => obind (f a s) (for_each l' f)
  end.

(** The same loop in the pipeline monad. *)
Fixpoint for_eachM {A S} (l : list A) (f : A -> S -> M S) (s : S) : M S :=
  match l with
  | [] => ret s
  | a :: l' => let* s' := f a s in for_eachM l' f s'
  end.

(** ** The swath window: [get_smap_part] *)

(** [if delta.days or abs(delta.seconds) >= 1800: continue], read as the
    condition under which the pixel goes on. *)
Definition in_window (tc_dt pixel_dt : datetime) : bool :=
  let delta := pixel_dt - tc_dt in
  negb (negb (td_days delta =? 0) || (1800 <=? Z.abs (td_seconds delta))).

(** Lines 278-290 for pass [i] of one cell: [None] stands for [continue],
    [Some pixel_dt] for a pixel that reaches the construction of its row. *)
Definition pixel_time (cfg : config) (tc_dt : datetime)
    (cell_minute : list Z) (cell_wind : list Q) (i : Z) : outcome (option datetime) :=
  obind (py_index cell_minute i) (fun m_i =>
  if m_i =? minute_missing cfg then Ok None else
  obind (py_index cell_wind i) (fun w_i =>
  if Qeq_bool w_i (wind_missing cfg) then Ok None else
  obind (py_index cell_minute 0) (fun m0 =>
  obind (py_index cell_minute 1) (fun m1 =>
  if m0 =? m1 then Ok None else
  obind (mk_time (m_i / 60) (m_i mod 60)) (fun time_ =>
  let pixel_dt := combine (dt_date tc_dt) time_ in
  if in_window tc_dt pixel_dt then Ok (Some pixel_dt) else Ok None))))).

(** The accumulators of the triple loop. *)
Record smap_acc : Type := SmapAcc {
  acc_data : list row;
  acc_north : Q;
  acc_west : Q;
  acc_south : Q;
  acc_east : Q;
  acc_hourtimes : gset Z
}.

Definition init_acc : smap_acc := SmapAcc [] (-90) 360 90 0 ∅.

(** Lines 295-336: the row of a pixel that passed [pixel_time].  Every
    attribute assigned so far has a value, so the "none of columns is
    none" scan over [row.__dict__] never skips. *)
Definition add_pixel (cfg : config) (tc_id : string)
    (x y : Z) (lon_of_col lat_of_row : Q) (w_i : Q) (pixel_dt : datetime)
    (acc : smap_acc) : smap_acc :=
  let r := Row tc_id pixel_dt
               (x - half_edge_grid_intervals cfg) (y - half_edge_grid_intervals cfg)
               lon_of_col lat_of_row (pixel_dt, lon_of_col, lat_of_row) w_i
               None None ∅ in
  let west' := if Qltb (r_lon r) (acc_west acc) then r_lon r else acc_west acc in
  let east' := if Qgtb (r_lon r) (acc_east acc) then r_lon r else acc_east acc in
  let south' := if Qltb (r_lat r) (acc_south acc) then r_lat r else acc_south acc in
  let north' := if Qgtb (r_lat r) (acc_north acc) then r_lat r else acc_north acc in
  let this_hourtime := dt_hour (hour_rounder (satel_datetime r)) in
  if rounds_to_next_day (satel_datetime r)
  then SmapAcc (acc_data acc) north' west' south' east' (acc_hourtimes acc)
  else SmapAcc (acc_data acc ++ [r]) north' west' south' east'
               ({[ this_hourtime ]} ∪ acc_hourtimes acc).

Definition pixel_step (cfg : config) (tc_id : string) (tc_dt : datetime)
    (x y : Z) (lon_of_col lat_of_row : Q)
    (cell_minute : list Z) (cell_wind : list Q) (i : Z)
    (acc : smap_acc) : outcome smap_acc :=
  obind (pixel_time cfg tc_dt cell_minute cell_wind i) (fun t =>
  match t with
  | None => Ok acc
  | Some pixel_dt =>
      obind (py_index cell_wind i) (fun w_i =>
      Ok (add_pixel cfg tc_id x y lon_of_col lat_of_row w_i pixel_dt acc))
  end).

(** A record of the query date that does not round into the next day. *)
Definition same_day_record (tc_dt : datetime) (r : row) : Prop :=
  dt_date (satel_datetime r) = dt_date tc_dt /\
  rounds_to_next_day (satel_datetime r) = false.

(** What [get_smap_part] returns: the pair [([], None)] of its early
    return, or the triple [(data, list(hourtimes), area)]. *)
Inductive smap_part : Type :=
| PairEmptyNone
| Triple (data : list row) (hourtimes : list Z) (ar : area).

(** The two arrays read from the swath file, already restricted to the
    window: [minute[y][x][i]] and [wind[y][x][i]]. *)
Record swath : Type := Swath {
  sw_minute : list (list (list Z));
  sw_wind : list (list (list Q))
}.

(** The shape [(lats_num, lons_num, passes_num)] of the window. *)
Definition lats_num (sw : swath) : nat := length (sw_minute sw).

Definition lons_num (sw : swath) : nat :=
  match sw_minute sw with
  | [] => 0%nat
  | r :: _ => length r
  end.

Definition passes_num (sw : swath) : nat :=
  match sw_minute sw with
  | (c :: _) :: _ => length c
  | _ => 0%nat
  end.

(** [minute[y][x]] and [wind[y][x]]. *)
Definition cell_at (sw : swath) (y x : Z) : outcome (list Z * list Q) :=
  obind (py_index (sw_minute sw) y) (fun row_minute =>
  obind (py_index row_minute x) (fun cell_minute =>
  obind (py_index (sw_wind sw) y) (fun row_wind =>
  obind (py_index row_wind x) (fun cell_wind =>
  Ok (cell_minute, cell_wind))))).

Definition lat_of_row (cfg : config) (lat1 : Q) (y : Z) : Q :=
  (inject_Z y * smap_resolution cfg + lat1)%Q.

Definition lon_of_col (cfg : config) (lon1 : Q) (x : Z) : Q :=
  (inject_Z x * smap_resolution cfg + lon1)%Q.

(** The body of [for i in range(passes_num)] for the cell [(y, x)]. *)
Definition pass_body (cfg : config) (tc_id : string) (tc_dt : datetime)
    (lat1 lon1 : Q) (sw : swath) (y x i : Z) (acc : smap_acc) : outcome smap_acc :=
  obind (cell_at sw y x) (fun '(cell_minute, cell_wind) =>
  pixel_step cfg tc_id tc_dt x y (lon_of_col cfg lon1 x) (lat_of_row cfg lat1 y)
             cell_minute cell_wind i acc).

Definition smap_loops (cfg : config) (tc_id : string) (tc_dt : datetime)
    (lat1 lon1 : Q) (sw : swath) : outcome smap_acc :=
  for_each (zrange (lats_num sw)) (fun y =>
    for_each (zrange (lons_num sw)) (fun x =>
      for_each (zrange (passes_num sw))
               (pass_body cfg tc_id tc_dt lat1 lon1 sw y x)))
    init_acc.

(** A pixel reaches the construction of its row when pass [i] of cell
    [(y, x)] of the window gets through the missing-value test, the
    equal-pass-times test and the time window. *)
Definition reaches_row (cfg : config) (tc_dt : datetime) (sw : swath)
    (y x i : Z) : Prop :=
  0 <= y < Z.of_nat (lats_num sw) /\ 0 <= x < Z.of_nat (lons_num sw) /\
  0 <= i < Z.of_nat (passes_num sw) /\
  exists cell_minute cell_wind pixel_dt,
    cell_at sw y x = Ok (cell_minute, cell_wind) /\
    pixel_time cfg tc_dt cell_minute cell_wind i = Ok (Some pixel_dt).

(** [m] is what a running maximum started at [init] holds after the values
    [vals] went through [if v > m: m = v]; likewise for a minimum. *)
Definition running_max (init : Q) (vals : Q -> Prop) (m : Q) : Prop :=
  (m = init \/ vals m) /\ (init <= m)%Q /\ forall v, vals v -> (v <= m)%Q.

Definition running_min (init : Q) (vals : Q -> Prop) (m : Q) : Prop :=
  (m = init \/ vals m) /\ (m <= init)%Q /\ forall v, vals v -> (m <= v)%Q.

(** The latitudes and longitudes of the pixels that reach a row, for a
    window whose south-west corner is at [(lat1, lon1)]. *)
Definition row_lats (c : config) (tc_dt : datetime) (lat1 : Q) (sw : swath)
    (v : Q) : Prop :=
  exists y x i, reaches_row c tc_dt sw y x i /\ v = lat_of_row c lat1 y.

Definition row_lons (c : config) (tc_dt : datetime) (lon1 : Q) (sw : swath)
    (v : Q) : Prop :=
  exists y x i, reaches_row c tc_dt sw y x i /\ v = lon_of_col c lon1 x.

(** Each bound is its initial value or a coordinate of such a pixel. *)
Definition tight (c : config) (tc_dt : datetime) (lat1 lon1 : Q) (sw : swath)
    (acc : smap_acc) : Prop :=
  (acc_north acc = (-90)%Q \/ row_lats c tc_dt lat1 sw (acc_north acc)) /\
  (acc_west acc = 360%Q \/ row_lons c tc_dt lon1 sw (acc_west acc)) /\
  (acc_south acc = 90%Q \/ row_lats c tc_dt lat1 sw (acc_south acc)) /\
  (acc_east acc = 0%Q \/ row_lons c tc_dt lon1 sw (acc_east acc)).

(** The envelope only grows. *)
Definition acc_le (a b : smap_acc) : Prop :=
  (acc_north a <= acc_north b)%Q /\ (acc_west b <= acc_west a)%Q /\
  (acc_south b <= acc_south a)%Q /\ (acc_east a <= acc_east b)%Q.

(** [get_smap_part]: the lookup of the window, the early return on an
    unusable one, the read of the two arrays, the triple loop and the
    padding of the envelope. *)
Definition get_smap_part (cfg : config)
    (read_swath : string -> square -> outcome swath)
    (tc_id : string) (tc_dt : datetime) (tc_lon tc_lat : Q)
    (smap_file_path : string) : outcome smap_part :=
  obind (get_square_around_tc cfg tc_lon tc_lat) (fun sq =>
  if negb (sq_success sq) then Ok PairEmptyNone else
  obind (read_swath smap_file_path sq) (fun sw =>
  obind (smap_loops cfg tc_id tc_dt (sq_lat1 sq) (sq_lon1 sq) sw) (fun acc =>
  let diff := 0.5%Q in
  Ok (Triple (acc_data acc) (elements (acc_hourtimes acc))
             (Area (acc_north acc + diff) (acc_west acc - diff)
                   (acc_south acc - diff) (acc_east acc + diff)))))).

(** [data, hourtimes, area = ...]: unpacking into three names. *)
Definition unpack3 (p : smap_part) : outcome (list row * list Z * area) :=
  match p with
  | PairEmptyNone => Raise ValueError
  | Triple data hourtimes ar => Ok (data, hourtimes, ar)
  end.

(** ** Track fixes and the collaborators of the pipeline *)

(** A row of the IBTrACS table. *)
Record tc_fix : Type := TcFix {
  sid : string;
  date_time : datetime;
  lon : Q;
  lat : Q
}.

Definition grid : Type := list (list Q).

(** A GRIB message: its name, level, resolution and
    [grb.data(south, north, west, east)], which gives the values, the
    latitudes and the longitudes of the region. *)
Record grib_message : Type := Grb {
  grb_name : string;
  grb_level : Q;
  jDirectionIncrementInDegrees : Q;
  grb_data : Q -> Q -> Q -> Q -> outcome (grid * grid * grid)
}.

(** Everything the class reaches outside this file: the configuration,
    the land mask, the database, the file providers, pygrib, scipy and the
    helpers of [utils] the spec does not describe.  Each of them may raise. *)
Record env : Type := Env {
  cfg : config;
  longtitude_converter : Q -> outcome Q;
  is_land : Q -> Q -> outcome bool;
  create_smap_era5_table : datetime -> outcome unit;
  smap_download : datetime -> outcome string;
  read_swath : string -> square -> outcome swath;
  download_single_levels_vars :
    datetime -> list Z -> area -> string -> outcome string;
  download_pressure_levels_vars :
    datetime -> list Z -> area -> list Q -> string -> outcome string;
  grib_open : string -> outcome Z;
  grib_select : string -> Z -> outcome (list grib_message);
  process_grib_message_name : string -> string;
  get_era5_corners_of_rss_cell :
    Q -> Q -> grid -> grid -> Q -> outcome ((Q * Q * Q * Q) * (Z * Z * Z * Z));
  interp2d : grid -> grid -> grid -> Q -> Q -> outcome Q;
  compose_wind : Q -> Q -> outcome (Q * Q);
  decompose_wind : Q -> Q -> outcome (Q * Q);
  bulk_insert_avoid_duplicate_unique : list row -> outcome unit
}.

(** ** Hour buckets: [get_hourtime_row_mapper] *)

(** [range(0, 2400, 100)]. *)
Definition hourtimes_of_day : list Z := List.map (fun h => 100 * h) (zrange 24).

Definition empty_mapper : gmap Z (list nat) :=
  fold_left (fun m h => <[h := []]> m) hourtimes_of_day ∅.

Fixpoint fill_mapper (satel_day : Z) (rows : list row) (idx : nat)
    (m : gmap Z (list nat)) : outcome (gmap Z (list nat)) :=
  match rows with
  | [] => Ok m
  | r :: rows' =>
      let hour_roundered_dt := hour_rounder (satel_datetime r) in
      if dt_day hour_roundered_dt =? satel_day then
        let closest_time := 100 * dt_hour hour_roundered_dt in
        match m !! closest_time with
        | Some l => fill_mapper satel_day rows' (S idx) (<[closest_time := l ++ [idx]]> m)
        | None => Raise KeyError
        end
      else fill_mapper satel_day rows' (S idx) m
  end.

Definition get_hourtime_row_mapper (satel_part : list row)
    : outcome (gmap Z (list nat)) :=
  obind (py_index satel_part 0) (fun first =>
  fill_mapper (dt_day (satel_datetime first)) satel_part 0 empty_mapper).

(** The call as the pipeline makes it, recorded in the log. *)
Definition call_get_hourtime_row_mapper (satel_part : list row)
    : M (gmap Z (list nat)) :=
  let* _ := tell (EvBuckets satel_part) in
  lift (get_hourtime_row_mapper satel_part).

(** ** Resampling *)

Definition set_era5_datetime (t : datetime) (r : row) : row :=
  Row (r_sid r) (satel_datetime r) (r_x r) (r_y r) (r_lon r) (r_lat r)
      (satel_datetime_lon_lat r) (smap_windspd r)
      (Some t) (satel_era5_diff_mins r) (attrs r).

Definition set_satel_era5_diff_mins (d : Z) (r : row) : row :=
  Row (r_sid r) (satel_datetime r) (r_x r) (r_y r) (r_lon r) (r_lat r)
      (satel_datetime_lon_lat r) (smap_windspd r)
      (era5_datetime r) (Some d) (attrs r).

(** [setattr(row, name, value)]. *)
Definition setattr (name : string) (v : Q) (r : row) : row :=
  Row (r_sid r) (satel_datetime r) (r_x r) (r_y r) (r_lon r) (r_lat r)
      (satel_datetime_lon_lat r) (smap_windspd r)
      (era5_datetime r) (satel_era5_diff_mins r) (<[name := v]> (attrs r)).

(** A column read off a row: an attribute never written is [None], and
    arithmetic on it raises [TypeError]. *)
Definition getattr (name : string) (r : row) : outcome Q :=
  match attrs r !! name with
  | Some v => Ok v
  | None => Raise TypeError
  end.

(** [a.mean()] of numpy over every element of the array.  (On an empty
    array numpy gives nan; the rationals have none and give 0.) *)
Definition np_mean (a : grid) : Q :=
  let xs := concat a in
  (fold_right Qplus 0 xs / inject_Z (Z.of_nat (length xs)))%Q.

(** [a.shape != (2, 2)]. *)
Definition not_2x2 (a : grid) : bool :=
  negb (forallb (fun r => (length r =? 2)%nat) a && (length a =? 2)%nat).

Definition value_of_rss_pt_in_era5_square (e : env)
    (data lats lons : grid) (rss_lat rss_lon : Q) : M Q :=
  let* _ := (if not_2x2 lats || not_2x2 lons
             then tell (EvLogError "Not a square consists of four ERA5 grid points")
             else ret tt) in
  lift (interp2d e lons lats data rss_lon rss_lat).

(** Lines 453-477: the value of one record in the surface pass. *)
Definition value_single_levels (e : env) (data lats lons : grid)
    (grb_spa_resolu : Q) (r : row) : M Q :=
  let* (_, (lat1_idx, lat2_idx, lon1_idx, lon2_idx)) :=
    exit_on_exception
      (lift (get_era5_corners_of_rss_cell e (r_lat r) (r_lon r) lats lons
                                          grb_spa_resolu)) in
  let square_data := py_slice2 data lat1_idx (lat2_idx + 1) lon1_idx (lon2_idx + 1) in
  let square_lats := py_slice2 lats lat1_idx (lat2_idx + 1) lon1_idx (lon2_idx + 1) in
  let square_lons := py_slice2 lons lat1_idx (lat2_idx + 1) lon1_idx (lon2_idx + 1) in
  if Qeq_bool grb_spa_resolu 0.25
  then ret (np_mean square_data)
  else value_of_rss_pt_in_era5_square e square_data square_lats square_lons
                                      (r_lat r) (r_lon r).

(** Lines 624-644: the value of one record in the pressure-level pass. *)
Definition value_pressure_levels (e : env) (data lats lons : grid)
    (grb_spa_resolu : Q) (r : row) : M Q :=
  let* (_, (lat1_idx, lat2_idx, lon1_idx, lon2_idx)) :=
    lift (get_era5_corners_of_rss_cell e (r_lat r) (r_lon r) lats lons
                                       grb_spa_resolu) in
  let square_data := py_slice2 data lat1_idx (lat2_idx + 1) lon1_idx (lon2_idx + 1) in
  let square_lats := py_slice2 lats lat1_idx (lat2_idx + 1) lon1_idx (lon2_idx + 1) in
  let square_lons := py_slice2 lons lat1_idx (lat2_idx + 1) lon1_idx (lon2_idx + 1) in
  if Qeq_bool grb_spa_resolu 0.25
  then ret (np_mean data)
  else value_of_rss_pt_in_era5_square e square_data square_lats square_lons
                                      (r_lat r) (r_lon r).

(** [satel_part[idx]] changed in place by [f]. *)
Definition update_row (idx : nat) (f : row -> M row) (rows : list row)
    : M (list row) :=
  match rows !! idx with
  | Some r => let* r' := f r in ret (<[idx := r']> rows)
  | None => lift (Raise IndexError)
  end.

Definition satel_minute (r : row) : Z :=
  dt_hour (satel_datetime r) * 60 + dt_minute (satel_datetime r).

(** The body of [for idx in hourtime_row_mapper[hourtime]] in the surface
    pass. *)
Definition resample_row_single (e : env) (tc_dt : datetime) (hourtime : Z)
    (grb_time : Z) (name : string) (data lats lons : grid) (res : Q)
    (r : row) : M row :=
  let r := set_era5_datetime (combine (dt_date tc_dt) grb_time) r in
  let grb_minute := hourtime / 100 * 60 in
  let r := set_satel_era5_diff_mins (satel_minute r - grb_minute) r in
  let* value := value_single_levels e data lats lons res r in
  ret (setattr name value r).

(** The same body in the pressure-level pass; [None] stands for the
    [continue] on a message of another level. *)
Definition resample_row_pressure (e : env) (tc_dt : datetime) (hourtime : Z)
    (grb_time : Z) (name : string) (data lats lons : grid) (res : Q)
    (r : row) : M row :=
  let era5_dt := combine (dt_date tc_dt) grb_time in
  let* _ := (if decide (era5_datetime r = Some era5_dt) then ret tt
             else tell (EvLogError "datetime not same in two steps of extracting ERA5")) in
  let grb_minute := hourtime / 100 * 60 in
  let diff_mins := satel_minute r - grb_minute in
  let* _ := (if decide (satel_era5_diff_mins r = Some diff_mins) then ret tt
             else tell (EvLogError "diff_mins not same in two steps of extracting ERA5")) in
  let* value := value_pressure_levels e data lats lons res r in
  ret (setattr name value r).

(** [for grb in selected_grbs] of either pass; [per_row] is the body of the
    innermost loop and may skip an index. *)
Definition resample_messages (e : env) (ar : area)
    (per_row : grib_message -> string -> grid -> grid -> grid -> nat ->
               list row -> M (list row))
    (bucket : list nat) (selected_grbs : list grib_message)
    (rows : list row) : M (list row) :=
  for_eachM selected_grbs (fun grb rows =>
    let name := process_grib_message_name e (grb_name grb) in
    let* (data, lats, lons) :=
      lift (grb_data grb (south ar) (north ar) (west ar) (east ar)) in
    let data := rev data in
    let lats := rev lats in
    let lons := rev lons in
    for_eachM bucket (per_row grb name data lats lons) rows) rows.

(** [for hourtime in range(0, 2400, 100)] of either pass. *)
Definition resample_hours (e : env) (era5_file_path : string) (ar : area)
    (hourtime_row_mapper : gmap Z (list nat))
    (per_row : Z -> Z -> grib_message -> string -> grid -> grid -> grid ->
               nat -> list row -> M (list row))
    (rows : list row) : M (list row) :=
  for_eachM hourtimes_of_day (fun hourtime rows =>
    match hourtime_row_mapper !! hourtime with
    | None => lift (Raise KeyError)
    | Some [] => ret rows
    | Some bucket =>
        let* grb_time := lift (mk_time (hourtime / 100) 0) in
        let* selected_grbs := lift (grib_select e era5_file_path hourtime) in
        resample_messages e ar (per_row hourtime grb_time) bucket selected_grbs rows
    end) rows.

(** Lines 418-484: the surface pass over the hour buckets. *)
Definition resample_single_levels (e : env) (era5_file_path : string)
    (tc_dt : datetime) (ar : area) (hourtime_row_mapper : gmap Z (list nat))
    (satel_part : list row) : M (list row) :=
  resample_hours e era5_file_path ar hourtime_row_mapper
    (fun hourtime grb_time grb name data lats lons idx rows =>
       update_row idx
         (resample_row_single e tc_dt hourtime grb_time name data lats lons
                              (jDirectionIncrementInDegrees grb)) rows)
    satel_part.

(** Lines 486-503: the nearest pressure level and the derived winds of
    every record, in list order. *)
Definition derive_row (e : env) (r : row) : outcome (row * Q) :=
  obind (getattr "mean_sea_level_pressure" r) (fun mslp =>
  obind (get_nearest_element_and_index (pres_lvls (cfg e)) (mslp / 100)%Q)
        (fun '(nearest_pres_lvl, _) =>
  obind (getattr "neutral_wind_at_10_m_u_component" r) (fun u =>
  obind (getattr "neutral_wind_at_10_m_v_component" r) (fun v =>
  obind (compose_wind e u v) (fun '(windspd, winddir) =>
  let r := setattr "era5_10m_neutral_equivalent_windspd" windspd r in
  let r := setattr "era5_10m_neutral_equivalent_winddir" winddir r in
  obind (decompose_wind e (smap_windspd r) winddir) (fun '(su, sv) =>
  let r := setattr "smap_u_wind" su r in
  let r := setattr "smap_v_wind" sv r in
  Ok (r, nearest_pres_lvl))))))).

Fixpoint derive_rows (e : env) (rows : list row) : outcome (list row * list Q) :=
  match rows with
  | [] => Ok ([], [])
  | r :: rows' =>
      obind (derive_row e r) (fun '(r', lvl) =>
      obind (derive_rows e rows') (fun '(rs, lvls) =>
      Ok (r' :: rs, lvl :: lvls)))
  end.

Definition add_era5_single_levels (e : env) (era5_file_path : string)
    (tc_dt : datetime) (satel_part : list row) (hourtimes : list Z) (ar : area)
    : M (list row * list Q) :=
  let* hourtime_row_mapper := call_get_hourtime_row_mapper satel_part in
  (* pygrib.open and pygrib.index; the count of messages only feeds the
     progress line *)
  let* messages_num := lift (grib_open e era5_file_path) in
  let* satel_part :=
    resample_single_levels e era5_file_path tc_dt ar hourtime_row_mapper
                           satel_part in
  lift (derive_rows e satel_part).

Definition add_era5_pressure_levels (e : env) (era5_file_path : string)
    (tc_dt : datetime) (era5_step_1 : list row) (hourtimes : list Z) (ar : area)
    (pres_lvls : list Q) : M (list row) :=
  let* hourtime_row_mapper := call_get_hourtime_row_mapper era5_step_1 in
  let* messages_num := lift (grib_open e era5_file_path) in
  resample_hours e era5_file_path ar hourtime_row_mapper
    (fun hourtime grb_time grb name data lats lons idx rows =>
       let* lvl := lift (py_index pres_lvls (Z.of_nat idx)) in
       if negb (Qeq_bool lvl (grb_level grb)) then ret rows
       else update_row idx
              (resample_row_pressure e tc_dt hourtime grb_time name data lats
                                     lons (jDirectionIncrementInDegrees grb))
              rows)
    era5_step_1.

(** [sorted(list(set(pres_lvls)))]. *)
Fixpoint insert_level (x : Q) (l : list Q) : list Q :=
  match l with
  | [] => [x]
  | y :: l' =>
      if Qeq_bool x y then l
      else if Qltb x y then x :: l
      else y :: insert_level x l'
  end.

Definition sorted_set (l : list Q) : list Q := fold_right insert_level [] l.

Definition extract_era5_single_levels (e : env) (tc_id : string)
    (tc_dt : datetime) (satel_part : list row) (hourtimes : list Z) (ar : area)
    : M (list row * list Q) :=
  let* era5_file_path :=
    lift (download_single_levels_vars e tc_dt hourtimes ar tc_id) in
  add_era5_single_levels e era5_file_path tc_dt satel_part hourtimes ar.

Definition extract_era5_pressure_levels (e : env) (tc_id : string)
    (tc_dt : datetime) (era5_step_1 : list row) (hourtimes : list Z) (ar : area)
    (pres_lvls : list Q) : M (list row) :=
  let* era5_file_path :=
    lift (download_pressure_levels_vars e tc_dt hourtimes ar
                                        (sorted_set pres_lvls) tc_id) in
  add_era5_pressure_levels e era5_file_path tc_dt era5_step_1 hourtimes ar
                           pres_lvls.

Definition extract_era5 (e : env) (tc_id : string) (tc_dt : datetime)
    (satel_part : list row) (hourtimes : list Z) (ar : area) : M (list row) :=
  exit_on_exception
    (let* (era5_step_1, pres_lvls) :=
       extract_era5_single_levels e tc_id tc_dt satel_part hourtimes ar in
     extract_era5_pressure_levels e tc_id tc_dt era5_step_1 hourtimes ar
                                  pres_lvls).

(** ** Extraction around one point *)

Definition extract_smap (e : env) (tc_id : string) (tc_dt : datetime)
    (tc_lon tc_lat : Q) : outcome (list row * list Z * area) :=
  obind (smap_download e tc_dt) (fun smap_file_path =>
  obind (get_smap_part (cfg e) (read_swath e) tc_id tc_dt tc_lon tc_lat
                       smap_file_path) unpack3).

Definition extract_detail (e : env) (c : call) : M unit :=
  let* _ := tell (EvExtract c) in
  let* _ := lift (create_smap_era5_table e (c_dt c)) in
  let* (data, hourtimes, ar) :=
    lift (extract_smap e (c_sid c) (c_dt c) (c_lon c) (c_lat c)) in
  if (length data =? 0)%nat then ret tt
  else
    let* data := extract_era5 e (c_sid c) (c_dt c) data hourtimes ar in
    let* _ := lift (bulk_insert_avoid_duplicate_unique e data) in
    tell (EvInsert data).

(** ** The traversal of the track table *)

(** Modelled from the spec: [utils.get_center_shift_of_two_tcs] is not
    among the sources.  The spec interpolates longitude and latitude
    linearly between the two fixes, [fix0 + h/H * (fix1 - fix0)] on each
    axis, so the shift is the difference of the coordinates. *)
Definition get_center_shift_of_two_tcs (next_tc tc : tc_fix) : Q * Q :=
  ((lon next_tc - lon tc)%Q, (lat next_tc - lat tc)%Q).

Definition call_of_fix (tc : tc_fix) : call :=
  Call (sid tc) (date_time tc) (lon tc) (lat tc).

Section Traversal.

(** [self.extract_detail], the land mask and the longitude conversion. *)
Variable detail : call -> M unit.
Variable to_180 : Q -> outcome Q.
Variable land : Q -> Q -> outcome bool.

Definition extract_between_two_tc_records (tc next_tc : tc_fix) : M unit :=
  let delta := date_time next_tc - date_time tc in
  if negb (td_days delta =? 0) then detail (call_of_fix tc)
  else
    (* int(delta.seconds / 3600): the float quotient of an integer below
       86400 by 3600 truncates to the integer quotient *)
    let hours := td_seconds delta / 3600 in
    let '(lon_shift, lat_shift) := get_center_shift_of_two_tcs next_tc tc in
    if hours =? 0 then lift (Raise ZeroDivisionError)
    else
      let hourly_lon_shift := (lon_shift / inject_Z hours)%Q in
      let hourly_lat_shift := (lat_shift / inject_Z hours)%Q in
      for_eachM (zrange (Z.to_nat hours)) (fun h _ =>
        let interp_dt := date_time tc + h * 3600 in
        let interp_tc_lon := (inject_Z h * hourly_lon_shift + lon tc)%Q in
        let interp_tc_lat := (inject_Z h * hourly_lat_shift + lat tc)%Q in
        detail (Call (sid tc) interp_dt interp_tc_lon interp_tc_lat)) tt.

(** The body of the [try] for the fix at position [idx]. *)
Definition extract_fix (tc_query : list tc_fix) (total : Z) (idx : Z)
    (tc : tc_fix) : M unit :=
  let* converted_lon := lift (to_180 (lon tc)) in
  let* on_land := lift (land (lat tc) converted_lon) in
  if on_land then ret tt
  else if idx <? total - 1 then
    let* next_tc := lift (py_index tc_query (idx + 1)) in
    if String.eqb (sid tc) (sid next_tc)
    then extract_between_two_tc_records tc next_tc
    else detail (call_of_fix tc)
  else detail (call_of_fix tc).

(** [for idx, tc in enumerate(tc_query)] from position [idx] on. *)
Fixpoint extract_from (tc_query : list tc_fix) (total : Z) (idx : Z)
    (rest : list tc_fix) : M unit :=
  match rest with
  | [] => ret tt
  | tc :: rest' =>
      let* _ := exit_on_exception (extract_fix tc_query total idx tc) in
      extract_from tc_query total (idx + 1) rest'
  end.

Definition extract_with (tc_query : list tc_fix) : M unit :=
  extract_from tc_query (Z.of_nat (length tc_query)) 0 tc_query.

End Traversal.

(** [matchManager.extract] over the fixes the query returns. *)
Definition extract (e : env) (tc_query : list tc_fix) : M unit :=
  extract_with (extract_detail e) (longtitude_converter e) (is_land e) tc_query.

(** A stand-in for [extract_detail] that only records its arguments. *)
Definition probe_detail (c : call) : M unit := tell (EvExtract c).

Definition extract_calls (log : list event) : list call :=
  flat_map (fun ev => match ev with EvExtract c => [c] | _ => [] end) log.

(** The grid of the RSS product: a quarter of a degree, with the half
    window given in grid steps. *)
Definition cfg_rss (half : Z) : config :=
  Config 0.25 half (-9999) (-9999) [1000; 975; 950; 925; 900]%Q.

(** ** Sample collaborators and inputs *)

(** Collaborators that all answer: the swath file provider, the window
    read and the GRIB index are given, the corner lookup names the first
    2x2 cell of the region, and nothing is on land. *)
Definition make_env (c : config) (download : datetime -> outcome string)
    (read : string -> square -> outcome swath)
    (select : string -> Z -> outcome (list grib_message)) : env :=
  Env c
      (fun l => Ok (if Qltb 180 l then l - 360 else l)%Q)
      (fun _ _ => Ok false)
      (fun _ => Ok tt)
      download
      read
      (fun _ _ _ _ => Ok "era5_single_levels.grib"%string)
      (fun _ _ _ _ _ => Ok "era5_pressure_levels.grib"%string)
      (fun _ => Ok 1)
      select
      (fun name => name)
      (fun _ _ _ _ _ => Ok ((0, 0, 0, 0)%Q, (0, 1, 0, 1)))
      (fun _ _ _ _ _ => Ok 0%Q)
      (fun u v => Ok (u, v))
      (fun spd dir => Ok (spd, dir))
      (fun _ => Ok tt).

(** A configuration whose fine grid has half-degree steps: its latitude
    list [y * 0.5 - 89.875] runs beyond 90 degrees. *)
Definition cfg_half_degree : config :=
  Config 0.5 10 (-9999) (-9999) [1000; 975; 950; 925; 900]%Q.

Definition env_half_degree : env :=
  make_env cfg_half_degree (fun _ => Ok "smap.nc"%string)
           (fun _ _ => Ok (Swath [] [])) (fun _ _ => Ok []).

(** 2018-09-15 00:00:00. *)
Definition sep15 : datetime := combine 736951 0.

Definition polar_fix : tc_fix := TcFix "2018250N12160" sep15 100 88.

(** Two fixes of one track a day and six hours apart, and two fixes six
    hours apart. *)
Definition fix_a : tc_fix := TcFix "2018250N12160" sep15 140 15.
Definition fix_late : tc_fix :=
  TcFix "2018250N12160" (sep15 + 86400 + 6 * 3600) 138 17.
Definition fix_b : tc_fix := TcFix "2018250N12160" (sep15 + 6 * 3600) 137 18.
Definition fix_other : tc_fix := TcFix "2018255N10150" (sep15 + 6 * 3600) 150 10.

(** The swath file provider fails. *)
Definition env_no_swath : env :=
  make_env (cfg_rss 20) (fun _ => Raise (UpstreamError "download failed"))
           (fun _ _ => Ok (Swath [] [])) (fun _ _ => Ok []).


(** A 3x3 field of quarter-degree resolution, as pygrib returns it (north
    to south), and a surface and a pressure-level message carrying it. *)
Definition field_north_first : grid := [[7; 8; 9]; [4; 5; 6]; [1; 2; 3]]%Q.
Definition field_lats : grid :=
  [[15.25; 15.25; 15.25]; [15; 15; 15]; [14.75; 14.75; 14.75]]%Q.
Definition field_lons : grid :=
  [[139.75; 140; 140.25]; [139.75; 140; 140.25]; [139.75; 140; 140.25]]%Q.

Definition msg_surface : grib_message :=
  Grb "mean_sea_level_pressure" 0 0.25
      (fun _ _ _ _ => Ok (field_north_first, field_lats, field_lons)).
Definition msg_level : grib_message :=
  Grb "temperature" 1000 0.25
      (fun _ _ _ _ => Ok (field_north_first, field_lats, field_lons)).

(** Both files hold their message at 01:00 only. *)
Definition env_quarter : env :=
  make_env (cfg_rss 20) (fun _ => Ok "smap.nc"%string)
           (fun _ _ => Ok (Swath [] []))
           (fun path hourtime =>
              if hourtime =? 100 then
                if String.eqb path "era5_single_levels.grib"
                then Ok [msg_surface] else Ok [msg_level]
              else Ok []).

(** A record of 00:50 at 14.875 N, 139.875 E, after the surface pass. *)
Definition row_0050 : row :=
  Row "2018250N12160" (sep15 + 50 * 60) 0 0 139.875 14.875
      (sep15 + 50 * 60, 139.875%Q, 14.875%Q) 12
      (Some (sep15 + 3600)) (Some (-10)) ∅.

Definition area_quarter : area := Area 15.375 139.375 14.375 140.375.

(** The value written under [name] on the record at [idx]. *)
Definition written {A} (name : string) (idx : nat) (o : outcome (list row) * A)
    : option Q :=
  match fst o with
  | Ok rows => match rows !! idx with
               | Some r => attrs r !! name
               | None => None
               end
  | _ => None
  end.

(** A 3x3 window late in the evening: one pass at 23:20 in the south-west
    cell, one pass at 23:40 in the north-east cell, everything else
    missing; the query is made at 23:15. *)
Definition evening : datetime := sep15 + 23 * 3600 + 15 * 60.

Definition no_pass : list Z := [-9999; -9999].

Definition evening_swath : swath :=
  Swath [[[1400; 5]; no_pass; no_pass];
         [no_pass; no_pass; no_pass];
         [no_pass; no_pass; [1420; 7]]]
        [[[11; 12]; [0; 0]; [0; 0]];
         [[0; 0]; [0; 0]; [0; 0]];
         [[0; 0]; [0; 0]; [13; 14]]]%Q.



(** ** Specifications in the pipeline monad *)

(** [hoare P m Q]: running [m] keeps every event of the log in [P], and a
    normal return yields a value in [Q]. *)
Definition hoare {A} (P : event -> Prop) (m : M A) (Q : A -> Prop) : Prop :=
  forall s, Forall P s ->
    Forall P (snd (m s)) /\ forall a, fst (m s) = Ok a -> Q a.

(** Every call of the hour-bucket builder in the log was given records. *)
Definition buckets_nonempty (ev : event) : Prop :=
  match ev with
  | EvBuckets satel_part => satel_part <> []
  | _ => True
  end.


(** A complete run: one fix at 00:40, a window whose centre cell has a
    pass at 00:50, the three surface messages the derived winds need and
    one pressure-level message at 900 hPa, all at 01:00. *)
Definition morning_swath : swath :=
  Swath [[no_pass; no_pass; no_pass];
         [no_pass; [50; 700]; no_pass];
         [no_pass; no_pass; no_pass]]
        [[[0; 0]; [0; 0]; [0; 0]];
         [[0; 0]; [12; 9]; [0; 0]];
         [[0; 0]; [0; 0]; [0; 0]]]%Q.

Definition msg_named (name : string) (level : Q) : grib_message :=
  Grb name level 0.25
      (fun _ _ _ _ => Ok (field_north_first, field_lats, field_lons)).

Definition env_pipeline : env :=
  make_env (cfg_rss 1) (fun _ => Ok "smap.nc"%string)
           (fun _ _ => Ok morning_swath)
           (fun path hourtime =>
              if hourtime =? 100 then
                if String.eqb path "era5_single_levels.grib"
                then Ok [msg_named "mean_sea_level_pressure" 0;
                         msg_named "neutral_wind_at_10_m_u_component" 0;
                         msg_named "neutral_wind_at_10_m_v_component" 0]
                else Ok [msg_named "temperature" 900]
              else Ok []).

Definition fix_morning : tc_fix :=
  TcFix "2018250N12160" (sep15 + 40 * 60) 120.125 10.125.

(** Two records of the evening of 2018-09-15, at 23:20 and at 23:40. *)
Definition row_at (t : datetime) : row :=
  Row "2018250N12160" t 0 0 120.125 10.125 (t, 120.125%Q, 10.125%Q) 12
      None None ∅.

Definition row_2320 : row := row_at (sep15 + 23 * 3600 + 20 * 60).
Definition row_2340 : row := row_at (sep15 + 23 * 3600 + 40 * 60).



(** The query 0001-01-02 12:29:59; the pass minute 720 (12:00) is 1799
    seconds earlier on the same day. *)
Definition late_query : datetime := combine 1 (12 * 3600 + 29 * 60 + 59).

(** ** Records read off the window *)

(** [r] is the record the triple loop builds for pass [i] of the cell
    [(y, x)] of the window: the pass got through the filters of lines
    278-290 with the time [satel_datetime r], and the fields are the ones
    lines 295-317 assign. *)
Definition record_of_pixel (c : config) (tc_id : string) (tc_dt : datetime)
    (lat1 lon1 : Q) (sw : swath) (r : row) (y x i : Z) : Prop :=
  reaches_row c tc_dt sw y x i /\
  (exists cell_minute cell_wind,
      cell_at sw y x = Ok (cell_minute, cell_wind) /\
      pixel_time c tc_dt cell_minute cell_wind i = Ok (Some (satel_datetime r)) /\
      py_index cell_wind i = Ok (smap_windspd r)) /\
  r_sid r = tc_id /\
  r_x r = x - half_edge_grid_intervals c /\
  r_y r = y - half_edge_grid_intervals c /\
  r_lon r = lon_of_col c lon1 x /\
  r_lat r = lat_of_row c lat1 y /\
  satel_datetime_lon_lat r = (satel_datetime r, r_lon r, r_lat r) /\
  era5_datetime r = None /\ satel_era5_diff_mins r = None /\ attrs r = ∅ /\
  rounds_to_next_day (satel_datetime r) = false.

(** The accumulators hold records of pixels only, and the set of hours is
    the set of the rounded hours of these records. *)
Definition acc_records (c : config) (tc_id : string) (tc_dt : datetime)
    (lat1 lon1 : Q) (sw : swath) (acc : smap_acc) : Prop :=
  Forall (fun r => exists y x i, record_of_pixel c tc_id tc_dt lat1 lon1 sw r y x i)
         (acc_data acc) /\
  forall h, h ∈ acc_hourtimes acc <->
            exists r, In r (acc_data acc) /\ dt_hour (hour_rounder (satel_datetime r)) = h.

(** A 3x3 window in which every pass carries the missing-value sentinel. *)
Definition all_missing_swath : swath :=
  Swath [[no_pass; no_pass; no_pass];
         [no_pass; no_pass; no_pass];
         [no_pass; no_pass; no_pass]]
        [[[0; 0]; [0; 0]; [0; 0]];
         [[0; 0]; [0; 0]; [0; 0]];
         [[0; 0]; [0; 0]; [0; 0]]]%Q.

(** A fix of the same track twenty minutes after [fix_a]. *)
Definition fix_soon : tc_fix :=
  TcFix "2018250N12160" (sep15 + 20 * 60) 139.9 15.1.

(** Lines 127-130: the point extracted for hour [h] between two fixes
    [hours] whole hours apart. *)
Definition interp_call (tc next_tc : tc_fix) (hours h : Z) : call :=
  Call (sid tc) (date_time tc + h * 3600)
       (inject_Z h * ((lon next_tc - lon tc) / inject_Z hours) + lon tc)%Q
       (inject_Z h * ((lat next_tc - lat tc) / inject_Z hours) + lat tc)%Q.

(** The indices, from [idx] on, of the records whose rounded time falls on
    the day of the month [satel_day] and at the hour of the key
    [hourtime]. *)
Fixpoint indices_for (satel_day hourtime : Z) (rows : list row) (idx : nat)
    : list nat :=
  match rows with
  | [] => []
  | r :: rows' =>
      let t := hour_rounder (satel_datetime r) in
      if (dt_day t =? satel_day) && (100 * dt_hour t =? hourtime)
      then idx :: indices_for satel_day hourtime rows' (S idx)
      else indices_for satel_day hourtime rows' (S idx)
  end.

(** The part of a record that comes from the swath file. *)
Definition same_satellite_part (r0 r : row) : Prop :=
  r_sid r = r_sid r0 /\ satel_datetime r = satel_datetime r0 /\
  r_x r = r_x r0 /\ r_y r = r_y r0 /\ r_lon r = r_lon r0 /\ r_lat r = r_lat r0 /\
  satel_datetime_lon_lat r = satel_datetime_lon_lat r0 /\
  smap_windspd r = smap_windspd r0.

(** The two time fields of the reanalysis are those of [r0]. *)
Definition same_era5_time (r0 r : row) : Prop :=
  era5_datetime r = era5_datetime r0 /\
  satel_era5_diff_mins r = satel_era5_diff_mins r0.

(** What the surface pass may have done to the record [r0]: the satellite
    part is kept, and the time fields are kept or set for the rounded hour
    of the record on the query date. *)
Definition surface_resampled (tc_dt : datetime) (r0 r : row) : Prop :=
  same_satellite_part r0 r /\
  (same_era5_time r0 r \/
   let hour := dt_hour (hour_rounder (satel_datetime r0)) in
   era5_datetime r = Some (combine (dt_date tc_dt) (hour * 3600)) /\
   satel_era5_diff_mins r = Some (satel_minute r0 - hour * 60)).

(** Two lists of records related index by index. *)
Definition rows_related (R : row -> row -> Prop) (rows0 rows : list row) : Prop :=
  length rows = length rows0 /\
  forall i r0 r, rows0 !! i = Some r0 -> rows !! i = Some r -> R r0 r.

(** What the loop of lines 486-503 leaves on a record [r0]: the satellite
    part and the time fields are kept, the four derived columns are
    written, and the level is one of the configured pressure levels. *)
Definition derived (e : env) (r0 r : row) (lvl : Q) : Prop :=
  same_satellite_part r0 r /\ same_era5_time r0 r /\
  In lvl (pres_lvls (cfg e)) /\
  is_Some (attrs r0 !! "mean_sea_level_pressure"%string) /\
  is_Some (attrs r !! "era5_10m_neutral_equivalent_windspd"%string) /\
  is_Some (attrs r !! "era5_10m_neutral_equivalent_winddir"%string) /\
  is_Some (attrs r !! "smap_u_wind"%string) /\
  is_Some (attrs r !! "smap_v_wind"%string) /\
  forall k, is_Some (attrs r0 !! k) -> is_Some (attrs r !! k).

(** What the pressure-level pass may have done to the record [r0]: only
    columns written by name. *)
Definition pressure_resampled (r0 r : row) : Prop :=
  same_satellite_part r0 r /\ same_era5_time r0 r /\
  forall k, is_Some (attrs r0 !! k) -> is_Some (attrs r !! k).

(** A record as the sink should get it: extracted from the swath through
    all its filters, and carrying the surface pressure and the derived
    winds. *)
Definition matched (e : env) (r : row) : Prop :=
  rounds_to_next_day (satel_datetime r) = false /\
  dt_second (satel_datetime r) = 0 /\
  Qeq_bool (smap_windspd r) (wind_missing (cfg e)) = false /\
  is_Some (attrs r !! "mean_sea_level_pressure"%string) /\
  is_Some (attrs r !! "era5_10m_neutral_equivalent_windspd"%string) /\
  is_Some (attrs r !! "era5_10m_neutral_equivalent_winddir"%string) /\
  is_Some (attrs r !! "smap_u_wind"%string) /\
  is_Some (attrs r !! "smap_v_wind"%string).

(** Every batch handed to the bulk insert is non-empty and made of such
    records, all of one track. *)
Definition sink_ok (e : env) (ev : event) : Prop :=
  match ev with
  | EvInsert rows =>
      rows <> [] /\ Forall (matched e) rows /\
      exists tc_id, Forall (fun r => r_sid r = tc_id) rows
  | _ => True
  end.

(** ** The list of records in the order of the triple loop *)

(** What pass [i] of the cell [(y, x)] appends to the list of records:
    lines 278-336 run on the initial accumulators. *)
Definition pixel_rows (c : config) (tc_id : string) (tc_dt : datetime)
    (lat1 lon1 : Q) (sw : swath) (y x i : Z) : list row :=
  match pass_body c tc_id tc_dt lat1 lon1 sw y x i init_acc with
  | Ok acc => acc_data acc
  | _ => []
  end.

(** The records of all passes of all cells, rows of the window first, then
    columns, then passes. *)
Definition window_rows (c : config) (tc_id : string) (tc_dt : datetime)
    (lat1 lon1 : Q) (sw : swath) : list row :=
  flat_map (fun y =>
    flat_map (fun x =>
      flat_map (pixel_rows c tc_id tc_dt lat1 lon1 sw y x)
               (zrange (passes_num sw)))
      (zrange (lons_num sw)))
    (zrange (lats_num sw)).

(** The time of a record and its offsets in the window. *)
Definition pixel_key (r : row) : datetime * Z * Z :=
  (satel_datetime r, r_x r, r_y r).

(** A window with two passes in one cell inside the half hour. *)
Definition twin_swath : swath :=
  Swath [[[1400; 1405]; no_pass; no_pass];
         [no_pass; no_pass; no_pass];
         [no_pass; no_pass; [1420; 7]]]
        [[[11; 12]; [0; 0]; [0; 0]];
         [[0; 0]; [0; 0]; [0; 0]];
         [[0; 0]; [0; 0]; [13; 14]]]%Q.

(** Collaborators whose swath has no pass at all. *)
Definition env_all_missing : env :=
  make_env (cfg_rss 1) (fun _ => Ok "smap.nc"%string)
           (fun _ _ => Ok all_missing_swath) (fun _ _ => Ok []).

(** ** Where the extraction points come from *)

(** A fix the land test of line 93 lets through. *)
Definition ocean_fix (e : env) (tc : tc_fix) : Prop :=
  exists converted_lon,
    longtitude_converter e (lon tc) = Ok converted_lon /\
    is_land e (lat tc) converted_lon = Ok false.

(** The point [c] is an ocean fix of the query, or one of the hourly
    points between an ocean fix and the fix that follows it in the query,
    of the same track and less than a day later. *)
Definition call_origin (e : env) (tc_query : list tc_fix) (c : call) : Prop :=
  exists (idx : nat) (tc : tc_fix),
    nth_error tc_query idx = Some tc /\ ocean_fix e tc /\
    (c = call_of_fix tc \/
     exists next_tc h,
       nth_error tc_query (S idx) = Some next_tc /\ sid tc = sid next_tc /\
       td_days (date_time next_tc - date_time tc) = 0 /\
       0 <= h < td_seconds (date_time next_tc - date_time tc) / 3600 /\
       c = interp_call tc next_tc
                       (td_seconds (date_time next_tc - date_time tc) / 3600) h).

Definition calls_from (e : env) (tc_query : list tc_fix) (ev : event) : Prop :=
  match ev with
  | EvExtract c => call_origin e tc_query c
  | _ => True
  end.

(** * Properties *)

(** ** Basic facts *)

Lemma Qltb_lt (x y : Q) : Qltb x y = true <-> (x < y)%Q.
Proof.
  unfold Qltb. rewrite negb_true_iff.
  destruct (Qle_bool y x) eqn:E.
  - apply Qle_bool_iff in E. split; [discriminate | intros H; exfalso; lra].
  - split; [intros _ | reflexivity].
    destruct (Qlt_le_dec x y) as [H | H]; [exact H |].
    apply Qle_bool_iff in H. congruence.
Qed.

Lemma Qltb_ge (x y : Q) : Qltb x y = false <-> (y <= x)%Q.
Proof.
  unfold Qltb. rewrite negb_false_iff. apply Qle_bool_iff.
Qed.

Lemma obind_ret {A B} (a : A) (k : A -> outcome B) : obind (Ok a) k = k a.
Proof. reflexivity. Qed.

Lemma obind_Ok {A B} (o : outcome A) (k : A -> outcome B) (b : B) :
  obind o k = Ok b -> exists a, o = Ok a /\ k a = Ok b.
Proof.
  destruct o as [a | e | e]; cbn; intros H; try discriminate.
  exists a. split; [reflexivity | exact H].
Qed.

Lemma py_index_In {A} (l : list A) (i : Z) (a : A) :
  py_index l i = Ok a -> In a l.
Proof.
  unfold py_index.
  destruct (_ || _); [discriminate |].
  destruct (nth_error l _) eqn:E; [| discriminate].
  intros [= <-]. eapply nth_error_In; eassumption.
Qed.

Lemma py_index_nat {A} (l : list A) (n : nat) (a : A) :
  nth_error l n = Some a -> py_index l (Z.of_nat n) = Ok a.
Proof.
  intros H. unfold py_index.
  assert (Hn : (n < length l)%nat) by (apply nth_error_Some; congruence).
  destruct (Z.of_nat n <? 0) eqn:E1; [lia |].
  destruct (Z.of_nat n <? 0) eqn:E2; [lia |].
  destruct (Z.of_nat (length l) <=? Z.of_nat n) eqn:E3; [lia |].
  cbn. rewrite Nat2Z.id, H. reflexivity.
Qed.

(** ** The time window of the swath extractor *)

(** On the query date the window test keeps exactly the pixels from the
    query time up to, but not including, thirty minutes after it: a pixel
    before the query time has [delta.days = -1] and is dropped. *)
Lemma in_window_spec (tc_dt : datetime) (time_ : Z) :
  0 <= time_ < 86400 ->
  let pixel_dt := combine (dt_date tc_dt) time_ in
  in_window tc_dt pixel_dt = true <-> 0 <= pixel_dt - tc_dt < 1800.
Proof.
  intros Ht pixel_dt. unfold in_window, td_days, td_seconds.
  assert (Hd : -86400 < pixel_dt - tc_dt < 86400).
  { unfold pixel_dt, combine, dt_date.
    pose proof (Z.div_mod tc_dt 86400 ltac:(lia)).
    pose proof (Z.mod_pos_bound tc_dt 86400 ltac:(lia)). lia. }
  set (d := pixel_dt - tc_dt) in *.
  rewrite negb_true_iff, orb_false_iff, negb_false_iff, Z.eqb_eq, Z.leb_gt.
  split.
  - intros [H0 H1].
    assert (0 <= d < 86400) by (apply Z.div_small_iff in H0; lia).
    rewrite Z.mod_small in H1 by lia. lia.
  - intros H. rewrite Z.div_small, Z.mod_small by lia. lia.
Qed.

(** C2 (evaluation at the failing input).  A pixel 1799 seconds before the
    query time, on the query date and with valid minute and wind, is
    dropped by the window test, while the pixel 1799 seconds after the
    query time is kept: for the earlier pixel [delta.days] is -1. *)
Theorem window_drops_earlier_pixel :
  combine (dt_date late_query) (12 * 3600) - late_query = -1799 /\
  td_days (combine (dt_date late_query) (12 * 3600) - late_query) = -1 /\
  pixel_time (cfg_rss 20) late_query [720; 100] [7.5%Q; 8%Q] 0 = Ok None /\
  combine (dt_date (late_query - 1798)) (12 * 3600 + 30 * 60) - (late_query - 1798) = 1799 /\
  pixel_time (cfg_rss 20) (late_query - 1798) [750; 100] [7.5%Q; 8%Q] 0
    = Ok (Some (combine 1 (12 * 3600 + 30 * 60))).
Proof. split; [| split; [| split; [| split]]]; vm_compute; reflexivity. Qed.

(** ** The bounding square *)

Lemma lats_smap_bounds (c : config) :
  smap_resolution c = 0.25%Q ->
  forall q, In q (lats_smap c) -> (-89.875 <= q <= 89.875)%Q.
Proof.
  intros Hres q Hq.
  assert (Hall : forallb (fun q => Qle_bool (-89.875) q && Qle_bool q 89.875)
                         (lats_smap c) = true).
  { unfold lats_smap. rewrite Hres. vm_compute. reflexivity. }
  rewrite forallb_forall in Hall. specialize (Hall q Hq).
  apply andb_true_iff in Hall as [H1 H2].
  split; apply Qle_bool_iff; assumption.
Qed.

(** On the quarter-degree grid the test [lat1 < -90 or lat2 > 90] reads two
    elements of [self.lats['smap']], none of which is beyond 89.875 degrees:
    whenever the lookup returns, it reports success. *)
Lemma square_in_grid_always_success (lats lons : list Q) (half : Z)
    (tc_lon tc_lat : Q) (sq : square) :
  (forall q, In q lats -> (-89.875 <= q <= 89.875)%Q) ->
  square_in_grid lats lons half tc_lon tc_lat = Ok sq ->
  sq_success sq = true.
Proof.
  intros Hb H. unfold square_in_grid in H.
  apply obind_Ok in H as [[? ilon] [_ H]].
  apply obind_Ok in H as [[? ilat] [_ H]].
  apply obind_Ok in H as [lat1 [E1 H]].
  apply obind_Ok in H as [lat2 [E2 H]].
  apply obind_Ok in H as [lon1 [_ H]].
  apply obind_Ok in H as [lon2 [_ H]].
  injection H as <-. cbn [sq_success].
  apply py_index_In, Hb in E1. apply py_index_In, Hb in E2.
  apply negb_true_iff, orb_false_iff. split.
  - apply Qltb_ge. lra.
  - unfold Qgtb. apply Qltb_ge. lra.
Qed.

Lemma get_square_around_tc_always_success (c : config) (tc_lon tc_lat : Q) (sq : square) :
  smap_resolution c = 0.25%Q ->
  get_square_around_tc c tc_lon tc_lat = Ok sq ->
  sq_success sq = true.
Proof.
  intros Hres. apply square_in_grid_always_success, lats_smap_bounds, Hres.
Qed.

(** C5 (evaluation at the failing inputs).  With a half window of 20 grid
    steps (5 degrees), a centre at 89.125 S has its south edge 5 degrees
    beyond the pole, yet the lookup reports success: the index -17 wraps to
    the far end of the latitude list and the edge read there is 85.875 N.
    A centre at 89.125 N makes the lookup raise [IndexError] instead of
    reporting an unusable window. *)
Theorem square_across_pole_not_rejected :
  (exists sq,
      get_square_around_tc (cfg_rss 20) 100 (-89.125) = Ok sq /\
      sq_success sq = true /\
      sq_lat1_idx sq = -17 /\ sq_lat2_idx sq = 23 /\
      (sq_lat1 sq == 85.875)%Q /\
      (-89.125 - 20 * 0.25 < -90)%Q) /\
  get_square_around_tc (cfg_rss 20) 100 89.125 = Raise IndexError.
Proof.
  split.
  - eexists. split; [vm_compute; reflexivity |].
    split; [| split; [| split; [| split]]]; vm_compute; reflexivity.
  - vm_compute. reflexivity.
Qed.

(** ** The unusable window *)

(** When the lookup reports an unusable window, [get_smap_part] returns
    the pair [([], None)] and the unpacking into three names in
    [extract_smap] raises [ValueError]. *)
Lemma extract_smap_unusable_window (e : env) (tc_id : string) (tc_dt : datetime)
    (tc_lon tc_lat : Q) (path : string) (sq : square) :
  smap_download e tc_dt = Ok path ->
  get_square_around_tc (cfg e) tc_lon tc_lat = Ok sq ->
  sq_success sq = false ->
  get_smap_part (cfg e) (read_swath e) tc_id tc_dt tc_lon tc_lat path = Ok PairEmptyNone /\
  extract_smap e tc_id tc_dt tc_lon tc_lat = Raise ValueError.
Proof.
  intros Hd Hsq Hs.
  assert (Hp : get_smap_part (cfg e) (read_swath e) tc_id tc_dt tc_lon tc_lat path
               = Ok PairEmptyNone).
  { unfold get_smap_part. rewrite Hsq, obind_ret, Hs. reflexivity. }
  split; [exact Hp |].
  unfold extract_smap. rewrite Hd, obind_ret, Hp. reflexivity.
Qed.

(** C6 (evaluation at the failing input).  On the half-degree
    configuration a fix at 88 N has an unusable window; the swath part is
    the pair [([], None)], [extract_smap] raises [ValueError] on unpacking
    it, and the traversal exits on that error instead of skipping the
    point. *)
Theorem unusable_window_aborts_run :
  (exists sq, get_square_around_tc cfg_half_degree 100 88 = Ok sq /\
              sq_success sq = false) /\
  get_smap_part cfg_half_degree (read_swath env_half_degree)
                (sid polar_fix) sep15 100 88 "smap.nc" = Ok PairEmptyNone /\
  extract_smap env_half_degree (sid polar_fix) sep15 100 88 = Raise ValueError /\
  extract env_half_degree [polar_fix] []
  = (SysExit ValueError, [EvExtract (call_of_fix polar_fix)]).
Proof.
  split; [eexists; split; vm_compute; reflexivity |].
  split; [| split]; vm_compute; reflexivity.
Qed.

(** ** Consecutive fixes of one track *)

Lemma for_eachM_probe {A} (f : A -> call) (l : list A) (s : list event) :
  for_eachM l (fun a _ => probe_detail (f a)) tt s
  = (Ok tt, s ++ List.map (fun a => EvExtract (f a)) l).
Proof.
  revert s. induction l as [| a l IH]; intros s; cbn [for_eachM List.map].
  - unfold ret. rewrite app_nil_r. reflexivity.
  - unfold bind, probe_detail at 1, tell. rewrite IH, <- app_assoc. reflexivity.
Qed.

Lemma extract_calls_map (f : Z -> call) (l : list Z) :
  extract_calls (List.map (fun a => EvExtract (f a)) l) = List.map f l.
Proof.
  induction l as [| a l IH]; cbn; [reflexivity | rewrite <- IH; reflexivity].
Qed.

Lemma nth_error_zrange (n : nat) (h : Z) :
  0 <= h < Z.of_nat n -> nth_error (zrange n) (Z.to_nat h) = Some h.
Proof.
  intros Hh. unfold zrange.
  rewrite nth_error_map, nth_error_seq.
  destruct (Nat.ltb_spec (Z.to_nat h) n) as [_ | Hge]; [| lia].
  cbn. f_equal. lia.
Qed.

(** C3 (counterexample).  For two fixes of one track more than a day
    apart the extraction is made at the first fix, not at the second. *)
Lemma far_apart_extracts_first_fix :
  1 <= td_days (date_time fix_late - date_time fix_a) /\
  extract_calls (snd (extract_between_two_tc_records probe_detail fix_a fix_late []))
  = [call_of_fix fix_a] /\
  extract_calls (snd (extract_between_two_tc_records probe_detail fix_a fix_late []))
  <> [call_of_fix fix_late].
Proof.
  split; [vm_compute; discriminate |].
  split; [vm_compute; reflexivity |].
  vm_compute. intros H. discriminate H.
Qed.

(** C3 (amended).  When the time delta of two consecutive fixes of one
    track spans a full day or more, no interpolation is performed and the
    one extraction is made at the first fix's original point. *)
Theorem far_apart_no_interpolation (detail : call -> M unit) (tc next_tc : tc_fix) :
  1 <= td_days (date_time next_tc - date_time tc) ->
  extract_between_two_tc_records detail tc next_tc = detail (call_of_fix tc).
Proof.
  intros Hd. unfold extract_between_two_tc_records.
  destruct (td_days (date_time next_tc - date_time tc) =? 0) eqn:E.
  - apply Z.eqb_eq in E. lia.
  - reflexivity.
Qed.

Lemma far_apart_no_interpolation_witness :
  1 <= td_days (date_time fix_late - date_time fix_a) /\
  extract_between_two_tc_records probe_detail fix_a fix_late
  = probe_detail (call_of_fix fix_a).
Proof.
  split; [vm_compute; discriminate |].
  apply (far_apart_no_interpolation probe_detail fix_a fix_late).
  vm_compute. discriminate.
Defined.

(** A gap under one hour makes the hourly shift a division by zero. *)
Lemma sub_hour_gap_raises (detail : call -> M unit) (tc next_tc : tc_fix) (s : list event) :
  td_days (date_time next_tc - date_time tc) = 0 ->
  td_seconds (date_time next_tc - date_time tc) / 3600 = 0 ->
  extract_between_two_tc_records detail tc next_tc s = (Raise ZeroDivisionError, s).
Proof.
  intros Hd Hh. unfold extract_between_two_tc_records.
  rewrite Hd, Hh. reflexivity.
Qed.

(** C7.  For two consecutive fixes of one track less than a day apart,
    with a gap of [H] whole hours, exactly [H] points are extracted, and
    the point of hour [h] carries the first fix's track, the time [h] hours
    after it, and on each axis the linear interpolant
    [fix0 + h/H * (fix1 - fix0)]. *)
Theorem interpolation_points (tc next_tc : tc_fix) :
  td_days (date_time next_tc - date_time tc) = 0 ->
  let H := td_seconds (date_time next_tc - date_time tc) / 3600 in
  let calls :=
    extract_calls (snd (extract_between_two_tc_records probe_detail tc next_tc [])) in
  length calls = Z.to_nat H /\
  forall h, 0 <= h < H ->
    exists c, nth_error calls (Z.to_nat h) = Some c /\
      c_sid c = sid tc /\
      c_dt c = date_time tc + h * 3600 /\
      (c_lon c == lon tc + inject_Z h / inject_Z H * (lon next_tc - lon tc))%Q /\
      (c_lat c == lat tc + inject_Z h / inject_Z H * (lat next_tc - lat tc))%Q.
Proof.
  intros Hd H calls. subst calls.
  unfold extract_between_two_tc_records. rewrite Hd. cbn [Z.eqb negb].
  fold H. cbn [get_center_shift_of_two_tcs].
  assert (HH : 0 <= H).
  { apply Z.div_pos; [| lia]. apply Z.mod_pos_bound. lia. }
  destruct (H =? 0) eqn:E.
  - apply Z.eqb_eq in E. rewrite E. cbn. split; [reflexivity | intros h Hh; lia].
  - apply Z.eqb_neq in E.
    rewrite (for_eachM_probe
               (fun h => Call (sid tc) (date_time tc + h * 3600)
                    (inject_Z h * ((lon next_tc - lon tc) / inject_Z H) + lon tc)%Q
                    (inject_Z h * ((lat next_tc - lat tc) / inject_Z H) + lat tc)%Q)).
    cbn [snd app]. rewrite extract_calls_map.
    split.
    + rewrite length_map. unfold zrange. rewrite length_map, length_seq. reflexivity.
    + intros h Hh. eexists. split.
      * rewrite nth_error_map, nth_error_zrange by lia. reflexivity.
      * cbn [c_sid c_dt c_lon c_lat].
        assert (Hq : ~ (inject_Z H == 0)%Q).
        { intros Hq. apply E. unfold Qeq in Hq. cbn in Hq. lia. }
        repeat split; field; exact Hq.
Qed.

Lemma interpolation_points_witness :
  td_days (date_time fix_b - date_time fix_a) = 0 /\
  length (extract_calls
            (snd (extract_between_two_tc_records probe_detail fix_a fix_b [])))
  = 6%nat.
Proof.
  split; [vm_compute; reflexivity |].
  exact (proj1 (interpolation_points fix_a fix_b ltac:(vm_compute; reflexivity))).
Defined.

(** ** Failures during the traversal *)

Section TraversalFacts.

Variable detail : call -> M unit.
Variable to_180 : Q -> outcome Q.
Variable land : Q -> Q -> outcome bool.

Lemma extract_from_app (q : list tc_fix) (total : Z) (l1 l2 : list tc_fix) :
  forall (idx : Z) (s : list event),
    extract_from detail to_180 land q total idx (l1 ++ l2) s
    = match extract_from detail to_180 land q total idx l1 s with
      | (Ok _, s1) =>
          extract_from detail to_180 land q total (idx + Z.of_nat (length l1)) l2 s1
      | (Raise e, s1) => (Raise e, s1)
      | (SysExit e, s1) => (SysExit e, s1)
      end.
Proof.
  induction l1 as [| tc l1 IH]; intros idx s.
  - cbn. rewrite Z.add_0_r. reflexivity.
  - cbn [app extract_from length]. unfold bind.
    destruct (exit_on_exception _ s) as [[[] | e | e] s1]; try reflexivity.
    rewrite IH. replace (idx + 1 + Z.of_nat (length l1))
      with (idx + Z.of_nat (S (length l1))) by lia.
    reflexivity.
Qed.


(** C1 (amended).  When the fixes before some fix are processed without
    error and the processing of that fix raises an exception or exits, in
    a file provider, in the grid read or anywhere else, the traversal
    exits with that error at once: the run ends there and no later fix
    is processed. *)
Theorem first_failure_ends_run (pre : list tc_fix) (tc : tc_fix)
    (post : list tc_fix) (s s1 s2 : list event) (e : exn) :
  let q := pre ++ tc :: post in
  let total := Z.of_nat (length q) in
  extract_from detail to_180 land q total 0 pre s = (Ok tt, s1) ->
  (extract_fix detail to_180 land q total (Z.of_nat (length pre)) tc s1 = (Raise e, s2) \/
   extract_fix detail to_180 land q total (Z.of_nat (length pre)) tc s1 = (SysExit e, s2)) ->
  extract_with detail to_180 land q s = (SysExit e, s2).
Proof.
  intros q total Hpre Hfix. unfold extract_with. fold total.
  unfold q at 2. rewrite extract_from_app, Hpre.
  rewrite Z.add_0_l. cbn [extract_from]. unfold bind, exit_on_exception.
  destruct Hfix as [Hfix | Hfix]; rewrite Hfix; reflexivity.
Qed.

End TraversalFacts.

(** C1 (counterexample).  The swath file provider fails on the first of
    two fixes: the run exits with that failure and the second fix is never
    extracted. *)
Lemma failed_fix_ends_traversal :
  extract env_no_swath [fix_a; fix_other] []
  = (SysExit (UpstreamError "download failed"), [EvExtract (call_of_fix fix_a)]) /\
  ~ In (call_of_fix fix_other)
       (extract_calls (snd (extract env_no_swath [fix_a; fix_other] []))).
Proof.
  split; [vm_compute; reflexivity |].
  vm_compute. intros [H | []]. discriminate H.
Qed.

Lemma first_failure_ends_run_witness :
  extract env_no_swath [fix_a; fix_other] []
  = (SysExit (UpstreamError "download failed"), [EvExtract (call_of_fix fix_a)]).
Proof.
  apply (first_failure_ends_run (extract_detail env_no_swath)
           (longtitude_converter env_no_swath) (is_land env_no_swath)
           [] fix_a [fix_other] [] [] [EvExtract (call_of_fix fix_a)]
           (UpstreamError "download failed")).
  - reflexivity.
  - left. vm_compute. reflexivity.
Defined.

(** ** The area mean at a quarter of a degree *)

Lemma np_mean_2x2 (a b c d : Q) :
  (np_mean [[a; b]; [c; d]] == (a + b + c + d) / 4)%Q.
Proof. unfold np_mean. cbn. field. Qed.

(** The surface pass takes the mean of the cells the corner lookup names. *)
Lemma value_single_levels_quarter (e : env) (data lats lons : grid) (res : Q)
    (r : row) (s : list event) (ll : Q * Q * Q * Q) (lat1 lat2 lon1 lon2 : Z) :
  Qeq_bool res 0.25 = true ->
  get_era5_corners_of_rss_cell e (r_lat r) (r_lon r) lats lons res
  = Ok (ll, (lat1, lat2, lon1, lon2)) ->
  value_single_levels e data lats lons res r s
  = (Ok (np_mean (py_slice2 data lat1 (lat2 + 1) lon1 (lon2 + 1))), s).
Proof.
  intros Hres Hc. unfold value_single_levels, bind, exit_on_exception, lift.
  rewrite Hc. destruct ll. rewrite Hres. reflexivity.
Qed.

(** The pressure-level pass takes the mean of the whole region read. *)
Lemma value_pressure_levels_quarter (e : env) (data lats lons : grid) (res : Q)
    (r : row) (s : list event) (ll : Q * Q * Q * Q) (idxs : Z * Z * Z * Z) :
  Qeq_bool res 0.25 = true ->
  get_era5_corners_of_rss_cell e (r_lat r) (r_lon r) lats lons res = Ok (ll, idxs) ->
  value_pressure_levels e data lats lons res r s = (Ok (np_mean data), s).
Proof.
  intros Hres Hc. unfold value_pressure_levels, bind, lift.
  rewrite Hc. destruct ll, idxs as [[[? ?] ?] ?]. rewrite Hres. reflexivity.
Qed.

(** C4 (evaluation at the failing input).  A quarter-degree field of 3x3
    values whose enclosing 2x2 cell holds 1, 2, 4 and 5: the surface pass
    writes their mean 3 on the record, the pressure-level pass writes 5,
    the mean of all nine values of the region. *)
Theorem pressure_pass_means_whole_region :
  (exists v,
      written "mean_sea_level_pressure" 0
        (resample_single_levels env_quarter "era5_single_levels.grib" sep15
           area_quarter (<[100 := [0%nat]]> empty_mapper) [row_0050] [])
      = Some v /\ (v == (1 + 2 + 4 + 5) / 4)%Q) /\
  (exists v,
      written "temperature" 0
        (add_era5_pressure_levels env_quarter "era5_pressure_levels.grib" sep15
           [row_0050] [100] area_quarter [1000%Q] [])
      = Some v /\ (v == 5)%Q /\ ~ (v == (1 + 2 + 4 + 5) / 4)%Q /\
      (v == np_mean (rev field_north_first))%Q).
Proof.
  split.
  - eexists. split; [vm_compute; reflexivity | vm_compute; reflexivity].
  - eexists. split; [vm_compute; reflexivity |].
    split; [vm_compute; reflexivity |].
    split; [vm_compute; discriminate | vm_compute; reflexivity].
Qed.

(** ** The envelope of the extracted pixels *)

(** C9 (counterexample).  Of the two pixels that reach the construction of
    a row, the one at 23:40 rounds into the next day and is discarded; the
    only pixel kept lies in the south-west cell, yet the north and east
    edges of the area are those of the discarded pixel plus the padding. *)
Lemma discarded_pixel_widens_area :
  exists r hourtimes ar,
    get_smap_part (cfg_rss 1) (fun _ _ => Ok evening_swath) "2018250N12160"
                  evening 120.125 10.125 "smap.nc"
    = Ok (Triple [r] hourtimes ar) /\
    (r_lat r == 9.875)%Q /\ (r_lon r == 119.875)%Q /\
    (north ar == 10.375 + 0.5)%Q /\ (east ar == 120.375 + 0.5)%Q /\
    ~ (north ar == r_lat r + 0.5)%Q /\ ~ (east ar == r_lon r + 0.5)%Q.
Proof.
  do 3 eexists. split; [vm_compute; reflexivity |].
  split; [vm_compute; reflexivity |].
  split; [vm_compute; reflexivity |].
  split; [vm_compute; reflexivity |].
  split; [vm_compute; reflexivity |].
  split; vm_compute; discriminate.
Qed.

Lemma In_zrange (n : nat) (z : Z) : In z (zrange n) <-> 0 <= z < Z.of_nat n.
Proof.
  unfold zrange. rewrite in_map_iff. split.
  - intros [k [<- Hk]]. apply in_seq in Hk. lia.
  - intros Hz. exists (Z.to_nat z). split; [lia | apply in_seq; lia].
Qed.

(** A property kept by every step of a loop holds when the loop ends. *)
Lemma for_each_invariant {A S} (I : S -> Prop) (f : A -> S -> outcome S) (l : list A) :
  (forall a s s', In a l -> I s -> f a s = Ok s' -> I s') ->
  forall s s', I s -> for_each l f s = Ok s' -> I s'.
Proof.
  induction l as [| a l IH]; intros Hstep s s' Hs Hrun; cbn [for_each] in Hrun.
  - injection Hrun as <-. exact Hs.
  - apply obind_Ok in Hrun as [s1 [H1 Hrun]].
    apply (IH (fun b t t' Hb => Hstep b t t' (or_intror Hb)) s1 s').
    + apply (Hstep a s s1); [left; reflexivity | exact Hs | exact H1].
    + exact Hrun.
Qed.

(** A loop whose steps move the state along a preorder runs the step of
    each of its elements, between two states ordered with its ends. *)
Lemma for_each_visits {A S} (R : S -> S -> Prop) (f : A -> S -> outcome S) (l : list A) :
  (forall s, R s s) -> (forall s t u, R s t -> R t u -> R s u) ->
  (forall a s s', f a s = Ok s' -> R s s') ->
  forall a s s', In a l -> for_each l f s = Ok s' ->
    exists s1 s2, R s s1 /\ f a s1 = Ok s2 /\ R s2 s'.
Proof.
  intros Hrefl Htrans Hmono a.
  induction l as [| b l IH]; intros s s' Hin Hrun; [destruct Hin |].
  cbn [for_each] in Hrun. apply obind_Ok in Hrun as [s1 [H1 Hrun]].
  destruct Hin as [-> | Hin].
  - exists s, s1. split; [apply Hrefl |]. split; [exact H1 |].
    refine (for_each_invariant (R s1) f l _ s1 s' (Hrefl s1) Hrun).
    intros c t t' _ Ht Hf. eapply Htrans; [exact Ht | eapply Hmono; exact Hf].
  - destruct (IH s1 s' Hin Hrun) as [t1 [t2 [Ha [Hb Hc]]]].
    exists t1, t2. split; [| split; assumption].
    eapply Htrans; [eapply Hmono; exact H1 | exact Ha].
Qed.

Lemma acc_le_refl (a : smap_acc) : acc_le a a.
Proof. unfold acc_le. repeat split; lra. Qed.

Lemma acc_le_trans (a b c : smap_acc) : acc_le a b -> acc_le b c -> acc_le a c.
Proof. unfold acc_le. intros (? & ? & ? & ?) (? & ? & ? & ?). repeat split; lra. Qed.

Ltac case_Qltb :=
  repeat match goal with
         | |- context [Qgtb ?a ?b] => unfold Qgtb
         | |- context [Qltb ?a ?b] =>
             let E := fresh "E" in
             destruct (Qltb a b) eqn:E;
             [apply Qltb_lt in E | apply Qltb_ge in E]
         end.

Lemma add_pixel_envelope (c : config) (tc_id : string) (x y : Z) (lo la w : Q)
    (t : datetime) (acc : smap_acc) :
  let acc' := add_pixel c tc_id x y lo la w t acc in
  acc_north acc' = (if Qgtb la (acc_north acc) then la else acc_north acc) /\
  acc_west acc' = (if Qltb lo (acc_west acc) then lo else acc_west acc) /\
  acc_south acc' = (if Qltb la (acc_south acc) then la else acc_south acc) /\
  acc_east acc' = (if Qgtb lo (acc_east acc) then lo else acc_east acc).
Proof.
  intros acc'. subst acc'. unfold add_pixel. cbn [r_lon r_lat satel_datetime].
  destruct (rounds_to_next_day t); cbn; repeat split; reflexivity.
Qed.

Lemma add_pixel_le (c : config) (tc_id : string) (x y : Z) (lo la w : Q)
    (t : datetime) (acc : smap_acc) :
  acc_le acc (add_pixel c tc_id x y lo la w t acc).
Proof.
  destruct (add_pixel_envelope c tc_id x y lo la w t acc) as (Hn & Hw & Hs & He).
  unfold acc_le. rewrite Hn, Hw, Hs, He.
  repeat split; case_Qltb; lra.
Qed.

Lemma add_pixel_covers (c : config) (tc_id : string) (x y : Z) (lo la w : Q)
    (t : datetime) (acc : smap_acc) :
  let acc' := add_pixel c tc_id x y lo la w t acc in
  (acc_south acc' <= la <= acc_north acc')%Q /\
  (acc_west acc' <= lo <= acc_east acc')%Q.
Proof.
  destruct (add_pixel_envelope c tc_id x y lo la w t acc) as (Hn & Hw & Hs & He).
  cbv zeta. rewrite Hn, Hw, Hs, He.
  repeat split; case_Qltb; lra.
Qed.

(** What one pass of one cell does to the accumulators. *)
Lemma pass_body_cases (c : config) (tc_id : string) (tc_dt : datetime)
    (lat1 lon1 : Q) (sw : swath) (y x i : Z) (acc acc' : smap_acc) :
  pass_body c tc_id tc_dt lat1 lon1 sw y x i acc = Ok acc' ->
  exists cm cw, cell_at sw y x = Ok (cm, cw) /\
    ((pixel_time c tc_dt cm cw i = Ok None /\ acc' = acc) \/
     (exists t w, pixel_time c tc_dt cm cw i = Ok (Some t) /\
        acc' = add_pixel c tc_id x y (lon_of_col c lon1 x) (lat_of_row c lat1 y)
                         w t acc)).
Proof.
  unfold pass_body. intros H.
  apply obind_Ok in H as [[cm cw] [Hc H]]. exists cm, cw. split; [exact Hc |].
  unfold pixel_step in H. apply obind_Ok in H as [[t |] [Ht H]].
  - right. apply obind_Ok in H as [w [_ H]]. injection H as <-.
    exists t, w. split; [exact Ht | reflexivity].
  - left. injection H as <-. split; [exact Ht | reflexivity].
Qed.

Lemma pass_body_le (c : config) (tc_id : string) (tc_dt : datetime)
    (lat1 lon1 : Q) (sw : swath) (y x i : Z) (acc acc' : smap_acc) :
  pass_body c tc_id tc_dt lat1 lon1 sw y x i acc = Ok acc' -> acc_le acc acc'.
Proof.
  intros H. apply pass_body_cases in H as (cm & cw & _ & [[_ ->] | (t & w & _ & ->)]).
  - apply acc_le_refl.
  - apply add_pixel_le.
Qed.

Section Envelope.

Variable c : config.
Variable tc_id : string.
Variable tc_dt : datetime.
Variables lat1 lon1 : Q.
Variable sw : swath.

Local Abbreviation row_lats := (row_lats c tc_dt lat1 sw).
Local Abbreviation row_lons := (row_lons c tc_dt lon1 sw).
Local Abbreviation tight := (tight c tc_dt lat1 lon1 sw).

Lemma pass_body_tight (y x i : Z) (acc acc' : smap_acc) :
  0 <= y < Z.of_nat (lats_num sw) -> 0 <= x < Z.of_nat (lons_num sw) ->
  0 <= i < Z.of_nat (passes_num sw) ->
  tight acc ->
  pass_body c tc_id tc_dt lat1 lon1 sw y x i acc = Ok acc' ->
  tight acc'.
Proof.
  intros Hy Hx Hi Ht H.
  apply pass_body_cases in H as (cm & cw & Hc & [[_ ->] | (t & w & Hp & ->)]);
    [exact Ht |].
  assert (Hr : reaches_row c tc_dt sw y x i).
  { unfold reaches_row. repeat split; try lia. exists cm, cw, t. split; assumption. }
  destruct (add_pixel_envelope c tc_id x y (lon_of_col c lon1 x)
              (lat_of_row c lat1 y) w t acc) as (Hn & Hw & Hs & He).
  destruct Ht as (Tn & Tw & Ts & Te).
  unfold tight. rewrite Hn, Hw, Hs, He.
  repeat split.
  - destruct (Qgtb (lat_of_row c lat1 y) (acc_north acc));
      [right; exists y, x, i; split; [exact Hr | reflexivity] | exact Tn].
  - destruct (Qltb (lon_of_col c lon1 x) (acc_west acc));
      [right; exists y, x, i; split; [exact Hr | reflexivity] | exact Tw].
  - destruct (Qltb (lat_of_row c lat1 y) (acc_south acc));
      [right; exists y, x, i; split; [exact Hr | reflexivity] | exact Ts].
  - destruct (Qgtb (lon_of_col c lon1 x) (acc_east acc));
      [right; exists y, x, i; split; [exact Hr | reflexivity] | exact Te].
Qed.

Lemma passes_loop_le (y x : Z) (l : list Z) (acc acc' : smap_acc) :
  for_each l (pass_body c tc_id tc_dt lat1 lon1 sw y x) acc = Ok acc' ->
  acc_le acc acc'.
Proof.
  apply (for_each_invariant (acc_le acc)); [| apply acc_le_refl].
  intros i s s' _ Hs H. eapply acc_le_trans; [exact Hs | eapply pass_body_le; exact H].
Qed.

Lemma lons_loop_le (y : Z) (l l' : list Z) (acc acc' : smap_acc) :
  for_each l (fun x => for_each l' (pass_body c tc_id tc_dt lat1 lon1 sw y x)) acc
  = Ok acc' ->
  acc_le acc acc'.
Proof.
  apply (for_each_invariant (acc_le acc)); [| apply acc_le_refl].
  intros x s s' _ Hs H. eapply acc_le_trans; [exact Hs | eapply passes_loop_le; exact H].
Qed.

Lemma smap_loops_tight (acc : smap_acc) :
  smap_loops c tc_id tc_dt lat1 lon1 sw = Ok acc -> tight acc.
Proof.
  unfold smap_loops.
  apply (for_each_invariant tight).
  - intros y s s' Hy Hs. apply In_zrange in Hy.
    apply (for_each_invariant tight); [| exact Hs].
    intros x t t' Hx Ht. apply In_zrange in Hx.
    apply (for_each_invariant tight); [| exact Ht].
    intros i u u' Hi Hu. apply In_zrange in Hi.
    apply pass_body_tight; assumption.
  - unfold tight, init_acc. cbn. repeat split; left; reflexivity.
Qed.

Lemma smap_loops_covers (acc : smap_acc) (y x i : Z) :
  smap_loops c tc_id tc_dt lat1 lon1 sw = Ok acc ->
  reaches_row c tc_dt sw y x i ->
  (acc_south acc <= lat_of_row c lat1 y <= acc_north acc)%Q /\
  (acc_west acc <= lon_of_col c lon1 x <= acc_east acc)%Q.
Proof.
  unfold smap_loops. intros Hrun (Hy & Hx & Hi & cm & cw & t & Hc & Hp).
  apply (for_each_visits acc_le _ _ acc_le_refl acc_le_trans
           (fun y' s s' H => lons_loop_le y' _ _ s s' H) y) in Hrun
    as (s1 & s2 & _ & Hrun & Hle2); [| apply In_zrange; exact Hy].
  apply (for_each_visits acc_le _ _ acc_le_refl acc_le_trans
           (fun x' s s' H => passes_loop_le y x' _ s s' H) x) in Hrun
    as (s3 & s4 & _ & Hrun & Hle4); [| apply In_zrange; exact Hx].
  apply (for_each_visits acc_le _ _ acc_le_refl acc_le_trans
           (fun i' s s' H => pass_body_le c tc_id tc_dt lat1 lon1 sw y x i' s s' H) i)
    in Hrun as (s5 & s6 & _ & Hrun & Hle6); [| apply In_zrange; exact Hi].
  apply pass_body_cases in Hrun as (cm' & cw' & Hc' & Hcase).
  rewrite Hc in Hc'. injection Hc' as <- <-.
  destruct Hcase as [[Hnone _] | (t' & w & _ & ->)]; [congruence |].
  pose proof (add_pixel_covers c tc_id x y (lon_of_col c lon1 x)
                (lat_of_row c lat1 y) w t' s5) as Hcov.
  cbv zeta in Hcov.
  pose proof (acc_le_trans _ _ _ Hle6 (acc_le_trans _ _ _ Hle4 Hle2)) as Hle.
  unfold acc_le in Hle. lra.
Qed.

Lemma smap_loops_envelope (acc : smap_acc) :
  smap_loops c tc_id tc_dt lat1 lon1 sw = Ok acc ->
  running_max (-90) row_lats (acc_north acc) /\
  running_min 360 row_lons (acc_west acc) /\
  running_min 90 row_lats (acc_south acc) /\
  running_max 0 row_lons (acc_east acc).
Proof.
  intros Hrun.
  destruct (smap_loops_tight acc Hrun) as (Tn & Tw & Ts & Te).
  assert (Hle : acc_le init_acc acc).
  { unfold smap_loops in Hrun.
    apply (for_each_invariant (acc_le init_acc) _ _
             (fun y s s' _ Hs H =>
                acc_le_trans _ _ _ Hs (lons_loop_le y _ _ s s' H))
             init_acc acc (acc_le_refl _) Hrun). }
  unfold acc_le, init_acc in Hle. cbn in Hle. destruct Hle as (Ln & Lw & Ls & Le).
  unfold running_max, running_min.
  repeat split; try assumption.
  - intros v (y & x & i & Hr & ->). apply (smap_loops_covers acc y x i Hrun Hr).
  - intros v (y & x & i & Hr & ->). apply (smap_loops_covers acc y x i Hrun Hr).
  - intros v (y & x & i & Hr & ->). apply (smap_loops_covers acc y x i Hrun Hr).
  - intros v (y & x & i & Hr & ->). apply (smap_loops_covers acc y x i Hrun Hr).
Qed.

End Envelope.

(** C9 (amended).  The area returned by an extraction is the running
    min/max envelope, started at north = -90, west = 360, south = 90 and
    east = 0, of the longitudes and latitudes of the pixels that reach the
    construction of a row (those that pass the missing-value test, the
    equal-pass-times test and the time window, whether or not the later
    rounding test keeps them), padded by 0.5 degrees on every side. *)
Theorem area_is_padded_envelope (c : config)
    (read : string -> square -> outcome swath) (tc_id : string)
    (tc_dt : datetime) (tc_lon tc_lat : Q) (path : string)
    (data : list row) (hourtimes : list Z) (ar : area) :
  get_smap_part c read tc_id tc_dt tc_lon tc_lat path = Ok (Triple data hourtimes ar) ->
  exists sq sw n w s e,
    get_square_around_tc c tc_lon tc_lat = Ok sq /\
    read path sq = Ok sw /\
    ar = Area (n + 0.5) (w - 0.5) (s - 0.5) (e + 0.5) /\
    running_max (-90) (row_lats c tc_dt (sq_lat1 sq) sw) n /\
    running_min 360 (row_lons c tc_dt (sq_lon1 sq) sw) w /\
    running_min 90 (row_lats c tc_dt (sq_lat1 sq) sw) s /\
    running_max 0 (row_lons c tc_dt (sq_lon1 sq) sw) e.
Proof.
  unfold get_smap_part. intros H.
  apply obind_Ok in H as [sq [Hsq H]].
  destruct (negb (sq_success sq)); [discriminate |].
  apply obind_Ok in H as [sw [Hsw H]].
  apply obind_Ok in H as [acc [Hacc H]].
  injection H as _ _ <-.
  exists sq, sw, (acc_north acc), (acc_west acc), (acc_south acc), (acc_east acc).
  split; [exact Hsq |]. split; [exact Hsw |]. split; [reflexivity |].
  apply (smap_loops_envelope c tc_id tc_dt _ _ sw acc Hacc).
Qed.

Lemma area_is_padded_envelope_witness :
  exists data hourtimes ar,
    get_smap_part (cfg_rss 1) (fun _ _ => Ok evening_swath) "2018250N12160"
                  evening 120.125 10.125 "smap.nc"
    = Ok (Triple data hourtimes ar) /\
    exists sq sw n w s e,
      get_square_around_tc (cfg_rss 1) 120.125 10.125 = Ok sq /\
      Ok evening_swath = Ok sw /\
      ar = Area (n + 0.5) (w - 0.5) (s - 0.5) (e + 0.5) /\
      running_max (-90) (row_lats (cfg_rss 1) evening (sq_lat1 sq) sw) n /\
      running_min 360 (row_lons (cfg_rss 1) evening (sq_lon1 sq) sw) w /\
      running_min 90 (row_lats (cfg_rss 1) evening (sq_lat1 sq) sw) s /\
      running_max 0 (row_lons (cfg_rss 1) evening (sq_lon1 sq) sw) e.
Proof.
  do 3 eexists. split; [vm_compute; reflexivity |].
  eapply (area_is_padded_envelope (cfg_rss 1) (fun _ _ => Ok evening_swath)
            "2018250N12160" evening 120.125 10.125 "smap.nc").
  vm_compute. reflexivity.
Defined.

(** ** The records of an extraction *)

Lemma mk_time_bounds (h m t : Z) : mk_time h m = Ok t -> 0 <= t < 86400.
Proof.
  unfold mk_time.
  destruct ((0 <=? h) && (h <? 24) && (0 <=? m) && (m <? 60)) eqn:E; [| discriminate].
  intros [= <-]. rewrite !andb_true_iff in E. lia.
Qed.

Lemma dt_date_combine (d t : Z) : 0 <= t < 86400 -> dt_date (combine d t) = d.
Proof.
  intros Ht. unfold dt_date, combine.
  rewrite Z.add_comm, Z.div_add by lia. rewrite Z.div_small by lia. lia.
Qed.

(** A pixel that reaches its row is timed on the query date, inside the
    window. *)
Lemma pixel_time_date (c : config) (tc_dt : datetime) (cm : list Z) (cw : list Q)
    (i : Z) (t : datetime) :
  pixel_time c tc_dt cm cw i = Ok (Some t) ->
  dt_date t = dt_date tc_dt /\ in_window tc_dt t = true.
Proof.
  unfold pixel_time. intros H.
  apply obind_Ok in H as [m_i [_ H]].
  destruct (m_i =? minute_missing c); [discriminate |].
  apply obind_Ok in H as [w_i [_ H]].
  destruct (Qeq_bool w_i (wind_missing c)); [discriminate |].
  apply obind_Ok in H as [m0 [_ H]].
  apply obind_Ok in H as [m1 [_ H]].
  destruct (m0 =? m1); [discriminate |].
  apply obind_Ok in H as [time_ [Ht H]].
  destruct (in_window tc_dt (combine (dt_date tc_dt) time_)) eqn:E; [| discriminate].
  injection H as <-. split; [| exact E].
  apply dt_date_combine. eapply mk_time_bounds. exact Ht.
Qed.

(** Every record of the extraction carries the query date, and none
    rounds into the next day. *)
Lemma smap_loops_rows (c : config) (tc_id : string) (tc_dt : datetime)
    (lat1 lon1 : Q) (sw : swath) (acc : smap_acc) :
  smap_loops c tc_id tc_dt lat1 lon1 sw = Ok acc ->
  Forall (same_day_record tc_dt) (acc_data acc).
Proof.
  unfold smap_loops.
  apply (for_each_invariant (fun a => Forall (same_day_record tc_dt) (acc_data a)));
    [| constructor].
  intros y s s' _ Hs.
  apply (for_each_invariant (fun a => Forall (same_day_record tc_dt) (acc_data a)));
    [| exact Hs].
  intros x t t' _ Ht.
  apply (for_each_invariant (fun a => Forall (same_day_record tc_dt) (acc_data a)));
    [| exact Ht].
  intros i u u' _ Hu H.
  apply pass_body_cases in H as (cm & cw & _ & [[_ ->] | (pt & w & Hp & ->)]);
    [exact Hu |].
  apply pixel_time_date in Hp as [Hd _].
  unfold add_pixel. cbn [satel_datetime].
  destruct (rounds_to_next_day pt) eqn:E; cbn [acc_data]; [exact Hu |].
  apply Forall_app. split; [exact Hu |].
  constructor; [| constructor]. split; [exact Hd | exact E].
Qed.

Lemma get_smap_part_rows (c : config) (read : string -> square -> outcome swath)
    (tc_id : string) (tc_dt : datetime) (tc_lon tc_lat : Q) (path : string)
    (data : list row) (hourtimes : list Z) (ar : area) :
  get_smap_part c read tc_id tc_dt tc_lon tc_lat path = Ok (Triple data hourtimes ar) ->
  Forall (same_day_record tc_dt) data.
Proof.
  unfold get_smap_part. intros H.
  apply obind_Ok in H as [sq [_ H]].
  destruct (negb (sq_success sq)); [discriminate |].
  apply obind_Ok in H as [sw [_ H]].
  apply obind_Ok in H as [acc [Hacc H]].
  injection H as <- _ _.
  eapply smap_loops_rows. exact Hacc.
Qed.

(** ** Reasoning in the pipeline monad *)

Section Hoare.

Variable P : event -> Prop.

Lemma hoare_ret {A} (a : A) (Q : A -> Prop) : Q a -> hoare P (ret a) Q.
Proof.
  intros Ha s Hs. split; [exact Hs |]. cbn. intros b [= <-]. exact Ha.
Qed.

Lemma hoare_lift {A} (o : outcome A) (Q : A -> Prop) :
  (forall a, o = Ok a -> Q a) -> hoare P (lift o) Q.
Proof.
  intros Ho s Hs. split; [exact Hs | exact Ho].
Qed.

Lemma hoare_tell (ev : event) (Q : unit -> Prop) :
  P ev -> Q tt -> hoare P (tell ev) Q.
Proof.
  intros Hev Hq s Hs. split.
  - cbn. apply Forall_app. split; [exact Hs | constructor; [exact Hev | constructor]].
  - intros []. intros _. exact Hq.
Qed.

Lemma hoare_bind {A B} (m : M A) (k : A -> M B) (Q : A -> Prop) (R : B -> Prop) :
  hoare P m Q -> (forall a, Q a -> hoare P (k a) R) -> hoare P (bind m k) R.
Proof.
  intros Hm Hk s Hs. destruct (Hm s Hs) as [Hlog Hres].
  unfold bind. destruct (m s) as [[a | e | e] s1]; cbn in *.
  - apply (Hk a (Hres a eq_refl) s1 Hlog).
  - split; [exact Hlog | discriminate].
  - split; [exact Hlog | discriminate].
Qed.

Lemma hoare_weaken {A} (m : M A) (Q R : A -> Prop) :
  hoare P m Q -> (forall a, Q a -> R a) -> hoare P m R.
Proof.
  intros Hm Hqr s Hs. destruct (Hm s Hs) as [Hlog Hres].
  split; [exact Hlog |]. intros a Ha. apply Hqr, Hres, Ha.
Qed.

Lemma hoare_exit_on_exception {A} (m : M A) (Q : A -> Prop) :
  hoare P m Q -> hoare P (exit_on_exception m) Q.
Proof.
  intros Hm s Hs. destruct (Hm s Hs) as [Hlog Hres].
  unfold exit_on_exception. destruct (m s) as [[a | e | e] s1]; cbn in *.
  - split; assumption.
  - split; [exact Hlog | discriminate].
  - split; [exact Hlog | discriminate].
Qed.

Lemma hoare_for_eachM {A S} (I : S -> Prop) (f : A -> S -> M S) (l : list A) :
  (forall a s, In a l -> I s -> hoare P (f a s) I) ->
  forall s, I s -> hoare P (for_eachM l f s) I.
Proof.
  induction l as [| a l IH]; intros Hf s Hs; cbn [for_eachM].
  - apply hoare_ret, Hs.
  - apply (hoare_bind _ _ I).
    + apply Hf; [left; reflexivity | exact Hs].
    + intros s' Hs'. apply IH; [| exact Hs'].
      intros b t Hb. apply Hf. right. exact Hb.
Qed.

Lemma hoare_if {A} (b : bool) (m1 m2 : M A) (Q : A -> Prop) :
  hoare P m1 Q -> hoare P m2 Q -> hoare P (if b then m1 else m2) Q.
Proof. destruct b; auto. Qed.

(** *** The resampling loops keep what every row update keeps *)

Hypothesis log_error_ok : forall msg, P (EvLogError msg).

Lemma hoare_value_of_rss_pt (e : env) (data lats lons : grid) (la lo : Q) :
  hoare P (value_of_rss_pt_in_era5_square e data lats lons la lo) (fun _ => True).
Proof.
  unfold value_of_rss_pt_in_era5_square.
  apply (hoare_bind _ _ (fun _ => True)).
  - apply hoare_if; [apply hoare_tell; [apply log_error_ok | exact I] | apply hoare_ret; exact I].
  - intros _ _. apply hoare_lift. intros; exact I.
Qed.

Lemma hoare_value_single_levels (e : env) (data lats lons : grid) (res : Q) (r : row) :
  hoare P (value_single_levels e data lats lons res r) (fun _ => True).
Proof.
  unfold value_single_levels.
  apply (hoare_bind _ _ (fun _ => True)).
  - apply hoare_exit_on_exception, hoare_lift. intros; exact I.
  - intros [ll [[[i1 i2] i3] i4]] _.
    apply hoare_if; [apply hoare_ret; exact I | apply hoare_value_of_rss_pt].
Qed.

Lemma hoare_value_pressure_levels (e : env) (data lats lons : grid) (res : Q) (r : row) :
  hoare P (value_pressure_levels e data lats lons res r) (fun _ => True).
Proof.
  unfold value_pressure_levels.
  apply (hoare_bind _ _ (fun _ => True)).
  - apply hoare_lift. intros; exact I.
  - intros [ll [[[i1 i2] i3] i4]] _.
    apply hoare_if; [apply hoare_ret; exact I | apply hoare_value_of_rss_pt].
Qed.

Lemma hoare_resample_row_single (e : env) (tc_dt : datetime) (hourtime grb_time : Z)
    (name : string) (data lats lons : grid) (res : Q) (r : row) :
  hoare P (resample_row_single e tc_dt hourtime grb_time name data lats lons res r)
        (fun _ => True).
Proof.
  unfold resample_row_single.
  apply (hoare_bind _ _ (fun _ => True)); [apply hoare_value_single_levels |].
  intros v _. apply hoare_ret. exact I.
Qed.

Lemma hoare_resample_row_pressure (e : env) (tc_dt : datetime) (hourtime grb_time : Z)
    (name : string) (data lats lons : grid) (res : Q) (r : row) :
  hoare P (resample_row_pressure e tc_dt hourtime grb_time name data lats lons res r)
        (fun _ => True).
Proof.
  unfold resample_row_pressure.
  apply (hoare_bind _ _ (fun _ => True)).
  { destruct (decide _); [apply hoare_ret; exact I |].
    apply hoare_tell; [apply log_error_ok | exact I]. }
  intros _ _. apply (hoare_bind _ _ (fun _ => True)).
  { destruct (decide _); [apply hoare_ret; exact I |].
    apply hoare_tell; [apply log_error_ok | exact I]. }
  intros _ _. apply (hoare_bind _ _ (fun _ => True)); [apply hoare_value_pressure_levels |].
  intros v _. apply hoare_ret. exact I.
Qed.

(** An update in place changes the record at its index and nothing
    else, and keeps the number of records. *)
Lemma hoare_update_row (idx : nat) (f : row -> M row) (rows : list row) :
  (forall r, hoare P (f r) (fun _ => True)) ->
  hoare P (update_row idx f rows)
        (fun rows' => length rows' = length rows /\
                      forall j, j <> idx -> rows' !! j = rows !! j).
Proof.
  intros Hf. unfold update_row. destruct (rows !! idx) as [r |].
  - apply (hoare_bind _ _ (fun _ => True)); [apply Hf |].
    intros r' _. apply hoare_ret. split.
    + apply length_insert.
    + intros j Hj. apply list_lookup_insert_ne. congruence.
  - apply hoare_lift. discriminate.
Qed.

Lemma hoare_resample_hours (e : env) (path : string) (ar : area)
    (m : gmap Z (list nat))
    (per_row : Z -> Z -> grib_message -> string -> grid -> grid -> grid ->
               nat -> list row -> M (list row))
    (Inv : list row -> Prop) :
  (forall hourtime bucket grb_time grb name data lats lons idx rows,
      m !! hourtime = Some bucket -> In idx bucket -> Inv rows ->
      hoare P (per_row hourtime grb_time grb name data lats lons idx rows) Inv) ->
  forall rows, Inv rows -> hoare P (resample_hours e path ar m per_row rows) Inv.
Proof.
  intros Hrow rows Hrows. unfold resample_hours.
  apply hoare_for_eachM; [| exact Hrows].
  intros hourtime rows1 _ Hrows1.
  destruct (m !! hourtime) as [bucket |] eqn:Hb; [| apply hoare_lift; discriminate].
  destruct bucket as [| idx0 bucket']; [apply hoare_ret, Hrows1 |].
  apply (hoare_bind _ _ (fun _ => True)); [apply hoare_lift; intros; exact I |].
  intros grb_time _.
  apply (hoare_bind _ _ (fun _ => True)); [apply hoare_lift; intros; exact I |].
  intros selected _. unfold resample_messages.
  apply hoare_for_eachM; [| exact Hrows1].
  intros grb rows2 _ Hrows2.
  apply (hoare_bind _ _ (fun _ => True)); [apply hoare_lift; intros; exact I |].
  intros [[data lats] lons] _.
  apply hoare_for_eachM; [| exact Hrows2].
  intros idx rows3 Hidx Hrows3.
  apply (Hrow hourtime (idx0 :: bucket')); assumption.
Qed.

End Hoare.

(** ** The hour-bucket builder is only called on records *)

Lemma derive_rows_length (e : env) (rows rows' : list row) (lvls : list Q) :
  derive_rows e rows = Ok (rows', lvls) -> length rows' = length rows.
Proof.
  revert rows' lvls. induction rows as [| r rows IH]; intros rows' lvls H; cbn in H.
  - injection H as <- _. reflexivity.
  - apply obind_Ok in H as [[r' lvl] [_ H]].
    apply obind_Ok in H as [[rs ls] [Hrs H]].
    injection H as <- _. cbn. f_equal. eapply IH. exact Hrs.
Qed.

Section BucketCalls.

Let P := buckets_nonempty.

Lemma log_error_nonempty (msg : string) : P (EvLogError msg).
Proof. exact I. Qed.

Lemma hoare_call_get_hourtime_row_mapper (satel_part : list row) :
  satel_part <> [] ->
  hoare P (call_get_hourtime_row_mapper satel_part) (fun _ => True).
Proof.
  intros Hne. unfold call_get_hourtime_row_mapper.
  apply (hoare_bind _ _ _ (fun _ => True)).
  - apply hoare_tell; [exact Hne | exact I].
  - intros _ _. apply hoare_lift. intros; exact I.
Qed.

Lemma hoare_resample_single_levels (e : env) (path : string) (tc_dt : datetime)
    (ar : area) (m : gmap Z (list nat)) (satel_part : list row) :
  hoare P (resample_single_levels e path tc_dt ar m satel_part)
        (fun rows => length rows = length satel_part).
Proof.
  unfold resample_single_levels.
  apply hoare_resample_hours; [| reflexivity].
  intros hourtime bucket grb_time grb name data lats lons idx rows _ _ Hlen.
  eapply hoare_weaken.
  - apply hoare_update_row. intros r.
    apply (hoare_resample_row_single P log_error_nonempty).
  - cbn. intros rows' [Hl _]. congruence.
Qed.

Lemma hoare_add_era5_single_levels (e : env) (path : string) (tc_dt : datetime)
    (satel_part : list row) (hourtimes : list Z) (ar : area) :
  satel_part <> [] ->
  hoare P (add_era5_single_levels e path tc_dt satel_part hourtimes ar)
        (fun '(rows, _) => rows <> []).
Proof.
  intros Hne. unfold add_era5_single_levels.
  apply (hoare_bind _ _ _ (fun _ => True));
    [apply hoare_call_get_hourtime_row_mapper, Hne |].
  intros m _.
  apply (hoare_bind _ _ _ (fun _ => True)); [apply hoare_lift; intros; exact I |].
  intros messages_num _.
  apply (hoare_bind _ _ _ (fun rows => length rows = length satel_part));
    [apply hoare_resample_single_levels |].
  intros rows Hlen. apply hoare_lift. intros [rows' lvls] Hd.
  apply derive_rows_length in Hd.
  intros ->. destruct satel_part; [congruence | cbn in *; lia].
Qed.

Lemma hoare_add_era5_pressure_levels (e : env) (path : string) (tc_dt : datetime)
    (era5_step_1 : list row) (hourtimes : list Z) (ar : area) (lvls : list Q) :
  era5_step_1 <> [] ->
  hoare P (add_era5_pressure_levels e path tc_dt era5_step_1 hourtimes ar lvls)
        (fun _ => True).
Proof.
  intros Hne. unfold add_era5_pressure_levels.
  apply (hoare_bind _ _ _ (fun _ => True));
    [apply hoare_call_get_hourtime_row_mapper, Hne |].
  intros m _.
  apply (hoare_bind _ _ _ (fun _ => True)); [apply hoare_lift; intros; exact I |].
  intros messages_num _.
  apply hoare_resample_hours; [| exact I].
  intros hourtime bucket grb_time grb name data lats lons idx rows _ _ _.
  apply (hoare_bind _ _ _ (fun _ => True)); [apply hoare_lift; intros; exact I |].
  intros lvl _. apply hoare_if; [apply hoare_ret; exact I |].
  eapply hoare_weaken.
  - apply hoare_update_row. intros r.
    apply (hoare_resample_row_pressure P log_error_nonempty).
  - intros; exact I.
Qed.

Lemma hoare_extract_era5 (e : env) (tc_id : string) (tc_dt : datetime)
    (satel_part : list row) (hourtimes : list Z) (ar : area) :
  satel_part <> [] ->
  hoare P (extract_era5 e tc_id tc_dt satel_part hourtimes ar) (fun _ => True).
Proof.
  intros Hne. unfold extract_era5. apply hoare_exit_on_exception.
  apply (hoare_bind _ _ _ (fun '(rows, _) => rows <> [])).
  - unfold extract_era5_single_levels.
    apply (hoare_bind _ _ _ (fun _ => True)); [apply hoare_lift; intros; exact I |].
    intros path _. apply hoare_add_era5_single_levels, Hne.
  - intros [rows lvls] Hrows. unfold extract_era5_pressure_levels.
    apply (hoare_bind _ _ _ (fun _ => True)); [apply hoare_lift; intros; exact I |].
    intros path _. apply hoare_add_era5_pressure_levels, Hrows.
Qed.

Lemma hoare_extract_detail (e : env) (c : call) :
  hoare P (extract_detail e c) (fun _ => True).
Proof.
  unfold extract_detail.
  apply (hoare_bind _ _ _ (fun _ => True)); [apply hoare_tell; exact I |].
  intros _ _.
  apply (hoare_bind _ _ _ (fun _ => True)); [apply hoare_lift; intros; exact I |].
  intros _ _.
  apply (hoare_bind _ _ _ (fun _ => True)); [apply hoare_lift; intros; exact I |].
  intros [[data hourtimes] ar] _.
  destruct (length data =? 0)%nat eqn:E; [apply hoare_ret; exact I |].
  assert (Hne : data <> []).
  { intros ->. cbn in E. discriminate. }
  apply (hoare_bind _ _ _ (fun _ => True)); [apply hoare_extract_era5, Hne |].
  intros rows _.
  apply (hoare_bind _ _ _ (fun _ => True)); [apply hoare_lift; intros; exact I |].
  intros _ _. apply hoare_tell; exact I.
Qed.

Variable detail : call -> M unit.
Variable to_180 : Q -> outcome Q.
Variable land : Q -> Q -> outcome bool.
Hypothesis hoare_detail : forall c, hoare P (detail c) (fun _ => True).

Lemma hoare_extract_between_two_tc_records (tc next_tc : tc_fix) :
  hoare P (extract_between_two_tc_records detail tc next_tc) (fun _ => True).
Proof.
  unfold extract_between_two_tc_records.
  apply hoare_if; [apply hoare_detail |].
  cbn [get_center_shift_of_two_tcs].
  apply hoare_if; [apply hoare_lift; intros; exact I |].
  apply hoare_for_eachM; [| exact I].
  intros h [] _ _. apply hoare_detail.
Qed.

Lemma hoare_extract_fix (q : list tc_fix) (total idx : Z) (tc : tc_fix) :
  hoare P (extract_fix detail to_180 land q total idx tc) (fun _ => True).
Proof.
  unfold extract_fix.
  apply (hoare_bind _ _ _ (fun _ => True)); [apply hoare_lift; intros; exact I |].
  intros converted_lon _.
  apply (hoare_bind _ _ _ (fun _ => True)); [apply hoare_lift; intros; exact I |].
  intros on_land _.
  apply hoare_if; [apply hoare_ret; exact I |].
  apply hoare_if; [| apply hoare_detail].
  apply (hoare_bind _ _ _ (fun _ => True)); [apply hoare_lift; intros; exact I |].
  intros next_tc _.
  apply hoare_if; [apply hoare_extract_between_two_tc_records | apply hoare_detail].
Qed.

Lemma hoare_extract_from (q : list tc_fix) (total : Z) (rest : list tc_fix) :
  forall idx, hoare P (extract_from detail to_180 land q total idx rest) (fun _ => True).
Proof.
  induction rest as [| tc rest IH]; intros idx; cbn [extract_from].
  - apply hoare_ret. exact I.
  - apply (hoare_bind _ _ _ (fun _ => True)).
    + apply hoare_exit_on_exception, hoare_extract_fix.
    + intros _ _. apply IH.
Qed.

End BucketCalls.

(** C10.  In every run of the traversal, whatever the collaborators
    answer, each call of [get_hourtime_row_mapper] receives a non-empty
    list of records: [extract_detail] returns before the reanalysis passes
    when the extraction yields no record, and the surface pass hands the
    pressure-level pass as many records as it received. *)
Theorem bucket_builder_gets_records (e : env) (tc_query : list tc_fix) :
  Forall buckets_nonempty (snd (extract e tc_query [])).
Proof.
  unfold extract, extract_with.
  apply (hoare_extract_from (extract_detail e) (longtitude_converter e) (is_land e)
           (hoare_extract_detail e)).
  constructor.
Qed.

(** On a non-empty list the builder finds its first record and returns
    the buckets. *)
Lemma get_hourtime_row_mapper_first (r : row) (rows : list row) :
  get_hourtime_row_mapper (r :: rows)
  = fill_mapper (dt_day (satel_datetime r)) (r :: rows) 0 empty_mapper.
Proof. reflexivity. Qed.


(** A run that reaches both reanalysis passes: the builder is called
    twice, each time on the one record extracted. *)
Example run_calls_builder_twice :
  exists r1 r2 r3,
    extract env_pipeline [fix_morning] []
    = (Ok tt, [EvExtract (call_of_fix fix_morning); EvBuckets [r1];
               EvBuckets [r2]; EvInsert [r3]]).
Proof. do 3 eexists. vm_compute. reflexivity. Qed.

(** ** Rounding into the next day *)

Lemma days_in_month_ge (y m : Z) : 28 <= days_in_month y m.
Proof.
  unfold days_in_month.
  destruct (m =? 2); [destruct (is_leap y); lia |].
  destruct (_ || _); lia.
Qed.

Lemma cal_day_next_day (d : cal_date) : cal_day (next_day d) <> cal_day d.
Proof.
  unfold next_day. pose proof (days_in_month_ge (cal_year d) (cal_month d)).
  destruct (cal_day d <? _) eqn:E; cbn; [lia |].
  apply Z.ltb_ge in E. destruct (cal_month d <? 12); cbn; lia.
Qed.

Lemma cal_of_days_succ (n : Z) :
  0 <= n -> cal_of_days (n + 1) = next_day (cal_of_days n).
Proof.
  intros Hn. unfold cal_of_days.
  replace (Z.to_N (n + 1)) with (N.succ (Z.to_N n)) by lia.
  apply N.iter_succ.
Qed.

Lemma dt_day_next (t t' : datetime) :
  0 <= t -> dt_date t' = dt_date t + 1 -> dt_day t' <> dt_day t.
Proof.
  intros Ht Hd. unfold dt_day. rewrite Hd, cal_of_days_succ.
  - apply cal_day_next_day.
  - unfold dt_date. apply Z.div_pos; lia.
Qed.

(** The test of the code, hour 23 rounded to hour 0, says that the rounded
    time is on the next calendar day. *)
Lemma rounds_to_next_day_date (t : datetime) :
  rounds_to_next_day t = true -> dt_date (hour_rounder t) = dt_date t + 1.
Proof.
  unfold rounds_to_next_day, hour_rounder, dt_hour, dt_minute, dt_date.
  rewrite andb_true_iff, !Z.eqb_eq. intros [H23 H0].
  destruct (30 <=? t mod 3600 / 60) eqn:E.
  - Z.div_mod_to_equations. lia.
  - exfalso. Z.div_mod_to_equations. lia.
Qed.

(** ** Hour buckets *)

Lemma insert_empty_buckets (keys : list Z) :
  forall (m : gmap Z (list nat)),
    (forall h l, m !! h = Some l -> l = []) ->
    forall h l, fold_left (fun m h => <[h := []]> m) keys m !! h = Some l -> l = [].
Proof.
  induction keys as [| k keys IH]; intros m Hm h l; cbn [fold_left].
  - apply Hm.
  - apply IH. intros h' l'. rewrite lookup_insert. case_decide.
    + intros [= <-]. reflexivity.
    + apply Hm.
Qed.

Lemma empty_mapper_buckets (h : Z) (l : list nat) :
  empty_mapper !! h = Some l -> l = [].
Proof.
  unfold empty_mapper. apply insert_empty_buckets.
  intros h' l'. rewrite lookup_empty. discriminate.
Qed.

(** An index is put in a bucket only for a record whose rounded time falls
    on the reference day. *)
Lemma fill_mapper_members (satel_day : Z) (rows : list row) :
  forall (idx : nat) (m m' : gmap Z (list nat)),
    fill_mapper satel_day rows idx m = Ok m' ->
    forall h l j, m' !! h = Some l -> In j l ->
      (exists l0, m !! h = Some l0 /\ In j l0) \/
      (exists r, (idx <= j)%nat /\ rows !! (j - idx)%nat = Some r /\
                 dt_day (hour_rounder (satel_datetime r)) = satel_day).
Proof.
  induction rows as [| r rows IH]; intros idx m m' H h l j Hl Hj; cbn [fill_mapper] in H.
  - injection H as <-. left. exists l. split; assumption.
  - destruct (dt_day (hour_rounder (satel_datetime r)) =? satel_day) eqn:E.
    + apply Z.eqb_eq in E.
      destruct (m !! (100 * dt_hour (hour_rounder (satel_datetime r)))) as [l0 |] eqn:E0;
        [| discriminate].
      destruct (IH _ _ _ H h l j Hl Hj) as [[l1 [Hl1 Hj1]] | [r' [Hle [Hr' Hd]]]].
      * rewrite lookup_insert in Hl1. case_decide.
        -- injection Hl1 as <-. apply in_app_or in Hj1 as [Hj1 | [<- | []]].
           ++ left. exists l0. subst h. split; assumption.
           ++ right. exists r. split; [lia |]. rewrite Nat.sub_diag. split; [reflexivity | exact E].
        -- left. exists l1. split; assumption.
      * right. exists r'. split; [lia |]. split; [| exact Hd].
        replace (j - idx)%nat with (S (j - S idx)) by lia. exact Hr'.
    + destruct (IH _ _ _ H h l j Hl Hj) as [Hold | [r' [Hle [Hr' Hd]]]]; [left; exact Hold |].
      right. exists r'. split; [lia |]. split; [| exact Hd].
      replace (j - idx)%nat with (S (j - S idx)) by lia. exact Hr'.
Qed.

Lemma get_hourtime_row_mapper_members (satel_part : list row) (m : gmap Z (list nat))
    (h : Z) (l : list nat) (j : nat) :
  get_hourtime_row_mapper satel_part = Ok m -> m !! h = Some l -> In j l ->
  exists first r, satel_part !! 0%nat = Some first /\ satel_part !! j = Some r /\
    dt_day (hour_rounder (satel_datetime r)) = dt_day (satel_datetime first).
Proof.
  unfold get_hourtime_row_mapper. intros H Hl Hj.
  apply obind_Ok in H as [first [Hf H]].
  assert (Hf0 : satel_part !! 0%nat = Some first).
  { destruct satel_part as [| r0 rows]; [discriminate |].
    cbn in Hf. injection Hf as <-. reflexivity. }
  destruct (fill_mapper_members _ _ _ _ _ H h l j Hl Hj)
    as [[l0 [Hl0 Hj0]] | [r [_ [Hr Hd]]]].
  - apply empty_mapper_buckets in Hl0. subst l0. destruct Hj0.
  - exists first, r. rewrite Nat.sub_0_r in Hr. repeat split; assumption.
Qed.

(** The builder answers on every non-empty list: each rounded hour is one
    of its 24 keys. *)
Lemma fill_mapper_total (satel_day : Z) (rows : list row) :
  forall (idx : nat) (m : gmap Z (list nat)),
    (forall h, 0 <= h < 24 -> is_Some (m !! (100 * h))) ->
    exists m', fill_mapper satel_day rows idx m = Ok m'.
Proof.
  induction rows as [| r rows IH]; intros idx m Hm; cbn [fill_mapper].
  - exists m. reflexivity.
  - destruct (_ =? satel_day); [| apply IH, Hm].
    assert (Hh : 0 <= dt_hour (hour_rounder (satel_datetime r)) < 24).
    { unfold dt_hour. Z.div_mod_to_equations. lia. }
    destruct (Hm _ Hh) as [l ->]. apply IH.
    intros h Hr. rewrite lookup_insert. case_decide; [eexists; reflexivity | apply Hm, Hr].
Qed.

Lemma empty_mapper_keys (h : Z) : 0 <= h < 24 -> is_Some (empty_mapper !! (100 * h)).
Proof.
  intros Hh.
  assert (Hc : h = 0 \/ h = 1 \/ h = 2 \/ h = 3 \/ h = 4 \/ h = 5 \/ h = 6 \/ h = 7 \/
               h = 8 \/ h = 9 \/ h = 10 \/ h = 11 \/ h = 12 \/ h = 13 \/ h = 14 \/
               h = 15 \/ h = 16 \/ h = 17 \/ h = 18 \/ h = 19 \/ h = 20 \/ h = 21 \/
               h = 22 \/ h = 23) by lia.
  repeat (destruct Hc as [-> | Hc]; [eexists; vm_compute; reflexivity |]).
  subst h. eexists. vm_compute. reflexivity.
Qed.

Lemma get_hourtime_row_mapper_total (r : row) (rows : list row) :
  exists m, get_hourtime_row_mapper (r :: rows) = Ok m.
Proof.
  rewrite get_hourtime_row_mapper_first. apply fill_mapper_total, empty_mapper_keys.
Qed.

Lemma all_events (s : list event) : Forall (fun _ => True) s.
Proof. apply Forall_forall. intros; exact I. Qed.

(** Both passes leave alone every record whose index is in no bucket. *)
Lemma resample_single_levels_keeps (e : env) (path : string) (tc_dt : datetime)
    (ar : area) (m : gmap Z (list nat)) (satel_part : list row) (idx : nat) :
  (forall h bucket, m !! h = Some bucket -> ~ In idx bucket) ->
  hoare (fun _ => True) (resample_single_levels e path tc_dt ar m satel_part)
        (fun rows => rows !! idx = satel_part !! idx).
Proof.
  intros Hout. unfold resample_single_levels.
  apply hoare_resample_hours; [| reflexivity].
  intros hourtime bucket grb_time grb name data lats lons idx' rows Hb Hin Hrows.
  eapply hoare_weaken.
  - apply hoare_update_row. intros r.
    apply (hoare_resample_row_single (fun _ => True)). intros; exact I.
  - cbn. intros rows' [_ Hother]. rewrite Hother; [exact Hrows |].
    intros ->. apply (Hout hourtime bucket Hb Hin).
Qed.

Lemma add_era5_pressure_levels_keeps (e : env) (path : string) (tc_dt : datetime)
    (era5_step_1 : list row) (hourtimes : list Z) (ar : area) (lvls : list Q)
    (idx : nat) :
  (forall m h bucket, get_hourtime_row_mapper era5_step_1 = Ok m ->
                      m !! h = Some bucket -> ~ In idx bucket) ->
  hoare (fun _ => True)
        (add_era5_pressure_levels e path tc_dt era5_step_1 hourtimes ar lvls)
        (fun rows => rows !! idx = era5_step_1 !! idx).
Proof.
  intros Hout. unfold add_era5_pressure_levels.
  apply (hoare_bind _ _ _ (fun m => get_hourtime_row_mapper era5_step_1 = Ok m)).
  { unfold call_get_hourtime_row_mapper.
    apply (hoare_bind _ _ _ (fun _ => True)); [apply hoare_tell; exact I |].
    intros _ _. apply hoare_lift. intros m Hm. exact Hm. }
  intros m Hm.
  apply (hoare_bind _ _ _ (fun _ => True)); [apply hoare_lift; intros; exact I |].
  intros messages_num _.
  apply hoare_resample_hours; [| reflexivity].
  intros hourtime bucket grb_time grb name data lats lons idx' rows Hb Hin Hrows.
  apply (hoare_bind _ _ _ (fun _ => True)); [apply hoare_lift; intros; exact I |].
  intros lvl _. apply hoare_if; [apply hoare_ret, Hrows |].
  eapply hoare_weaken.
  - apply hoare_update_row. intros r.
    apply (hoare_resample_row_pressure (fun _ => True)). intros; exact I.
  - cbn. intros rows' [_ Hother]. rewrite Hother; [exact Hrows |].
    intros ->. apply (Hout m hourtime bucket Hm Hb Hin).
Qed.

(** C8.  In a batch of records of one calendar day, a record whose
    timestamp rounds into the next day (hour 23 rounding to hour 0) is in
    no hour bucket, and neither the surface pass nor the pressure-level
    pass changes it. *)
Theorem next_day_record_never_resampled (satel_part : list row) (first r : row)
    (idx : nat) :
  satel_part !! 0%nat = Some first ->
  satel_part !! idx = Some r ->
  0 <= satel_datetime r ->
  dt_date (satel_datetime r) = dt_date (satel_datetime first) ->
  rounds_to_next_day (satel_datetime r) = true ->
  (forall m h bucket,
      get_hourtime_row_mapper satel_part = Ok m -> m !! h = Some bucket ->
      ~ In idx bucket) /\
  (forall e path tc_dt ar m s rows s',
      get_hourtime_row_mapper satel_part = Ok m ->
      resample_single_levels e path tc_dt ar m satel_part s = (Ok rows, s') ->
      rows !! idx = Some r) /\
  (forall e path tc_dt hourtimes ar lvls s rows s',
      add_era5_pressure_levels e path tc_dt satel_part hourtimes ar lvls s
      = (Ok rows, s') ->
      rows !! idx = Some r).
Proof.
  intros Hfirst Hr Hpos Hdate Hround.
  assert (Hout : forall m h bucket,
             get_hourtime_row_mapper satel_part = Ok m -> m !! h = Some bucket ->
             ~ In idx bucket).
  { intros m h bucket Hm Hb Hin.
    destruct (get_hourtime_row_mapper_members _ _ _ _ _ Hm Hb Hin)
      as (first' & r' & Hf' & Hr' & Hday).
    rewrite Hfirst in Hf'. injection Hf' as <-.
    rewrite Hr in Hr'. injection Hr' as <-.
    apply (dt_day_next (satel_datetime r) (hour_rounder (satel_datetime r)) Hpos).
    - apply rounds_to_next_day_date, Hround.
    - rewrite Hday. unfold dt_day. rewrite Hdate. reflexivity. }
  split; [exact Hout |]. split.
  - intros e path tc_dt ar m s rows s' Hm Hrun.
    destruct (resample_single_levels_keeps e path tc_dt ar m satel_part idx
                (fun h bucket => Hout m h bucket Hm) s (all_events s)) as [_ Hres].
    rewrite <- Hr. apply Hres. rewrite Hrun. reflexivity.
  - intros e path tc_dt hourtimes ar lvls s rows s' Hrun.
    destruct (add_era5_pressure_levels_keeps e path tc_dt satel_part hourtimes ar
                lvls idx Hout s (all_events s)) as [_ Hres].
    rewrite <- Hr. apply Hres. rewrite Hrun. reflexivity.
Qed.

(** The record of 23:20 goes to the bucket of 23:00; the record of 23:40
    goes nowhere. *)
Example evening_buckets :
  exists m, get_hourtime_row_mapper [row_2320; row_2340] = Ok m /\
    m !! 2300 = Some [0%nat] /\ m !! 0 = Some [].
Proof.
  eexists. split; [vm_compute; reflexivity |].
  split; vm_compute; reflexivity.
Qed.

Lemma next_day_record_never_resampled_witness :
  (forall m h bucket,
      get_hourtime_row_mapper [row_2320; row_2340] = Ok m -> m !! h = Some bucket ->
      ~ In 1%nat bucket) /\
  (forall e path tc_dt ar m s rows s',
      get_hourtime_row_mapper [row_2320; row_2340] = Ok m ->
      resample_single_levels e path tc_dt ar m [row_2320; row_2340] s = (Ok rows, s') ->
      rows !! 1%nat = Some row_2340) /\
  (forall e path tc_dt hourtimes ar lvls s rows s',
      add_era5_pressure_levels e path tc_dt [row_2320; row_2340] hourtimes ar lvls s
      = (Ok rows, s') ->
      rows !! 1%nat = Some row_2340).
Proof.
  apply (next_day_record_never_resampled [row_2320; row_2340] row_2320 row_2340 1).
  - reflexivity.
  - reflexivity.
  - vm_compute. discriminate.
  - vm_compute. reflexivity.
  - vm_compute. reflexivity.
Defined.

(** * Further properties *)

(** ** What the window loop puts in its list *)

Lemma pass_body_cases_wind (c : config) (tc_id : string) (tc_dt : datetime)
    (lat1 lon1 : Q) (sw : swath) (y x i : Z) (acc acc' : smap_acc) :
  pass_body c tc_id tc_dt lat1 lon1 sw y x i acc = Ok acc' ->
  exists cm cw, cell_at sw y x = Ok (cm, cw) /\
    ((pixel_time c tc_dt cm cw i = Ok None /\ acc' = acc) \/
     (exists t w, pixel_time c tc_dt cm cw i = Ok (Some t) /\
        py_index cw i = Ok w /\
        acc' = add_pixel c tc_id x y (lon_of_col c lon1 x) (lat_of_row c lat1 y)
                         w t acc)).
Proof.
  unfold pass_body. intros H.
  apply obind_Ok in H as [[cm cw] [Hc H]]. exists cm, cw. split; [exact Hc |].
  unfold pixel_step in H. apply obind_Ok in H as [[t |] [Ht H]].
  - right. apply obind_Ok in H as [w [Hw H]]. injection H as <-.
    exists t, w. split; [exact Ht |]. split; [exact Hw | reflexivity].
  - left. injection H as <-. split; [exact Ht | reflexivity].
Qed.

(** A property of the accumulators kept by every pass of every cell of
    the window holds when the triple loop ends. *)
Lemma smap_loops_invariant (c : config) (tc_id : string) (tc_dt : datetime)
    (lat1 lon1 : Q) (sw : swath) (Inv : smap_acc -> Prop) :
  Inv init_acc ->
  (forall y x i acc acc',
      0 <= y < Z.of_nat (lats_num sw) -> 0 <= x < Z.of_nat (lons_num sw) ->
      0 <= i < Z.of_nat (passes_num sw) -> Inv acc ->
      pass_body c tc_id tc_dt lat1 lon1 sw y x i acc = Ok acc' -> Inv acc') ->
  forall acc, smap_loops c tc_id tc_dt lat1 lon1 sw = Ok acc -> Inv acc.
Proof.
  intros Hinit Hstep acc. unfold smap_loops.
  apply (for_each_invariant Inv); [| exact Hinit].
  intros y s s' Hy Hs. apply In_zrange in Hy.
  apply (for_each_invariant Inv); [| exact Hs].
  intros x t t' Hx Ht. apply In_zrange in Hx.
  apply (for_each_invariant Inv); [| exact Ht].
  intros i u u' Hi Hu. apply In_zrange in Hi.
  apply Hstep; assumption.
Qed.

(** The record [add_pixel] builds. *)
Lemma add_pixel_data (c : config) (tc_id : string) (x y : Z) (lo la w : Q)
    (t : datetime) (acc : smap_acc) :
  let r := Row tc_id t (x - half_edge_grid_intervals c) (y - half_edge_grid_intervals c)
               lo la (t, lo, la) w None None ∅ in
  let acc' := add_pixel c tc_id x y lo la w t acc in
  (rounds_to_next_day t = true ->
   acc_data acc' = acc_data acc /\ acc_hourtimes acc' = acc_hourtimes acc) /\
  (rounds_to_next_day t = false ->
   acc_data acc' = acc_data acc ++ [r] /\
   acc_hourtimes acc' = {[ dt_hour (hour_rounder t) ]} ∪ acc_hourtimes acc).
Proof.
  cbv zeta. unfold add_pixel. cbn [satel_datetime].
  destruct (rounds_to_next_day t); split; intros E; try discriminate;
    split; reflexivity.
Qed.

Lemma smap_loops_records (c : config) (tc_id : string) (tc_dt : datetime)
    (lat1 lon1 : Q) (sw : swath) (acc : smap_acc) :
  smap_loops c tc_id tc_dt lat1 lon1 sw = Ok acc ->
  acc_records c tc_id tc_dt lat1 lon1 sw acc.
Proof.
  apply smap_loops_invariant.
  - split; [constructor |]. intros h. cbn. split.
    + intros Hh. apply not_elem_of_empty in Hh. destruct Hh.
    + intros (r & [] & _).
  - intros y x i acc0 acc' Hy Hx Hi [Hrec Hhours] H.
    apply pass_body_cases_wind in H
      as (cm & cw & Hc & [[_ ->] | (t & w & Hp & Hw & ->)]); [split; assumption |].
    destruct (add_pixel_data c tc_id x y (lon_of_col c lon1 x) (lat_of_row c lat1 y)
                w t acc0) as [Hnext Hkeep].
    unfold acc_records.
    destruct (rounds_to_next_day t) eqn:E.
    { destruct (Hnext eq_refl) as [-> ->]. split; assumption. }
    destruct (Hkeep eq_refl) as [-> ->].
    split.
    + apply Forall_app. split; [exact Hrec |].
      constructor; [| constructor]. exists y, x, i.
      unfold record_of_pixel. cbn.
      split.
      { unfold reaches_row. repeat split; try lia. exists cm, cw, t. split; assumption. }
      split; [exists cm, cw; repeat split; assumption |].
      repeat split; try reflexivity. exact E.
    + intros h. rewrite elem_of_union, elem_of_singleton, Hhours. split.
      * intros [-> | (r & Hr & Hh)].
        -- eexists. split; [apply in_or_app; right; left; reflexivity | reflexivity].
        -- exists r. split; [apply in_or_app; left; exact Hr | exact Hh].
      * intros (r & Hr & Hh). apply in_app_or in Hr as [Hr | [<- | []]].
        -- right. exists r. split; assumption.
        -- left. symmetry. exact Hh.
Qed.

(** The filters of lines 278-290, read back from a pixel that got
    through. *)
Lemma pixel_time_filters (c : config) (tc_dt : datetime) (cm : list Z) (cw : list Q)
    (i : Z) (t : datetime) :
  pixel_time c tc_dt cm cw i = Ok (Some t) ->
  exists m_i w_i,
    py_index cm i = Ok m_i /\ m_i <> minute_missing c /\
    py_index cw i = Ok w_i /\ Qeq_bool w_i (wind_missing c) = false /\
    0 <= m_i < 1440 /\ t = combine (dt_date tc_dt) (m_i * 60) /\
    0 <= t - tc_dt < 1800.
Proof.
  unfold pixel_time. intros H.
  apply obind_Ok in H as [m_i [Hm H]].
  destruct (m_i =? minute_missing c) eqn:Em; [discriminate |].
  apply obind_Ok in H as [w_i [Hw H]].
  destruct (Qeq_bool w_i (wind_missing c)) eqn:Ew; [discriminate |].
  apply obind_Ok in H as [m0 [_ H]].
  apply obind_Ok in H as [m1 [_ H]].
  destruct (m0 =? m1); [discriminate |].
  apply obind_Ok in H as [time_ [Ht H]].
  destruct (in_window tc_dt (combine (dt_date tc_dt) time_)) eqn:E; [| discriminate].
  injection H as <-.
  pose proof (mk_time_bounds _ _ _ Ht) as Hb.
  unfold mk_time in Ht.
  destruct ((0 <=? m_i / 60) && (m_i / 60 <? 24) && (0 <=? m_i mod 60) && (m_i mod 60 <? 60))
    eqn:Eb; [| discriminate].
  injection Ht as <-. rewrite !andb_true_iff in Eb.
  assert (Hmi : m_i / 60 * 3600 + m_i mod 60 * 60 = m_i * 60).
  { pose proof (Z.div_mod m_i 60 ltac:(lia)). lia. }
  exists m_i, w_i. split; [exact Hm |]. split; [apply Z.eqb_neq, Em |].
  split; [exact Hw |]. split; [exact Ew |].
  split; [pose proof (Z.div_mod m_i 60 ltac:(lia)); lia |].
  split; [rewrite Hmi; reflexivity |].
  apply (in_window_spec tc_dt _ Hb). exact E.
Qed.

Lemma get_smap_part_triple (c : config) (read : string -> square -> outcome swath)
    (tc_id : string) (tc_dt : datetime) (tc_lon tc_lat : Q) (path : string)
    (data : list row) (hourtimes : list Z) (ar : area) :
  get_smap_part c read tc_id tc_dt tc_lon tc_lat path = Ok (Triple data hourtimes ar) ->
  exists sq sw acc,
    get_square_around_tc c tc_lon tc_lat = Ok sq /\ sq_success sq = true /\
    read path sq = Ok sw /\
    smap_loops c tc_id tc_dt (sq_lat1 sq) (sq_lon1 sq) sw = Ok acc /\
    data = acc_data acc /\ hourtimes = elements (acc_hourtimes acc) /\
    ar = Area (acc_north acc + 0.5) (acc_west acc - 0.5)
              (acc_south acc - 0.5) (acc_east acc + 0.5).
Proof.
  unfold get_smap_part. intros H.
  apply obind_Ok in H as [sq [Hsq H]].
  destruct (sq_success sq) eqn:Es; [cbn [negb] in H | discriminate].
  apply obind_Ok in H as [sw [Hsw H]].
  apply obind_Ok in H as [acc [Hacc H]].
  injection H as <- <- <-.
  exists sq, sw, acc. repeat split; assumption.
Qed.

Lemma dt_second_combine_minute (d m : Z) : dt_second (combine d (m * 60)) = 0.
Proof.
  unfold dt_second, combine.
  replace (d * 86400 + m * 60) with ((d * 1440 + m) * 60) by lia.
  apply Z.mod_mul. lia.
Qed.

(** The filters, read back from the records of an extraction. *)
Lemma get_smap_part_filters (c : config)
    (read : string -> square -> outcome swath) (tc_id : string)
    (tc_dt : datetime) (tc_lon tc_lat : Q) (path : string)
    (data : list row) (hourtimes : list Z) (ar : area) :
  get_smap_part c read tc_id tc_dt tc_lon tc_lat path = Ok (Triple data hourtimes ar) ->
  Forall (fun r =>
            r_sid r = tc_id /\
            0 <= satel_datetime r - tc_dt < 1800 /\
            dt_date (satel_datetime r) = dt_date tc_dt /\
            dt_second (satel_datetime r) = 0 /\
            rounds_to_next_day (satel_datetime r) = false /\
            Qeq_bool (smap_windspd r) (wind_missing c) = false /\
            era5_datetime r = None /\ satel_era5_diff_mins r = None /\
            attrs r = ∅) data.
Proof.
  intros H. apply get_smap_part_triple in H
    as (sq & sw & acc & _ & _ & _ & Hacc & -> & _ & _).
  apply smap_loops_records in Hacc as [Hrec _].
  eapply Forall_impl; [exact Hrec |].
  intros r (y & x & i & _ & (cm & cw & _ & Hp & Hw) & Hsid & _ & _ & _ & _ & _ &
            He & Hd & Ha & Hn).
  pose proof (pixel_time_date _ _ _ _ _ _ Hp) as [Hdate _].
  apply pixel_time_filters in Hp
    as (m_i & w_i & _ & _ & Hw' & Hmiss & _ & Ht & Hwin).
  rewrite Hw in Hw'. injection Hw' as <-.
  repeat split; try assumption; try lia.
  rewrite Ht. apply dt_second_combine_minute.
Qed.

(** X1.  Every record an extraction returns carries the track id it was
    asked for, a whole-minute time of the query date that lies from the
    query time up to less than 1800 seconds after it and does not round
    into the next day, a wind speed other than the missing-value sentinel,
    and no reanalysis field yet. *)
Theorem extracted_records_pass_filters (c : config)
    (read : string -> square -> outcome swath) (tc_id : string)
    (tc_dt : datetime) (tc_lon tc_lat : Q) (path : string)
    (data : list row) (hourtimes : list Z) (ar : area) :
  get_smap_part c read tc_id tc_dt tc_lon tc_lat path = Ok (Triple data hourtimes ar) ->
  Forall (fun r =>
            r_sid r = tc_id /\
            0 <= satel_datetime r - tc_dt < 1800 /\
            dt_date (satel_datetime r) = dt_date tc_dt /\
            dt_second (satel_datetime r) = 0 /\
            rounds_to_next_day (satel_datetime r) = false /\
            Qeq_bool (smap_windspd r) (wind_missing c) = false /\
            era5_datetime r = None /\ satel_era5_diff_mins r = None /\
            attrs r = ∅) data.
Proof. apply get_smap_part_filters. Qed.

Lemma extracted_records_pass_filters_witness :
  exists data hourtimes ar,
    get_smap_part (cfg_rss 1) (fun _ _ => Ok evening_swath) "2018250N12160"
                  evening 120.125 10.125 "smap.nc"
    = Ok (Triple data hourtimes ar) /\
    data <> [] /\
    Forall (fun r =>
              r_sid r = "2018250N12160"%string /\
              0 <= satel_datetime r - evening < 1800 /\
              dt_date (satel_datetime r) = dt_date evening /\
              dt_second (satel_datetime r) = 0 /\
              rounds_to_next_day (satel_datetime r) = false /\
              Qeq_bool (smap_windspd r) (wind_missing (cfg_rss 1)) = false /\
              era5_datetime r = None /\ satel_era5_diff_mins r = None /\
              attrs r = ∅) data.
Proof.
  do 3 eexists. split; [vm_compute; reflexivity |].
  split; [discriminate |].
  eapply (extracted_records_pass_filters (cfg_rss 1) (fun _ _ => Ok evening_swath)
            "2018250N12160" evening 120.125 10.125 "smap.nc").
  vm_compute. reflexivity.
Defined.

(** X2.  The area an extraction returns holds every record it returns,
    with at least the half degree of padding on each side. *)
Theorem extracted_records_inside_area (c : config)
    (read : string -> square -> outcome swath) (tc_id : string)
    (tc_dt : datetime) (tc_lon tc_lat : Q) (path : string)
    (data : list row) (hourtimes : list Z) (ar : area) :
  get_smap_part c read tc_id tc_dt tc_lon tc_lat path = Ok (Triple data hourtimes ar) ->
  Forall (fun r =>
            (south ar + 0.5 <= r_lat r)%Q /\ (r_lat r <= north ar - 0.5)%Q /\
            (west ar + 0.5 <= r_lon r)%Q /\ (r_lon r <= east ar - 0.5)%Q) data.
Proof.
  intros H. apply get_smap_part_triple in H
    as (sq & sw & acc & _ & _ & _ & Hacc & -> & _ & ->).
  pose proof (smap_loops_records _ _ _ _ _ _ _ Hacc) as [Hrec _].
  eapply Forall_impl; [exact Hrec |].
  intros r (y & x & i & Hreach & _ & _ & _ & _ & Hlon & Hlat & _).
  pose proof (smap_loops_covers _ _ _ _ _ _ acc y x i Hacc Hreach) as [Hla Hlo].
  rewrite Hlon, Hlat. cbn [north west south east]. repeat split; lra.
Qed.

Lemma extracted_records_inside_area_witness :
  exists data hourtimes ar,
    get_smap_part (cfg_rss 1) (fun _ _ => Ok evening_swath) "2018250N12160"
                  evening 120.125 10.125 "smap.nc"
    = Ok (Triple data hourtimes ar) /\
    data <> [] /\
    Forall (fun r =>
              (south ar + 0.5 <= r_lat r)%Q /\ (r_lat r <= north ar - 0.5)%Q /\
              (west ar + 0.5 <= r_lon r)%Q /\ (r_lon r <= east ar - 0.5)%Q) data.
Proof.
  do 3 eexists. split; [vm_compute; reflexivity |].
  split; [discriminate |].
  eapply (extracted_records_inside_area (cfg_rss 1) (fun _ _ => Ok evening_swath)
            "2018250N12160" evening 120.125 10.125 "smap.nc").
  vm_compute. reflexivity.
Defined.

(** X3.  Every record of an extraction sits on a cell [(y, x)] of the
    window read from the file: its offsets are the cell indices less the
    half window, its coordinates are the south-west corner of the window
    plus the indices times the resolution, and its key is made of its
    time, longitude and latitude. *)
Theorem extracted_records_on_window_grid (c : config)
    (read : string -> square -> outcome swath) (tc_id : string)
    (tc_dt : datetime) (tc_lon tc_lat : Q) (path : string)
    (data : list row) (hourtimes : list Z) (ar : area) :
  get_smap_part c read tc_id tc_dt tc_lon tc_lat path = Ok (Triple data hourtimes ar) ->
  exists sq sw,
    get_square_around_tc c tc_lon tc_lat = Ok sq /\ read path sq = Ok sw /\
    Forall (fun r => exists y x,
              0 <= y < Z.of_nat (lats_num sw) /\ 0 <= x < Z.of_nat (lons_num sw) /\
              r_y r = y - half_edge_grid_intervals c /\
              r_x r = x - half_edge_grid_intervals c /\
              r_lat r = (inject_Z y * smap_resolution c + sq_lat1 sq)%Q /\
              r_lon r = (inject_Z x * smap_resolution c + sq_lon1 sq)%Q /\
              satel_datetime_lon_lat r = (satel_datetime r, r_lon r, r_lat r)) data.
Proof.
  intros H. apply get_smap_part_triple in H
    as (sq & sw & acc & Hsq & _ & Hsw & Hacc & -> & _ & _).
  exists sq, sw. split; [exact Hsq |]. split; [exact Hsw |].
  apply smap_loops_records in Hacc as [Hrec _].
  eapply Forall_impl; [exact Hrec |].
  intros r (y & x & i & (Hy & Hx & _) & _ & _ & Hrx & Hry & Hlon & Hlat & Hkey & _).
  exists y, x. repeat split; try assumption; lia.
Qed.

Lemma extracted_records_on_window_grid_witness :
  exists data hourtimes ar,
    get_smap_part (cfg_rss 1) (fun _ _ => Ok evening_swath) "2018250N12160"
                  evening 120.125 10.125 "smap.nc"
    = Ok (Triple data hourtimes ar) /\
    data <> [] /\
    exists sq sw,
      get_square_around_tc (cfg_rss 1) 120.125 10.125 = Ok sq /\
      Ok evening_swath = Ok sw /\
      Forall (fun r => exists y x,
                0 <= y < Z.of_nat (lats_num sw) /\ 0 <= x < Z.of_nat (lons_num sw) /\
                r_y r = y - half_edge_grid_intervals (cfg_rss 1) /\
                r_x r = x - half_edge_grid_intervals (cfg_rss 1) /\
                r_lat r = (inject_Z y * smap_resolution (cfg_rss 1) + sq_lat1 sq)%Q /\
                r_lon r = (inject_Z x * smap_resolution (cfg_rss 1) + sq_lon1 sq)%Q /\
                satel_datetime_lon_lat r = (satel_datetime r, r_lon r, r_lat r)) data.
Proof.
  do 3 eexists. split; [vm_compute; reflexivity |].
  split; [discriminate |].
  eapply (extracted_records_on_window_grid (cfg_rss 1) (fun _ _ => Ok evening_swath)
            "2018250N12160" evening 120.125 10.125 "smap.nc").
  vm_compute. reflexivity.
Defined.

Lemma dt_hour_bounds (t : datetime) : 0 <= dt_hour t < 24.
Proof. unfold dt_hour. Z.div_mod_to_equations. lia. Qed.

(** X4.  The hours an extraction returns are, without repetition, exactly
    the rounded hours of the records it returns, each between 0 and 23. *)
Theorem hourtimes_are_record_hours (c : config)
    (read : string -> square -> outcome swath) (tc_id : string)
    (tc_dt : datetime) (tc_lon tc_lat : Q) (path : string)
    (data : list row) (hourtimes : list Z) (ar : area) :
  get_smap_part c read tc_id tc_dt tc_lon tc_lat path = Ok (Triple data hourtimes ar) ->
  NoDup hourtimes /\
  forall h, In h hourtimes <->
            exists r, In r data /\ dt_hour (hour_rounder (satel_datetime r)) = h /\
                      0 <= h < 24.
Proof.
  intros H. apply get_smap_part_triple in H
    as (sq & sw & acc & _ & _ & _ & Hacc & -> & -> & _).
  apply smap_loops_records in Hacc as [_ Hhours].
  split; [apply NoDup_elements |].
  intros h. rewrite <- list_elem_of_In, elem_of_elements, Hhours. split.
  - intros (r & Hr & Hh). exists r. split; [exact Hr |]. split; [exact Hh |].
    rewrite <- Hh. apply dt_hour_bounds.
  - intros (r & Hr & Hh & _). exists r. split; assumption.
Qed.

Lemma hourtimes_are_record_hours_witness :
  exists data hourtimes ar,
    get_smap_part (cfg_rss 1) (fun _ _ => Ok evening_swath) "2018250N12160"
                  evening 120.125 10.125 "smap.nc"
    = Ok (Triple data hourtimes ar) /\
    hourtimes = [23] /\
    NoDup hourtimes /\
    forall h, In h hourtimes <->
              exists r, In r data /\ dt_hour (hour_rounder (satel_datetime r)) = h /\
                        0 <= h < 24.
Proof.
  do 3 eexists. split; [vm_compute; reflexivity |].
  split; [reflexivity |].
  eapply (hourtimes_are_record_hours (cfg_rss 1) (fun _ _ => Ok evening_swath)
            "2018250N12160" evening 120.125 10.125 "smap.nc").
  vm_compute. reflexivity.
Defined.

(** X5.  When no pass of the window gets through the filters of lines
    278-290, the extraction returns no record, no hour, and the padded
    initial bounds as its area: north -89.5, west 359.5, south 89.5 and
    east 0.5. *)
Theorem empty_extraction (c : config)
    (read : string -> square -> outcome swath) (tc_id : string)
    (tc_dt : datetime) (tc_lon tc_lat : Q) (path : string)
    (data : list row) (hourtimes : list Z) (ar : area) :
  get_smap_part c read tc_id tc_dt tc_lon tc_lat path = Ok (Triple data hourtimes ar) ->
  (forall sq sw y x i,
      get_square_around_tc c tc_lon tc_lat = Ok sq -> read path sq = Ok sw ->
      ~ reaches_row c tc_dt sw y x i) ->
  data = [] /\ hourtimes = [] /\
  ar = Area (-90 + 0.5) (360 - 0.5) (90 - 0.5) (0 + 0.5).
Proof.
  intros H Hnone. apply get_smap_part_triple in H
    as (sq & sw & acc & Hsq & _ & Hsw & Hacc & -> & -> & ->).
  pose proof (smap_loops_records _ _ _ _ _ _ _ Hacc) as [Hrec Hhours].
  pose proof (smap_loops_tight _ _ _ _ _ _ acc Hacc) as (Tn & Tw & Ts & Te).
  assert (Hdata : acc_data acc = []).
  { destruct (acc_data acc) as [| r rs]; [reflexivity |].
    apply Forall_inv in Hrec as (y & x & i & Hreach & _).
    destruct (Hnone sq sw y x i Hsq Hsw Hreach). }
  assert (Hset : acc_hourtimes acc = ∅).
  { apply set_eq. intros h. rewrite Hhours, Hdata. split.
    - intros (r & [] & _).
    - intros Hh. apply not_elem_of_empty in Hh. destruct Hh. }
  split; [exact Hdata |]. split; [rewrite Hset; apply elements_empty |].
  destruct Tn as [-> | (y & x & i & Hr & _)]; [| destruct (Hnone sq sw y x i Hsq Hsw Hr)].
  destruct Tw as [-> | (y & x & i & Hr & _)]; [| destruct (Hnone sq sw y x i Hsq Hsw Hr)].
  destruct Ts as [-> | (y & x & i & Hr & _)]; [| destruct (Hnone sq sw y x i Hsq Hsw Hr)].
  destruct Te as [-> | (y & x & i & Hr & _)]; [| destruct (Hnone sq sw y x i Hsq Hsw Hr)].
  reflexivity.
Qed.

Lemma empty_extraction_witness :
  exists data hourtimes ar,
    get_smap_part (cfg_rss 1) (fun _ _ => Ok all_missing_swath) "2018250N12160"
                  evening 120.125 10.125 "smap.nc"
    = Ok (Triple data hourtimes ar) /\
    data = [] /\ hourtimes = [] /\
    ar = Area (-90 + 0.5) (360 - 0.5) (90 - 0.5) (0 + 0.5).
Proof.
  do 3 eexists. split; [vm_compute; reflexivity |].
  eapply (empty_extraction (cfg_rss 1) (fun _ _ => Ok all_missing_swath)
            "2018250N12160" evening 120.125 10.125 "smap.nc").
  - vm_compute. reflexivity.
  - intros sq sw y x i _ [= <-] (Hy & Hx & Hi & cm & cw & t & Hc & Hp).
    cbn in Hy, Hx, Hi.
    assert (Hy' : y = 0 \/ y = 1 \/ y = 2) by lia.
    assert (Hx' : x = 0 \/ x = 1 \/ x = 2) by lia.
    assert (Hi' : i = 0 \/ i = 1) by lia.
    destruct Hy' as [-> | [-> | ->]]; destruct Hx' as [-> | [-> | ->]];
      vm_compute in Hc; injection Hc as <- <-;
      destruct Hi' as [-> | ->]; vm_compute in Hp; discriminate.
Defined.

(** ** The traversal, fix by fix *)

(** X6.  Two consecutive fixes of one track less than an hour apart (the
    second not before the first) end the run: the hourly shift divides by
    zero hours, and the handler of the traversal exits on it before any
    extraction is made for that fix. *)
Theorem sub_hour_gap_exits (detail : call -> M unit) (to_180 : Q -> outcome Q)
    (land : Q -> Q -> outcome bool) (q : list tc_fix) (total idx : Z)
    (tc next_tc : tc_fix) (rest : list tc_fix) (converted_lon : Q) (s : list event) :
  to_180 (lon tc) = Ok converted_lon ->
  land (lat tc) converted_lon = Ok false ->
  idx < total - 1 ->
  py_index q (idx + 1) = Ok next_tc ->
  sid tc = sid next_tc ->
  0 <= date_time next_tc - date_time tc < 3600 ->
  extract_from detail to_180 land q total idx (tc :: rest) s
  = (SysExit ZeroDivisionError, s).
Proof.
  intros Hlon Hland Hidx Hnext Hsid Hgap.
  cbn [extract_from]. unfold bind at 1, exit_on_exception, extract_fix.
  unfold bind, lift. rewrite Hlon, Hland.
  destruct (idx <? total - 1) eqn:E; [| apply Z.ltb_ge in E; lia].
  rewrite Hnext, Hsid, String.eqb_refl.
  rewrite sub_hour_gap_raises; [reflexivity | |].
  - unfold td_days. apply Z.div_small. lia.
  - unfold td_seconds. rewrite Z.mod_small by lia. apply Z.div_small. lia.
Qed.

Lemma sub_hour_gap_exits_witness :
  extract_from probe_detail (fun l => Ok l) (fun _ _ => Ok false)
               [fix_a; fix_soon; fix_b] 3 0 [fix_a; fix_soon; fix_b] []
  = (SysExit ZeroDivisionError, []).
Proof.
  apply (sub_hour_gap_exits probe_detail (fun l => Ok l) (fun _ _ => Ok false)
           [fix_a; fix_soon; fix_b] 3 0 fix_a fix_soon [fix_soon; fix_b] 140 []).
  - reflexivity.
  - reflexivity.
  - lia.
  - reflexivity.
  - reflexivity.
  - vm_compute. split; [discriminate | reflexivity].
Defined.

(** X7.  When the next fix of the track is dated before the current one,
    the timedelta has a negative number of days: nothing is interpolated,
    nothing is raised, and the one extraction is made at the current fix's
    own point. *)
Theorem backward_gap_no_interpolation (detail : call -> M unit) (tc next_tc : tc_fix) :
  date_time next_tc < date_time tc ->
  extract_between_two_tc_records detail tc next_tc = detail (call_of_fix tc).
Proof.
  intros Hlt. unfold extract_between_two_tc_records.
  destruct (td_days (date_time next_tc - date_time tc) =? 0) eqn:E; [| reflexivity].
  apply Z.eqb_eq in E. unfold td_days in E.
  apply Z.div_small_iff in E; lia.
Qed.

Lemma backward_gap_no_interpolation_witness :
  extract_between_two_tc_records probe_detail fix_b fix_a
  = probe_detail (call_of_fix fix_b).
Proof.
  apply (backward_gap_no_interpolation probe_detail fix_b fix_a).
  vm_compute. reflexivity.
Defined.


(** The interpolation loop with the recording stand-in, from any log. *)
Lemma extract_between_probe (tc next_tc : tc_fix) (s : list event) :
  3600 <= date_time next_tc - date_time tc < 86400 ->
  let hours := (date_time next_tc - date_time tc) / 3600 in
  extract_between_two_tc_records probe_detail tc next_tc s
  = (Ok tt, s ++ List.map (fun h => EvExtract (interp_call tc next_tc hours h))
                          (zrange (Z.to_nat hours))).
Proof.
  intros Hgap hours. unfold extract_between_two_tc_records.
  assert (Hd : td_days (date_time next_tc - date_time tc) = 0)
    by (unfold td_days; apply Z.div_small; lia).
  assert (Hs : td_seconds (date_time next_tc - date_time tc) / 3600 = hours)
    by (unfold td_seconds; rewrite Z.mod_small by lia; reflexivity).
  rewrite Hd, Hs. cbn [Z.eqb negb get_center_shift_of_two_tcs].
  assert (Hh : 1 <= hours) by (unfold hours; apply Z.div_le_lower_bound; lia).
  destruct (hours =? 0) eqn:E; [apply Z.eqb_eq in E; lia |].
  apply (for_eachM_probe (interp_call tc next_tc hours)).
Qed.

(** X9.  A table of two ocean fixes of one track, between one hour and
    one day apart: the run returns after [H + 1] extractions, the [H]
    hourly points from the first fix on (the first fix's own time
    included) and then the second fix at its own point. *)
Theorem two_fix_track_extractions (to_180 : Q -> outcome Q)
    (land : Q -> Q -> outcome bool) (tc next_tc : tc_fix) (lon0 lon1 : Q) :
  to_180 (lon tc) = Ok lon0 -> land (lat tc) lon0 = Ok false ->
  to_180 (lon next_tc) = Ok lon1 -> land (lat next_tc) lon1 = Ok false ->
  sid tc = sid next_tc ->
  3600 <= date_time next_tc - date_time tc < 86400 ->
  let hours := (date_time next_tc - date_time tc) / 3600 in
  extract_with probe_detail to_180 land [tc; next_tc] []
  = (Ok tt,
     List.map (fun h => EvExtract (interp_call tc next_tc hours h))
              (zrange (Z.to_nat hours))
     ++ [EvExtract (call_of_fix next_tc)]).
Proof.
  intros H0 L0 H1 L1 Hsid Hgap hours.
  unfold extract_with. cbn [length extract_from].
  unfold bind at 1, exit_on_exception at 1, extract_fix at 1.
  unfold bind at 1, lift at 1. rewrite H0.
  unfold bind at 1, lift at 1. rewrite L0.
  change (0 <? Z.of_nat 2 - 1) with true. cbv iota.
  unfold bind at 1, lift at 1. change (py_index [tc; next_tc] (0 + 1)) with (Ok next_tc).
  cbv iota beta. rewrite Hsid, String.eqb_refl.
  rewrite (extract_between_probe tc next_tc [] Hgap). fold hours. cbn [app].
  unfold bind at 1, exit_on_exception at 1, extract_fix at 1.
  unfold bind at 1, lift at 1. rewrite H1.
  unfold bind at 1, lift at 1. rewrite L1.
  change (0 + 1 <? Z.of_nat 2 - 1) with false. cbv iota.
  unfold probe_detail, tell, ret. reflexivity.
Qed.

Lemma two_fix_track_extractions_witness :
  snd (extract_with probe_detail (fun l => Ok l) (fun _ _ => Ok false) [fix_a; fix_b] [])
  = List.map (fun h => EvExtract (interp_call fix_a fix_b 6 h)) [0; 1; 2; 3; 4; 5]
    ++ [EvExtract (call_of_fix fix_b)].
Proof.
  rewrite (two_fix_track_extractions (fun l => Ok l) (fun _ _ => Ok false)
             fix_a fix_b 140 137).
  - reflexivity.
  - reflexivity.
  - reflexivity.
  - reflexivity.
  - reflexivity.
  - reflexivity.
  - vm_compute. split; [discriminate | reflexivity].
Defined.

(** ** What the hour buckets hold *)

Lemma fill_mapper_lookup (satel_day : Z) (rows : list row) :
  forall (idx : nat) (m m' : gmap Z (list nat)) (h : Z),
    fill_mapper satel_day rows idx m = Ok m' ->
    m' !! h = (fun l => l ++ indices_for satel_day h rows idx) <$> m !! h.
Proof.
  induction rows as [| r rows IH]; intros idx m m' h H; cbn [fill_mapper indices_for] in *.
  - injection H as <-. destruct (m !! h); cbn; [rewrite app_nil_r |]; reflexivity.
  - destruct (dt_day (hour_rounder (satel_datetime r)) =? satel_day) eqn:Ed; cbn [andb].
    + destruct (m !! (100 * dt_hour (hour_rounder (satel_datetime r)))) as [l0 |] eqn:E0;
        [| discriminate].
      rewrite (IH _ _ _ h H), lookup_insert.
      destruct (100 * dt_hour (hour_rounder (satel_datetime r)) =? h) eqn:Eh.
      * apply Z.eqb_eq in Eh. rewrite decide_True by exact Eh. subst h.
        rewrite E0. cbn. rewrite <- app_assoc. reflexivity.
      * apply Z.eqb_neq in Eh. rewrite decide_False by exact Eh. reflexivity.
    + apply (IH _ _ _ h H).
Qed.

Lemma indices_for_In (satel_day h : Z) (rows : list row) :
  forall (idx j : nat),
    In j (indices_for satel_day h rows idx) <->
    exists r, (idx <= j)%nat /\ rows !! (j - idx)%nat = Some r /\
              dt_day (hour_rounder (satel_datetime r)) = satel_day /\
              100 * dt_hour (hour_rounder (satel_datetime r)) = h.
Proof.
  induction rows as [| r rows IH]; intros idx j; cbn [indices_for].
  - split; [intros [] | intros (r & _ & Hr & _); discriminate].
  - assert (Htail : In j (indices_for satel_day h rows (S idx)) <->
              exists r', (S idx <= j)%nat /\ (r :: rows) !! (j - idx)%nat = Some r' /\
                dt_day (hour_rounder (satel_datetime r')) = satel_day /\
                100 * dt_hour (hour_rounder (satel_datetime r')) = h).
    { rewrite IH. split; intros (r' & Hle & Hr & Hd); exists r'; (split; [exact Hle |]);
        (split; [| exact Hd]).
      - replace (j - idx)%nat with (S (j - S idx)) by lia. exact Hr.
      - replace (j - idx)%nat with (S (j - S idx)) in Hr by lia. exact Hr. }
    destruct ((dt_day (hour_rounder (satel_datetime r)) =? satel_day)
              && (100 * dt_hour (hour_rounder (satel_datetime r)) =? h)) eqn:E.
    + apply andb_true_iff in E as [Ed Eh]. apply Z.eqb_eq in Ed, Eh.
      cbn [In]. rewrite Htail. split.
      * intros [<- | (r' & Hle & Hr)].
        -- exists r. rewrite Nat.sub_diag. repeat split; try assumption. lia.
        -- exists r'. split; [lia | exact Hr].
      * intros (r' & Hle & Hr & Hd).
        destruct (Nat.eq_dec idx j) as [-> | Hne]; [left; reflexivity | right].
        exists r'. split; [lia |]. split; assumption.
    + rewrite Htail. split.
      * intros (r' & Hle & Hr). exists r'. split; [lia | exact Hr].
      * intros (r' & Hle & Hr & Hd & Hh).
        destruct (Nat.eq_dec idx j) as [-> | Hne].
        -- rewrite Nat.sub_diag in Hr. injection Hr as <-.
           apply andb_false_iff in E as [E | E]; apply Z.eqb_neq in E; contradiction.
        -- exists r'. split; [lia |]. repeat split; assumption.
Qed.

Lemma indices_for_sorted (satel_day h : Z) (rows : list row) :
  forall idx, NoDup (indices_for satel_day h rows idx) /\
              Forall (fun j => (idx <= j)%nat) (indices_for satel_day h rows idx).
Proof.
  induction rows as [| r rows IH]; intros idx; cbn [indices_for].
  - split; constructor.
  - destruct (IH (S idx)) as [Hnd Hge].
    assert (Hge' : Forall (fun j => (idx <= j)%nat) (indices_for satel_day h rows (S idx))).
    { eapply Forall_impl; [exact Hge |]. cbn. intros; lia. }
    destruct (_ && _); [| split; assumption].
    split.
    + apply NoDup_cons. split; [| exact Hnd].
      intros Hin. rewrite Forall_forall in Hge. apply Hge in Hin. lia.
    + constructor; [lia | exact Hge'].
Qed.

Lemma insert_empty_buckets_other (h : Z) (keys : list Z) :
  forall (m : gmap Z (list nat)),
    m !! h = None -> ~ In h keys ->
    fold_left (fun m k => <[k := []]> m) keys m !! h = None.
Proof.
  induction keys as [| k keys IH]; intros m Hm Hk; cbn [fold_left]; [exact Hm |].
  apply IH; [| intros Hin; apply Hk; right; exact Hin].
  rewrite lookup_insert_ne; [exact Hm |].
  intros ->. apply Hk. left. reflexivity.
Qed.

(** X10.  The builder raises [IndexError] on an empty list of records; on
    any other list it returns a map whose keys are exactly the 24 hour
    keys 0, 100, ..., 2300, so that no later lookup of an hour key fails. *)
Theorem hourtime_row_mapper_keys :
  get_hourtime_row_mapper [] = Raise IndexError /\
  forall r rows, exists m,
    get_hourtime_row_mapper (r :: rows) = Ok m /\
    forall h, is_Some (m !! h) <-> In h hourtimes_of_day.
Proof.
  split; [reflexivity |].
  intros r rows. destruct (get_hourtime_row_mapper_total r rows) as [m Hm].
  exists m. split; [exact Hm |].
  rewrite get_hourtime_row_mapper_first in Hm.
  intros h. rewrite (fill_mapper_lookup _ _ _ _ _ h Hm), fmap_is_Some.
  split.
  - intros [l Hl]. destruct (in_dec Z.eq_dec h hourtimes_of_day) as [Hin | Hout];
      [exact Hin | exfalso].
    unfold empty_mapper in Hl.
    rewrite (insert_empty_buckets_other h hourtimes_of_day ∅ (lookup_empty h) Hout) in Hl.
    discriminate.
  - intros Hin. unfold hourtimes_of_day in Hin. apply in_map_iff in Hin as (k & <- & Hk).
    apply In_zrange in Hk. apply empty_mapper_keys. cbn in Hk. lia.
Qed.

(** The bucket of an hour key, member by member. *)
Lemma mapper_bucket_members (satel_part : list row) (first : row)
    (m : gmap Z (list nat)) (h : Z) (bucket : list nat) :
  get_hourtime_row_mapper satel_part = Ok m ->
  satel_part !! 0%nat = Some first ->
  m !! h = Some bucket ->
  NoDup bucket /\
  forall idx, In idx bucket <->
    exists r, satel_part !! idx = Some r /\
      dt_day (hour_rounder (satel_datetime r)) = dt_day (satel_datetime first) /\
      100 * dt_hour (hour_rounder (satel_datetime r)) = h.
Proof.
  intros Hm Hfirst Hb.
  destruct satel_part as [| r0 rows]; [discriminate |].
  injection Hfirst as ->.
  rewrite get_hourtime_row_mapper_first in Hm.
  rewrite (fill_mapper_lookup _ _ _ _ _ h Hm) in Hb.
  destruct (empty_mapper !! h) as [l0 |] eqn:E0; [| discriminate].
  apply empty_mapper_buckets in E0. subst l0.
  pose (X := indices_for (dt_day (satel_datetime first)) h (first :: rows) 0).
  assert (Hb' : Some X = Some bucket) by exact Hb.
  injection Hb' as <-. clear Hb. unfold X. clear X.
  split; [apply (proj1 (indices_for_sorted _ _ _ _)) |].
  intros idx. rewrite indices_for_In. rewrite Nat.sub_0_r.
  split.
  - intros (r & _ & Hr). exists r. exact Hr.
  - intros (r & Hr). exists r. split; [lia | exact Hr].
Qed.

(** X11.  In the map the builder returns, the bucket of an hour key holds,
    once each, exactly the indices of the records whose time rounded to
    the hour falls on the day of the month of the first record and at that
    hour. *)
Theorem hourtime_row_mapper_buckets (satel_part : list row) (first : row)
    (m : gmap Z (list nat)) (h : Z) (bucket : list nat) :
  get_hourtime_row_mapper satel_part = Ok m ->
  satel_part !! 0%nat = Some first ->
  m !! h = Some bucket ->
  NoDup bucket /\
  forall idx, In idx bucket <->
    exists r, satel_part !! idx = Some r /\
      dt_day (hour_rounder (satel_datetime r)) = dt_day (satel_datetime first) /\
      100 * dt_hour (hour_rounder (satel_datetime r)) = h.
Proof. apply mapper_bucket_members. Qed.

Lemma hourtime_row_mapper_buckets_witness :
  exists m bucket,
    get_hourtime_row_mapper [row_2320; row_2340] = Ok m /\
    m !! 2300 = Some bucket /\ bucket = [0%nat] /\
    NoDup bucket /\
    forall idx, In idx bucket <->
      exists r, [row_2320; row_2340] !! idx = Some r /\
        dt_day (hour_rounder (satel_datetime r)) = dt_day (satel_datetime row_2320) /\
        100 * dt_hour (hour_rounder (satel_datetime r)) = 2300.
Proof.
  do 2 eexists. split; [vm_compute; reflexivity |].
  split; [vm_compute; reflexivity |].
  split; [reflexivity |].
  eapply (hourtime_row_mapper_buckets [row_2320; row_2340] row_2320).
  - vm_compute. reflexivity.
  - reflexivity.
  - vm_compute. reflexivity.
Defined.

(** ** What the reanalysis passes change *)

Lemma same_satellite_part_refl (r : row) : same_satellite_part r r.
Proof. unfold same_satellite_part. repeat split; reflexivity. Qed.

Lemma same_satellite_part_trans (r0 r1 r2 : row) :
  same_satellite_part r0 r1 -> same_satellite_part r1 r2 -> same_satellite_part r0 r2.
Proof.
  unfold same_satellite_part.
  intros (? & ? & ? & ? & ? & ? & ? & ?) (? & ? & ? & ? & ? & ? & ? & ?).
  repeat split; congruence.
Qed.

Lemma rows_related_refl (R : row -> row -> Prop) (rows : list row) :
  (forall r, R r r) -> rows_related R rows rows.
Proof.
  intros HR. split; [reflexivity |].
  intros i r0 r H0 H1. rewrite H0 in H1. injection H1 as <-. apply HR.
Qed.

(** Replacing the record at [idx] keeps the relation when the new record
    is related to the original one. *)
Lemma rows_related_insert (R : row -> row -> Prop) (rows0 rows : list row)
    (idx : nat) (r' : row) :
  rows_related R rows0 rows ->
  (forall r0, rows0 !! idx = Some r0 -> R r0 r') ->
  rows_related R rows0 (<[idx := r']> rows).
Proof.
  intros [Hlen Hrel] Hnew. split; [rewrite length_insert; exact Hlen |].
  intros i r0 r H0 H1.
  destruct (decide (i = idx)) as [-> | Hne].
  - rewrite list_lookup_insert_eq in H1.
    + injection H1 as <-. apply Hnew, H0.
    + rewrite Hlen. apply lookup_lt_Some in H0. exact H0.
  - rewrite list_lookup_insert_ne in H1 by congruence. apply (Hrel i); assumption.
Qed.

Section PassFacts.

Variable P : event -> Prop.
Hypothesis log_error_ok : forall msg, P (EvLogError msg).

(** The update in place, with what the update function promises. *)
Lemma hoare_update_row_at (idx : nat) (f : row -> M row) (rows : list row)
    (Qf : row -> row -> Prop) :
  (forall r, hoare P (f r) (Qf r)) ->
  hoare P (update_row idx f rows)
        (fun rows' => exists r r', rows !! idx = Some r /\ Qf r r' /\
                                   rows' = <[idx := r']> rows).
Proof.
  intros Hf. unfold update_row. destruct (rows !! idx) as [r |].
  - apply (hoare_bind _ _ _ (Qf r)); [apply Hf |].
    intros r' Hr'. apply hoare_ret. exists r, r'. repeat split. exact Hr'.
  - apply hoare_lift. discriminate.
Qed.

(** The loops over hours, messages and bucket indices, with the time of
    the hour in hand. *)
Lemma hoare_resample_hours_time (e : env) (path : string) (ar : area)
    (m : gmap Z (list nat))
    (per_row : Z -> Z -> grib_message -> string -> grid -> grid -> grid ->
               nat -> list row -> M (list row))
    (Inv : list row -> Prop) :
  (forall hourtime bucket grb_time msgs grb name data lats lons idx rows,
      m !! hourtime = Some bucket -> In idx bucket ->
      mk_time (hourtime / 100) 0 = Ok grb_time ->
      grib_select e path hourtime = Ok msgs -> In grb msgs ->
      Inv rows ->
      hoare P (per_row hourtime grb_time grb name data lats lons idx rows) Inv) ->
  forall rows, Inv rows -> hoare P (resample_hours e path ar m per_row rows) Inv.
Proof.
  intros Hrow rows Hrows. unfold resample_hours.
  apply hoare_for_eachM; [| exact Hrows].
  intros hourtime rows1 _ Hrows1.
  destruct (m !! hourtime) as [bucket |] eqn:Hb; [| apply hoare_lift; discriminate].
  destruct bucket as [| idx0 bucket']; [apply hoare_ret, Hrows1 |].
  apply (hoare_bind _ _ _ (fun g => mk_time (hourtime / 100) 0 = Ok g));
    [apply hoare_lift; intros g Hg; exact Hg |].
  intros grb_time Hg.
  apply (hoare_bind _ _ _ (fun l => grib_select e path hourtime = Ok l));
    [apply hoare_lift; intros l Hl; exact Hl |].
  intros selected Hsel. unfold resample_messages.
  apply hoare_for_eachM; [| exact Hrows1].
  intros grb rows2 Hgrb Hrows2.
  apply (hoare_bind _ _ _ (fun _ => True)); [apply hoare_lift; intros; exact I |].
  intros [[data lats] lons] _.
  apply hoare_for_eachM; [| exact Hrows2].
  intros idx rows3 Hidx Hrows3.
  apply (Hrow hourtime (idx0 :: bucket') grb_time selected); assumption.
Qed.

(** One record in the surface pass. *)
Lemma hoare_resample_row_single_fields (e : env) (tc_dt : datetime)
    (hourtime grb_time : Z) (name : string) (data lats lons : grid) (res : Q)
    (r : row) :
  hoare P (resample_row_single e tc_dt hourtime grb_time name data lats lons res r)
        (fun r' => same_satellite_part r r' /\
                   era5_datetime r' = Some (combine (dt_date tc_dt) grb_time) /\
                   satel_era5_diff_mins r' = Some (satel_minute r - hourtime / 100 * 60) /\
                   exists v, attrs r' = <[name := v]> (attrs r)).
Proof.
  unfold resample_row_single.
  apply (hoare_bind _ _ _ (fun _ => True));
    [apply (hoare_value_single_levels P log_error_ok) |].
  intros v _. apply hoare_ret.
  split; [unfold same_satellite_part; cbn; repeat split; reflexivity |].
  split; [reflexivity |]. split; [reflexivity |]. exists v. reflexivity.
Qed.

(** One record in the pressure-level pass. *)
Lemma hoare_resample_row_pressure_fields (e : env) (tc_dt : datetime)
    (hourtime grb_time : Z) (name : string) (data lats lons : grid) (res : Q)
    (r : row) :
  hoare P (resample_row_pressure e tc_dt hourtime grb_time name data lats lons res r)
        (fun r' => same_satellite_part r r' /\ same_era5_time r r' /\
                   exists v, attrs r' = <[name := v]> (attrs r)).
Proof.
  unfold resample_row_pressure.
  apply (hoare_bind _ _ _ (fun _ => True)).
  { destruct (decide _); [apply hoare_ret; exact I |].
    apply hoare_tell; [apply log_error_ok | exact I]. }
  intros _ _. apply (hoare_bind _ _ _ (fun _ => True)).
  { destruct (decide _); [apply hoare_ret; exact I |].
    apply hoare_tell; [apply log_error_ok | exact I]. }
  intros _ _. apply (hoare_bind _ _ _ (fun _ => True));
    [apply (hoare_value_pressure_levels P log_error_ok) |].
  intros v _. apply hoare_ret.
  split; [unfold same_satellite_part; cbn; repeat split; reflexivity |].
  split; [split; reflexivity |]. exists v. reflexivity.
Qed.

End PassFacts.

(** ** Times rounded to the hour *)

(** A time as whole hours and a rest below an hour. *)
Lemma time_split (t : datetime) :
  exists a b, t = 3600 * a + b /\ 0 <= b < 3600 /\
    dt_date t = a / 24 /\ dt_hour t = a mod 24 /\ dt_minute t = b / 60 /\
    dt_second t = b mod 60 /\ t mod 3600 = b.
Proof.
  exists (t / 3600), (t mod 3600).
  unfold dt_date, dt_hour, dt_minute, dt_second.
  pose proof (Z.div_mod t 3600 ltac:(lia)) as H1.
  pose proof (Z.mod_pos_bound t 3600 ltac:(lia)) as H2.
  split; [lia |]. split; [lia |].
  split; [rewrite Z.div_div by lia; reflexivity |].
  split.
  { replace 86400 with (3600 * 24) by lia. rewrite Z.rem_mul_r by lia.
    rewrite Z.mul_comm, Z.div_add by lia. rewrite Z.div_small by lia. lia. }
  split; [reflexivity |].
  split; [| reflexivity].
  replace 3600 with (60 * 60) by lia. rewrite Z.rem_mul_r by lia.
  rewrite Z.mul_comm, Z.mod_add by lia. rewrite Z.mod_mod by lia. reflexivity.
Qed.

(** A time that does not round into the next day: its rounded time is on
    the same day, on the hour, and at most half an hour away. *)
Lemma rounded_same_day (t : datetime) :
  rounds_to_next_day t = false ->
  let hour := dt_hour (hour_rounder t) in
  let d := dt_hour t * 60 + dt_minute t - hour * 60 in
  dt_date (hour_rounder t) = dt_date t /\
  hour_rounder t = combine (dt_date t) (hour * 3600) /\
  -30 <= d <= 29 /\
  t - dt_second t = hour_rounder t + 60 * d.
Proof.
  intros Hr. cbv zeta.
  destruct (time_split t) as (a & b & Ht & Hb & Hdate & Hhour & Hmin & Hsec & Hmod).
  destruct (time_split (hour_rounder t))
    as (a' & b' & Ht' & Hb' & Hdate' & Hhour' & _ & _ & _).
  unfold rounds_to_next_day in Hr. rewrite Hhour, Hhour' in Hr.
  rewrite Hdate, Hdate', Hhour, Hhour', Hmin, Hsec.
  unfold hour_rounder in Ht'. rewrite Hmin, Hmod in Ht'.
  unfold hour_rounder. rewrite Hmin, Hmod. unfold combine.
  apply andb_false_iff in Hr.
  destruct (30 <=? b / 60) eqn:E.
  - apply Z.leb_le in E.
    assert (Ha' : a' = a + 1 /\ b' = 0) by lia. destruct Ha' as [-> ->].
    assert (Hne : a mod 24 <> 23 \/ (a + 1) mod 24 <> 0)
      by (destruct Hr as [Hr | Hr]; apply Z.eqb_neq in Hr; [left | right]; exact Hr).
    assert (Hlt : a mod 24 < 23).
    { pose proof (Z.mod_pos_bound a 24 ltac:(lia)).
      destruct Hne as [Hne | Hne]; [lia |].
      destruct (Z.eq_dec (a mod 24) 23) as [E23 | ?]; [| lia].
      exfalso. apply Hne.
      pose proof (Z.div_mod a 24 ltac:(lia)).
      replace (a + 1) with ((a / 24 + 1) * 24) by lia. apply Z.mod_mul. lia. }
    pose proof (Z.div_mod a 24 ltac:(lia)) as Hdm.
    pose proof (Z.mod_pos_bound a 24 ltac:(lia)) as Hmb.
    assert (Hd1 : (a + 1) / 24 = a / 24).
    { symmetry. apply (Z.div_unique (a + 1) 24 (a / 24) (a mod 24 + 1)); lia. }
    assert (Hm1 : (a + 1) mod 24 = a mod 24 + 1).
    { symmetry. apply (Z.mod_unique (a + 1) 24 (a / 24) (a mod 24 + 1)); lia. }
    rewrite Hd1, Hm1.
    pose proof (Z.div_mod b 60 ltac:(lia)). pose proof (Z.mod_pos_bound b 60 ltac:(lia)).
    assert (b / 60 < 60) by (apply Z.div_lt_upper_bound; lia).
    repeat split; lia.
  - apply Z.leb_gt in E.
    assert (Ha' : a' = a /\ b' = 0) by lia. destruct Ha' as [-> ->].
    pose proof (Z.div_mod a 24 ltac:(lia)) as Hdm.
    pose proof (Z.div_mod b 60 ltac:(lia)). pose proof (Z.mod_pos_bound b 60 ltac:(lia)).
    assert (0 <= b / 60) by (apply Z.div_pos; lia).
    repeat split; lia.
Qed.

Lemma satel_minute_same (r0 r : row) :
  satel_datetime r = satel_datetime r0 -> satel_minute r = satel_minute r0.
Proof. unfold satel_minute. intros ->. reflexivity. Qed.

Lemma mk_time_hour (h t : Z) : mk_time h 0 = Ok t -> t = h * 3600.
Proof.
  unfold mk_time. destruct (_ && _); [| discriminate]. intros [= <-]. lia.
Qed.

Section SurfacePass.

Variable P : event -> Prop.
Hypothesis log_error_ok : forall msg, P (EvLogError msg).

(** The surface pass relates every record to the one it started from. *)
Lemma hoare_resample_single_levels_fields (e : env) (path : string)
    (tc_dt : datetime) (ar : area) (m : gmap Z (list nat)) (satel_part : list row) :
  get_hourtime_row_mapper satel_part = Ok m ->
  hoare P (resample_single_levels e path tc_dt ar m satel_part)
        (rows_related (surface_resampled tc_dt) satel_part).
Proof.
  intros Hm. unfold resample_single_levels.
  apply (hoare_resample_hours_time P).
  - intros hourtime bucket grb_time msgs grb name data lats lons idx rows
           Hb Hin Hg _ _ Hrel.
    eapply hoare_weaken.
    + apply (hoare_update_row_at P), (hoare_resample_row_single_fields P log_error_ok).
    + cbn beta. intros rows' (r & r' & Hr & (Hsat & Ht & Hd & _) & ->).
      apply rows_related_insert; [exact Hrel |].
      intros r0 Hr0.
      destruct Hrel as [_ Hrel]. destruct (Hrel idx r0 r Hr0 Hr) as [Hsat0 _].
      split; [eapply same_satellite_part_trans; eassumption |].
      right. cbv zeta.
      assert (Hfirst : exists first, satel_part !! 0%nat = Some first).
      { destruct satel_part as [| f rest]; [discriminate | eexists; reflexivity]. }
      destruct Hfirst as [first Hfirst].
      destruct (mapper_bucket_members satel_part first m hourtime bucket Hm Hfirst Hb)
        as [_ Hmem].
      apply Hmem in Hin as (r0' & Hr0' & _ & Hkey).
      rewrite Hr0 in Hr0'. injection Hr0' as <-.
      assert (Hh : hourtime / 100 = dt_hour (hour_rounder (satel_datetime r0))).
      { rewrite <- Hkey, Z.mul_comm. apply Z.div_mul. lia. }
      apply mk_time_hour in Hg. rewrite Hh in Hg, Hd.
      rewrite Ht, Hd, Hg.
      rewrite (satel_minute_same r0 r) by apply Hsat0.
      split; reflexivity.
  - apply rows_related_refl. intros r.
    split; [apply same_satellite_part_refl | left; split; reflexivity].
Qed.

End SurfacePass.





(** X14.  Every record an extraction returns is resampled: the builder
    answers on the list, and the index of the record is in the bucket of
    the hour its time rounds to and in no other bucket. *)
Theorem extracted_records_are_bucketed (c : config)
    (read : string -> square -> outcome swath) (tc_id : string)
    (tc_dt : datetime) (tc_lon tc_lat : Q) (path : string)
    (data : list row) (hourtimes : list Z) (ar : area) (idx : nat) (r : row) :
  get_smap_part c read tc_id tc_dt tc_lon tc_lat path = Ok (Triple data hourtimes ar) ->
  data !! idx = Some r ->
  exists m bucket,
    get_hourtime_row_mapper data = Ok m /\
    m !! (100 * dt_hour (hour_rounder (satel_datetime r))) = Some bucket /\
    In idx bucket /\
    forall h bucket', m !! h = Some bucket' -> In idx bucket' ->
                      h = 100 * dt_hour (hour_rounder (satel_datetime r)).
Proof.
  intros Hpart Hr.
  pose proof (get_smap_part_rows _ _ _ _ _ _ _ _ _ _ Hpart) as Hday.
  rewrite Forall_forall in Hday.
  destruct data as [| first rest]; [discriminate |].
  destruct (get_hourtime_row_mapper_total first rest) as [m Hm].
  assert (Hfirst : (first :: rest) !! 0%nat = Some first) by reflexivity.
  assert (Hdayr : dt_day (hour_rounder (satel_datetime r)) = dt_day (satel_datetime first)).
  { destruct (Hday r) as [Hd Hn]; [apply list_elem_of_lookup; eauto |].
    destruct (Hday first) as [Hd0 _]; [left |].
    destruct (rounded_same_day _ Hn) as (Hsame & _).
    unfold dt_day. rewrite Hsame, Hd, Hd0. reflexivity. }
  assert (Hkey : is_Some (m !! (100 * dt_hour (hour_rounder (satel_datetime r))))).
  { rewrite get_hourtime_row_mapper_first in Hm.
    rewrite (fill_mapper_lookup _ _ _ _ _ _ Hm), fmap_is_Some.
    apply empty_mapper_keys, dt_hour_bounds. }
  destruct Hkey as [bucket Hb].
  exists m, bucket. split; [exact Hm |]. split; [exact Hb |].
  split.
  - apply (mapper_bucket_members _ first m _ bucket Hm Hfirst Hb).
    exists r. repeat split; assumption.
  - intros h bucket' Hb' Hin.
    apply (mapper_bucket_members _ first m h bucket' Hm Hfirst Hb') in Hin
      as (r' & Hr' & _ & Hh).
    rewrite Hr in Hr'. injection Hr' as <-. symmetry. exact Hh.
Qed.

Lemma extracted_records_are_bucketed_witness :
  exists data hourtimes ar r,
    get_smap_part (cfg_rss 1) (fun _ _ => Ok evening_swath) "2018250N12160"
                  evening 120.125 10.125 "smap.nc"
    = Ok (Triple data hourtimes ar) /\
    data !! 0%nat = Some r /\
    exists m bucket,
      get_hourtime_row_mapper data = Ok m /\
      m !! (100 * dt_hour (hour_rounder (satel_datetime r))) = Some bucket /\
      In 0%nat bucket /\
      forall h bucket', m !! h = Some bucket' -> In 0%nat bucket' ->
                        h = 100 * dt_hour (hour_rounder (satel_datetime r)).
Proof.
  do 4 eexists. split; [vm_compute; reflexivity |].
  split; [reflexivity |].
  eapply (extracted_records_are_bucketed (cfg_rss 1) (fun _ _ => Ok evening_swath)
            "2018250N12160" evening 120.125 10.125 "smap.nc").
  - vm_compute. reflexivity.
  - reflexivity.
Defined.

(** ** Pressure levels and derived winds *)

Lemma nearest_from_In (l : list Q) (v : Q) :
  forall (i : Z) (best : Q * Z),
    fst (nearest_from l v i best) = fst best \/ In (fst (nearest_from l v i best)) l.
Proof.
  induction l as [| x l IH]; intros i best; cbn [nearest_from].
  - left. reflexivity.
  - destruct (IH (i + 1)
                (if Qltb (Qabs (x - v)) (Qabs (fst best - v)) then (x, i) else best))
      as [H | H].
    + rewrite H. destruct (Qltb _ _); [right; left; reflexivity | left; reflexivity].
    + right. right. exact H.
Qed.

Lemma get_nearest_element_In (l : list Q) (v x : Q) (i : Z) :
  get_nearest_element_and_index l v = Ok (x, i) -> In x l.
Proof.
  destruct l as [| y l]; cbn [get_nearest_element_and_index]; [discriminate |].
  intros [= H]. pose proof (nearest_from_In l v 1 (y, 0)) as Hin.
  rewrite H in Hin. cbn [fst] in Hin. destruct Hin as [-> | Hin]; [left | right];
    [reflexivity | exact Hin].
Qed.

Lemma setattr_keeps_keys (name : string) (v : Q) (r : row) (k : string) :
  is_Some (attrs r !! k) -> is_Some (attrs (setattr name v r) !! k).
Proof.
  intros Hk. cbn [setattr attrs]. rewrite lookup_insert.
  case_decide; [eexists; reflexivity | exact Hk].
Qed.

Lemma derive_row_derived (e : env) (r r' : row) (lvl : Q) :
  derive_row e r = Ok (r', lvl) -> derived e r r' lvl.
Proof.
  unfold derive_row. intros H.
  apply obind_Ok in H as [mslp [Hmslp H]].
  apply obind_Ok in H as [[nearest i] [Hnear H]].
  apply obind_Ok in H as [u [_ H]].
  apply obind_Ok in H as [v [_ H]].
  apply obind_Ok in H as [[windspd winddir] [_ H]].
  apply obind_Ok in H as [[su sv] [_ H]].
  injection H as <- <-.
  unfold derived.
  split; [unfold same_satellite_part; cbn; repeat split; reflexivity |].
  split; [split; reflexivity |].
  split; [eapply get_nearest_element_In; exact Hnear |].
  split.
  { unfold getattr in Hmslp. destruct (attrs r !! _); [eexists; reflexivity | discriminate]. }
  cbn [setattr attrs].
  split; [rewrite !lookup_insert; repeat case_decide; try congruence; eexists; reflexivity |].
  split; [rewrite !lookup_insert; repeat case_decide; try congruence; eexists; reflexivity |].
  split; [rewrite !lookup_insert; repeat case_decide; try congruence; eexists; reflexivity |].
  split; [rewrite !lookup_insert; repeat case_decide; try congruence; eexists; reflexivity |].
  intros k Hk. rewrite !lookup_insert. repeat case_decide; try (eexists; reflexivity).
  exact Hk.
Qed.

Lemma derive_rows_derived (e : env) (rows : list row) :
  forall rows' lvls,
    derive_rows e rows = Ok (rows', lvls) ->
    length rows' = length rows /\ length lvls = length rows /\
    forall i r0 r lvl, rows !! i = Some r0 -> rows' !! i = Some r ->
                       lvls !! i = Some lvl -> derived e r0 r lvl.
Proof.
  induction rows as [| r0 rows IH]; intros rows' lvls H; cbn [derive_rows] in H.
  - injection H as <- <-. split; [reflexivity |]. split; [reflexivity |].
    intros i r1 r lvl Hr. discriminate.
  - apply obind_Ok in H as [[r' lvl'] [Hrow H]].
    apply obind_Ok in H as [[rs ls] [Hrs H]].
    injection H as <- <-.
    destruct (IH rs ls Hrs) as (Hl1 & Hl2 & Hrel).
    split; [cbn; lia |]. split; [cbn; lia |].
    intros [| i] r1 r lvl H0 H1 H2; cbn in H0, H1, H2.
    + injection H0 as <-. injection H1 as <-. injection H2 as <-.
      apply derive_row_derived. exact Hrow.
    + apply (Hrel i); assumption.
Qed.

(** A record without a mean sea level pressure stops the loop. *)
Lemma derive_rows_needs_pressure (e : env) (rows : list row) (i : nat) (r : row) :
  rows !! i = Some r -> attrs r !! "mean_sea_level_pressure"%string = None ->
  forall res, derive_rows e rows <> Ok res.
Proof.
  intros Hr Hnone [rows' lvls] H.
  destruct (derive_rows_derived e rows rows' lvls H) as (Hl1 & Hl2 & Hrel).
  assert (Hi : (i < length rows)%nat) by (eapply lookup_lt_Some; exact Hr).
  destruct (lookup_lt_is_Some_2 rows' i) as [r' Hr']; [lia |].
  destruct (lookup_lt_is_Some_2 lvls i) as [lvl Hlvl]; [lia |].
  destruct (Hrel i r r' lvl Hr Hr' Hlvl) as (_ & _ & _ & [x Hx] & _).
  congruence.
Qed.

Lemma same_era5_time_trans (r0 r1 r2 : row) :
  same_era5_time r0 r1 -> same_era5_time r1 r2 -> same_era5_time r0 r2.
Proof. unfold same_era5_time. intros [? ?] [? ?]. split; congruence. Qed.

Lemma rows_related_impl (R R' : row -> row -> Prop) (rows0 rows : list row) :
  (forall r0 r, R r0 r -> R' r0 r) ->
  rows_related R rows0 rows -> rows_related R' rows0 rows.
Proof.
  intros Himpl [Hlen Hrel]. split; [exact Hlen |].
  intros i r0 r H0 H1. apply Himpl, (Hrel i); assumption.
Qed.

Lemma rows_related_trans (R1 R2 R : row -> row -> Prop) (rows0 rows1 rows2 : list row) :
  (forall r0 r1 r2, R1 r0 r1 -> R2 r1 r2 -> R r0 r2) ->
  rows_related R1 rows0 rows1 -> rows_related R2 rows1 rows2 ->
  rows_related R rows0 rows2.
Proof.
  intros Htrans [Hl1 H1] [Hl2 H2]. split; [congruence |].
  intros i r0 r2 Hr0 Hr2.
  destruct (lookup_lt_is_Some_2 rows1 i) as [r1 Hr1].
  { rewrite Hl1. eapply lookup_lt_Some. exact Hr0. }
  eapply Htrans; [apply (H1 i); eassumption | apply (H2 i); eassumption].
Qed.

Section PassResults.

Variable P : event -> Prop.
Hypothesis log_error_ok : forall msg, P (EvLogError msg).
Hypothesis buckets_ok : forall rows, P (EvBuckets rows).

Lemma hoare_call_mapper (rows : list row) :
  hoare P (call_get_hourtime_row_mapper rows)
        (fun m => get_hourtime_row_mapper rows = Ok m).
Proof.
  unfold call_get_hourtime_row_mapper.
  apply (hoare_bind _ _ _ (fun _ => True)); [apply hoare_tell; [apply buckets_ok | exact I] |].
  intros _ _. apply hoare_lift. intros m Hm. exact Hm.
Qed.

(** The whole surface step: resampling, then levels and derived winds. *)
Lemma hoare_add_era5_single_levels_result (e : env) (path : string)
    (tc_dt : datetime) (satel_part : list row) (hourtimes : list Z) (ar : area) :
  hoare P (add_era5_single_levels e path tc_dt satel_part hourtimes ar)
        (fun '(rows, lvls) =>
           length rows = length satel_part /\ length lvls = length satel_part /\
           forall i r0 r lvl, satel_part !! i = Some r0 -> rows !! i = Some r ->
             lvls !! i = Some lvl ->
             exists r1, surface_resampled tc_dt r0 r1 /\ derived e r1 r lvl).
Proof.
  unfold add_era5_single_levels.
  apply (hoare_bind _ _ _ _ _ (hoare_call_mapper satel_part)).
  intros m Hm.
  apply (hoare_bind _ _ _ (fun _ => True)); [apply hoare_lift; intros; exact I |].
  intros messages_num _.
  apply (hoare_bind _ _ _ _ _
           (hoare_resample_single_levels_fields P log_error_ok e path tc_dt ar m
              satel_part Hm)).
  intros rows1 [Hlen1 Hrel1].
  apply hoare_lift. intros [rows lvls] Hd.
  destruct (derive_rows_derived e rows1 rows lvls Hd) as (Hl2 & Hl3 & Hrel2).
  split; [congruence |]. split; [congruence |].
  intros i r0 r lvl Hr0 Hr Hlvl.
  destruct (lookup_lt_is_Some_2 rows1 i) as [r1 Hr1].
  { rewrite Hlen1. eapply lookup_lt_Some. exact Hr0. }
  exists r1. split; [apply (Hrel1 i); assumption | apply (Hrel2 i); assumption].
Qed.

(** The pressure-level pass writes named columns only. *)
Lemma hoare_add_era5_pressure_levels_result (e : env) (path : string)
    (tc_dt : datetime) (era5_step_1 : list row) (hourtimes : list Z) (ar : area)
    (lvls : list Q) :
  hoare P (add_era5_pressure_levels e path tc_dt era5_step_1 hourtimes ar lvls)
        (rows_related pressure_resampled era5_step_1).
Proof.
  unfold add_era5_pressure_levels.
  apply (hoare_bind _ _ _ _ _ (hoare_call_mapper era5_step_1)).
  intros m Hm.
  apply (hoare_bind _ _ _ (fun _ => True)); [apply hoare_lift; intros; exact I |].
  intros messages_num _.
  apply hoare_resample_hours.
  - intros hourtime bucket grb_time grb name data lats lons idx rows _ _ Hrel.
    apply (hoare_bind _ _ _ (fun _ => True)); [apply hoare_lift; intros; exact I |].
    intros lvl _. apply hoare_if; [apply hoare_ret, Hrel |].
    eapply hoare_weaken.
    + apply (hoare_update_row_at P), (hoare_resample_row_pressure_fields P log_error_ok).
    + cbn beta. intros rows' (r & r' & Hr & (Hsat & Htime & v & Hattrs) & ->).
      apply rows_related_insert; [exact Hrel |].
      intros r0 Hr0. destruct Hrel as [_ Hrel].
      destruct (Hrel idx r0 r Hr0 Hr) as (Hsat0 & Htime0 & Hkeys0).
      split; [eapply same_satellite_part_trans; eassumption |].
      split; [eapply same_era5_time_trans; eassumption |].
      intros k Hk. rewrite Hattrs, lookup_insert.
      case_decide; [eexists; reflexivity | apply Hkeys0, Hk].
  - apply rows_related_refl. intros r.
    split; [apply same_satellite_part_refl |]. split; [split; reflexivity |].
    intros k Hk. exact Hk.
Qed.

(** Both passes together, as [extract_era5] runs them. *)
Lemma hoare_extract_era5_result (e : env) (tc_id : string) (tc_dt : datetime)
    (satel_part : list row) (hourtimes : list Z) (ar : area) :
  hoare P (extract_era5 e tc_id tc_dt satel_part hourtimes ar)
        (rows_related same_satellite_part satel_part).
Proof.
  unfold extract_era5. apply hoare_exit_on_exception.
  eapply hoare_bind.
  - unfold extract_era5_single_levels.
    apply (hoare_bind _ _ _ (fun _ => True)); [apply hoare_lift; intros; exact I |].
    intros path _. apply hoare_add_era5_single_levels_result.
  - intros [rows1 lvls] (Hl1 & Hl1' & Hrel1). unfold extract_era5_pressure_levels.
    apply (hoare_bind _ _ _ (fun _ => True)); [apply hoare_lift; intros; exact I |].
    intros path _. eapply hoare_weaken; [apply hoare_add_era5_pressure_levels_result |].
    intros rows2 [Hl2 Hrel2]. split; [congruence |].
    intros i r0 r2 Hr0 Hr2.
    assert (Hi : (i < length satel_part)%nat) by (eapply lookup_lt_Some; exact Hr0).
    destruct (lookup_lt_is_Some_2 rows1 i) as [r1 Hr1]; [lia |].
    destruct (lookup_lt_is_Some_2 lvls i) as [lvl Hlvl]; [lia |].
    destruct (Hrel1 i r0 r1 lvl Hr0 Hr1 Hlvl) as (r' & [Hs1 _] & (Hs2 & _)).
    destruct (Hrel2 i r1 r2 Hr1 Hr2) as (Hs3 & _).
    eapply same_satellite_part_trans; [| exact Hs3].
    eapply same_satellite_part_trans; eassumption.
Qed.

End PassResults.



(** X16.  A record that reaches the end of the surface pass without a mean
    sea level pressure, for instance one that is in no hour bucket, makes
    the surface step fail: it cannot return. *)
Theorem surface_step_needs_pressure (e : env) (path : string) (tc_dt : datetime)
    (satel_part : list row) (hourtimes : list Z) (ar : area)
    (m : gmap Z (list nat)) (idx : nat) (r : row) (s : list event) :
  get_hourtime_row_mapper satel_part = Ok m ->
  satel_part !! idx = Some r ->
  attrs r !! "mean_sea_level_pressure"%string = None ->
  (forall h bucket, m !! h = Some bucket -> ~ In idx bucket) ->
  forall res, fst (add_era5_single_levels e path tc_dt satel_part hourtimes ar s) <> Ok res.
Proof.
  intros Hm Hr Hnone Hout res Hrun.
  assert (Hh : hoare (fun _ => True)
                 (add_era5_single_levels e path tc_dt satel_part hourtimes ar)
                 (fun _ => False)).
  { unfold add_era5_single_levels.
    apply (hoare_bind _ _ _ _ _ (hoare_call_mapper (fun _ => True) (fun _ => I) satel_part)).
    intros m' Hm'. rewrite Hm in Hm'. injection Hm' as <-.
    apply (hoare_bind _ _ _ (fun _ => True)); [apply hoare_lift; intros; exact I |].
    intros messages_num _.
    apply (hoare_bind _ _ _ _ _
             (resample_single_levels_keeps e path tc_dt ar m satel_part idx Hout)).
    intros rows1 Hkeep. rewrite Hr in Hkeep.
    apply hoare_lift. intros res' Hd.
    apply (derive_rows_needs_pressure e rows1 idx r Hkeep Hnone res' Hd). }
  destruct (Hh s (all_events s)) as [_ Hfalse]. apply (Hfalse res Hrun).
Qed.

Lemma surface_step_needs_pressure_witness :
  attrs row_2340 !! "mean_sea_level_pressure"%string = None /\
  forall res,
    fst (add_era5_single_levels env_pipeline "era5_single_levels.grib" evening
           [row_2320; row_2340] [2300] area_quarter []) <> Ok res.
Proof.
  split; [reflexivity |].
  eapply (surface_step_needs_pressure env_pipeline "era5_single_levels.grib" evening
            [row_2320; row_2340] [2300] area_quarter _ 1%nat row_2340 []).
  - vm_compute. reflexivity.
  - reflexivity.
  - reflexivity.
  - intros h bucket Hb Hin.
    assert (Hne : dt_day (hour_rounder (satel_datetime row_2340))
                  <> dt_day (satel_datetime row_2320)) by (vm_compute; discriminate).
    eapply (mapper_bucket_members [row_2320; row_2340] row_2320) in Hin
      as (r & Hr & Hday & _); [| vm_compute; reflexivity | reflexivity | exact Hb].
    injection Hr as <-. exact (Hne Hday).
Defined.



(** X18.  The pressure-level pass does not touch a record whose nearest
    pressure level is the level of none of the messages of the file. *)
Theorem pressure_pass_skips_other_levels (e : env) (path : string) (tc_dt : datetime)
    (era5_step_1 : list row) (hourtimes : list Z) (ar : area) (lvls : list Q)
    (idx : nat) (lvl : Q) (rows : list row) (s s' : list event) :
  py_index lvls (Z.of_nat idx) = Ok lvl ->
  (forall hourtime msgs grb,
      grib_select e path hourtime = Ok msgs -> In grb msgs ->
      Qeq_bool lvl (grb_level grb) = false) ->
  add_era5_pressure_levels e path tc_dt era5_step_1 hourtimes ar lvls s = (Ok rows, s') ->
  rows !! idx = era5_step_1 !! idx.
Proof.
  intros Hlvl Hother Hrun.
  assert (Hh : hoare (fun _ => True)
                 (add_era5_pressure_levels e path tc_dt era5_step_1 hourtimes ar lvls)
                 (fun rows => rows !! idx = era5_step_1 !! idx)).
  { unfold add_era5_pressure_levels.
    apply (hoare_bind _ _ _ (fun _ => True)).
    { eapply hoare_weaken;
        [apply (hoare_call_mapper (fun _ => True) (fun _ => I)) | intros; exact I]. }
    intros m _.
    apply (hoare_bind _ _ _ (fun _ => True)); [apply hoare_lift; intros; exact I |].
    intros messages_num _.
    apply (hoare_resample_hours_time (fun _ => True)); [| reflexivity].
    intros hourtime bucket grb_time msgs grb name data lats lons idx' rows0
           _ _ _ Hsel Hgrb Hinv.
    apply (hoare_bind _ _ _ (fun l => py_index lvls (Z.of_nat idx') = Ok l));
      [apply hoare_lift; intros l Hl; exact Hl |].
    intros lvl' Hlvl'.
    destruct (Qeq_bool lvl' (grb_level grb)) eqn:E; cbn [negb];
      [| apply hoare_ret, Hinv].
    eapply hoare_weaken.
    - apply hoare_update_row. intros r.
      apply (hoare_resample_row_pressure (fun _ => True)). intros; exact I.
    - cbn beta. intros rows' [_ Hkeep]. rewrite Hkeep; [exact Hinv |].
      intros ->. rewrite Hlvl in Hlvl'. injection Hlvl' as <-.
      rewrite (Hother hourtime msgs grb Hsel Hgrb) in E. discriminate. }
  destruct (Hh s (all_events s)) as [_ Hres]. apply Hres. rewrite Hrun. reflexivity.
Qed.

Lemma pressure_pass_skips_other_levels_witness :
  exists rows s',
    add_era5_pressure_levels env_quarter "era5_pressure_levels.grib" sep15
                             [row_0050] [100] area_quarter [900%Q] [] = (Ok rows, s') /\
    rows !! 0%nat = [row_0050] !! 0%nat.
Proof.
  do 2 eexists. split; [vm_compute; reflexivity |].
  eapply (pressure_pass_skips_other_levels env_quarter "era5_pressure_levels.grib" sep15
            [row_0050] [100] area_quarter [900%Q] 0 900 _ []).
  - reflexivity.
  - intros hourtime msgs grb Hsel Hin. cbn in Hsel.
    destruct (hourtime =? 100); injection Hsel as <-; [| destruct Hin].
    destruct Hin as [<- | []]. reflexivity.
  - vm_compute. reflexivity.
Defined.

(** ** What reaches the sink *)

Section Sink.

Variable e : env.
Let P := sink_ok e.





Variable to_180 : Q -> outcome Q.
Variable land : Q -> Q -> outcome bool.


End Sink.


(** ** The four corners in the surface pass *)

Lemma firstn_skipn_two {A} (l : list A) (i : nat) (x y : A) :
  nth_error l i = Some x -> nth_error l (S i) = Some y ->
  firstn 2 (skipn i l) = [x; y].
Proof.
  revert l. induction i as [| i IH]; intros l Hx Hy.
  - destruct l as [| a [| b l]]; try discriminate.
    cbn in Hx, Hy. injection Hx as <-. injection Hy as <-. reflexivity.
  - destruct l as [| a l]; [discriminate |]. cbn [skipn]. apply IH; assumption.
Qed.

Lemma py_slice_two {A} (l : list A) (i : nat) (x y : A) :
  nth_error l i = Some x -> nth_error l (S i) = Some y ->
  py_slice l (Z.of_nat i) (Z.of_nat i + 1 + 1) = [x; y].
Proof.
  intros Hx Hy. unfold py_slice, py_clip.
  assert (Hlen : (S i < length l)%nat) by (apply nth_error_Some; congruence).
  destruct (Z.of_nat i <? 0) eqn:E1; [lia |].
  destruct (Z.of_nat i + 1 + 1 <? 0) eqn:E2; [lia |].
  replace (Z.max 0 (Z.min (Z.of_nat (length l)) (Z.of_nat i))) with (Z.of_nat i) by lia.
  replace (Z.max 0 (Z.min (Z.of_nat (length l)) (Z.of_nat i + 1 + 1)))
    with (Z.of_nat i + 2) by lia.
  replace (Z.to_nat (Z.of_nat i + 2 - Z.of_nat i)) with 2%nat by lia.
  rewrite Nat2Z.id. apply firstn_skipn_two; assumption.
Qed.

(** X20.  In the surface pass, for a message of a quarter of a degree and
    corner indices that name rows [i], [i + 1] and columns [j], [j + 1] of
    the region read, the value of the record is the arithmetic mean of the
    four values at these corners. *)
Theorem surface_value_is_four_corner_mean (e : env) (data lats lons : grid)
    (res : Q) (r : row) (s : list event) (ll : Q * Q * Q * Q) (i j : nat)
    (row_i row_i1 : list Q) (a b c d : Q) :
  Qeq_bool res 0.25 = true ->
  get_era5_corners_of_rss_cell e (r_lat r) (r_lon r) lats lons res
  = Ok (ll, (Z.of_nat i, Z.of_nat i + 1, Z.of_nat j, Z.of_nat j + 1)) ->
  nth_error data i = Some row_i -> nth_error data (S i) = Some row_i1 ->
  nth_error row_i j = Some a -> nth_error row_i (S j) = Some b ->
  nth_error row_i1 j = Some c -> nth_error row_i1 (S j) = Some d ->
  exists v, value_single_levels e data lats lons res r s = (Ok v, s) /\
            (v == (a + b + c + d) / 4)%Q.
Proof.
  intros Hres Hc Hi Hi1 Ha Hb Hc' Hd.
  eexists. split.
  - apply (value_single_levels_quarter e data lats lons res r s ll _ _ _ _ Hres Hc).
  - unfold py_slice2. rewrite (py_slice_two data i row_i row_i1 Hi Hi1).
    cbn [List.map].
    rewrite (py_slice_two row_i j a b Ha Hb), (py_slice_two row_i1 j c d Hc' Hd).
    apply np_mean_2x2.
Qed.

Lemma surface_value_is_four_corner_mean_witness :
  exists v,
    value_single_levels env_quarter (rev field_north_first) (rev field_lats)
                        (rev field_lons) 0.25 row_0050 [] = (Ok v, []) /\
    (v == (1 + 2 + 4 + 5) / 4)%Q.
Proof.
  apply (surface_value_is_four_corner_mean env_quarter (rev field_north_first)
           (rev field_lats) (rev field_lons) 0.25 row_0050 [] (0, 0, 0, 0)%Q 0 0
           [1; 2; 3]%Q [4; 5; 6]%Q 1 2 4 5); reflexivity.
Defined.

(** ** The window around the centre *)

Lemma nearest_from_index (l : list Q) (v : Q) :
  forall (i : Z) (best : Q * Z),
    snd (nearest_from l v i best) = snd best \/
    i <= snd (nearest_from l v i best) < i + Z.of_nat (length l).
Proof.
  induction l as [| x l IH]; intros i best; cbn [nearest_from length].
  - left. reflexivity.
  - destruct (IH (i + 1)
                (if Qltb (Qabs (x - v)) (Qabs (fst best - v)) then (x, i) else best))
      as [H | H].
    + rewrite H. destruct (Qltb _ _); [right; cbn; lia | left; reflexivity].
    + right. lia.
Qed.

Lemma get_nearest_index_bounds (l : list Q) (v x : Q) (i : Z) :
  get_nearest_element_and_index l v = Ok (x, i) -> 0 <= i < Z.of_nat (length l).
Proof.
  destruct l as [| y l]; cbn [get_nearest_element_and_index]; [discriminate |].
  intros [= H]. pose proof (nearest_from_index l v 1 (y, 0)) as Hi.
  rewrite H in Hi. cbn [snd length] in Hi |- *. lia.
Qed.

Lemma Qmod360_bounds (q : Q) : (0 <= Qmod360 q)%Q /\ (Qmod360 q < 360)%Q.
Proof.
  unfold Qmod360.
  pose proof (Qfloor_le (q / 360)) as Hle.
  pose proof (Qlt_floor (q / 360)) as Hlt.
  rewrite inject_Z_mult. rewrite inject_Z_plus in Hlt.
  change (inject_Z 360) with 360%Q. change (inject_Z 1) with 1%Q in Hlt.
  assert (Hq : (q == 360 * (q / 360))%Q) by field.
  set (f := inject_Z (Qfloor (q / 360))) in *.
  set (x := (q / 360)%Q) in *.
  clearbody f x. split; lra.
Qed.

Lemma py_index_outcome {A} (l : list A) (i : Z) :
  (exists v, py_index l i = Ok v) \/ py_index l i = Raise IndexError.
Proof.
  unfold py_index. cbv zeta.
  destruct (_ || _); [right; reflexivity |].
  destruct (nth_error _ _); eauto.
Qed.

Lemma square_in_grid_geometry (lats lons : list Q) (half : Z)
    (tc_lon tc_lat : Q) (sq : square) (nlat nlon : Z) :
  Z.of_nat (length lats) = nlat -> Z.of_nat (length lons) = nlon ->
  square_in_grid lats lons half tc_lon tc_lat = Ok sq ->
  sq_lat2_idx sq - sq_lat1_idx sq = 2 * half /\
  sq_lon2_idx sq - sq_lon1_idx sq = 2 * half /\
  0 <= sq_lat1_idx sq + half < nlat /\
  0 <= sq_lon1_idx sq + half < nlon /\
  In (sq_lat1 sq) lats /\
  (0 <= sq_lon1 sq)%Q /\ (sq_lon1 sq < 360)%Q.
Proof.
  intros <- <- H. unfold square_in_grid in H.
  apply obind_Ok in H as [[xlon ilon] [Hlon H]].
  apply obind_Ok in H as [[xlat ilat] [Hlat H]].
  apply obind_Ok in H as [lat1 [E1 H]].
  apply obind_Ok in H as [lat2 [E2 H]].
  apply obind_Ok in H as [lon1 [E3 H]].
  apply obind_Ok in H as [lon2 [E4 H]].
  injection H as <-. cbn [sq_lat1_idx sq_lat2_idx sq_lon1_idx sq_lon2_idx sq_lat1 sq_lon1].
  apply get_nearest_index_bounds in Hlon, Hlat.
  split; [lia |]. split; [lia |]. split; [lia |]. split; [lia |].
  split; [eapply py_index_In; exact E1 |].
  apply Qmod360_bounds.
Qed.

Lemma square_in_grid_outcome (lats lons : list Q) (half : Z) (tc_lon tc_lat : Q) :
  lats <> [] -> lons <> [] ->
  (exists sq, square_in_grid lats lons half tc_lon tc_lat = Ok sq) \/
  square_in_grid lats lons half tc_lon tc_lat = Raise IndexError.
Proof.
  intros Hlats Hlons. unfold square_in_grid.
  destruct lons as [| x0 lons]; [congruence |].
  destruct lats as [| y0 lats]; [congruence |].
  cbn [get_nearest_element_and_index].
  destruct (nearest_from lons tc_lon 1 (x0, 0)) as [vlon ilon].
  destruct (nearest_from lats tc_lat 1 (y0, 0)) as [vlat ilat].
  rewrite obind_ret. cbv beta iota zeta. rewrite obind_ret. cbv beta iota zeta.
  destruct (py_index_outcome (y0 :: lats) (ilat - half)) as [[v1 ->] | ->];
    [rewrite obind_ret | right; reflexivity].
  destruct (py_index_outcome (y0 :: lats) (ilat + half)) as [[v2 ->] | ->];
    [rewrite obind_ret | right; reflexivity].
  destruct (py_index_outcome (x0 :: lons) (ilon - half)) as [[v3 ->] | ->];
    [rewrite obind_ret | right; reflexivity].
  destruct (py_index_outcome (x0 :: lons) (ilon + half)) as [[v4 ->] | ->];
    [rewrite obind_ret | right; reflexivity].
  left. eexists. reflexivity.
Qed.

Lemma map_zrange_length {A} (f : Z -> A) (n : nat) :
  Z.of_nat (length (List.map f (zrange n))) = Z.of_nat n.
Proof. unfold zrange. rewrite !length_map, length_seq. reflexivity. Qed.

Lemma lats_smap_length (c : config) : Z.of_nat (length (lats_smap c)) = 720.
Proof. unfold lats_smap. rewrite map_zrange_length. vm_compute. reflexivity. Qed.

Lemma lons_smap_length (c : config) : Z.of_nat (length (lons_smap c)) = 1440.
Proof. unfold lons_smap. rewrite map_zrange_length. vm_compute. reflexivity. Qed.

(** X21.  A window the lookup returns spans twice the half window in grid
    steps on both axes around a grid index of the fine grid, its south
    edge is an element of the latitude list, and its western longitude is
    brought into the range from 0 up to, not including, 360 degrees. *)
Theorem square_geometry (c : config) (tc_lon tc_lat : Q) (sq : square) :
  get_square_around_tc c tc_lon tc_lat = Ok sq ->
  sq_lat2_idx sq - sq_lat1_idx sq = 2 * half_edge_grid_intervals c /\
  sq_lon2_idx sq - sq_lon1_idx sq = 2 * half_edge_grid_intervals c /\
  0 <= sq_lat1_idx sq + half_edge_grid_intervals c < 720 /\
  0 <= sq_lon1_idx sq + half_edge_grid_intervals c < 1440 /\
  In (sq_lat1 sq) (lats_smap c) /\
  (0 <= sq_lon1 sq)%Q /\ (sq_lon1 sq < 360)%Q.
Proof.
  unfold get_square_around_tc.
  apply square_in_grid_geometry; [apply lats_smap_length | apply lons_smap_length].
Qed.

Lemma square_geometry_witness :
  exists sq,
    get_square_around_tc (cfg_rss 1) 120.125 10.125 = Ok sq /\
    sq_lat2_idx sq - sq_lat1_idx sq = 2 * 1 /\
    sq_lon2_idx sq - sq_lon1_idx sq = 2 * 1 /\
    0 <= sq_lat1_idx sq + 1 < 720 /\
    0 <= sq_lon1_idx sq + 1 < 1440 /\
    In (sq_lat1 sq) (lats_smap (cfg_rss 1)) /\
    (0 <= sq_lon1 sq)%Q /\ (sq_lon1 sq < 360)%Q.
Proof.
  eexists. split; [vm_compute; reflexivity |].
  apply (square_geometry (cfg_rss 1) 120.125 10.125).
  vm_compute. reflexivity.
Defined.

(** X22.  On the quarter-degree grid the lookup has two outcomes only: a
    window reported usable, or an [IndexError] from reading an edge
    outside the coordinate lists.  It never reports an unusable window and
    raises nothing else. *)
Theorem quarter_degree_lookup_outcomes (c : config) (tc_lon tc_lat : Q) :
  smap_resolution c = 0.25%Q ->
  (exists sq, get_square_around_tc c tc_lon tc_lat = Ok sq /\ sq_success sq = true) \/
  get_square_around_tc c tc_lon tc_lat = Raise IndexError.
Proof.
  intros Hres. unfold get_square_around_tc.
  destruct (square_in_grid_outcome (lats_smap c) (lons_smap c)
              (half_edge_grid_intervals c) tc_lon tc_lat) as [[sq H] | H].
  - intros E. pose proof (lats_smap_length c) as L. rewrite E in L. discriminate.
  - intros E. pose proof (lons_smap_length c) as L. rewrite E in L. discriminate.
  - left. exists sq. split; [exact H |].
    eapply square_in_grid_always_success; [| exact H].
    apply lats_smap_bounds, Hres.
  - right. exact H.
Qed.

Lemma quarter_degree_lookup_outcomes_witness :
  (exists sq, get_square_around_tc (cfg_rss 20) 100 (-89.125) = Ok sq /\
              sq_success sq = true) \/
  get_square_around_tc (cfg_rss 20) 100 (-89.125) = Raise IndexError.
Proof.
  apply (quarter_degree_lookup_outcomes (cfg_rss 20) 100 (-89.125)). reflexivity.
Defined.

(** ** The list of records, pass by pass *)

Lemma pixel_rows_eq (c : config) (tc_id : string) (tc_dt : datetime)
    (lat1 lon1 : Q) (sw : swath) (y x i : Z) (cm : list Z) (cw : list Q) :
  cell_at sw y x = Ok (cm, cw) ->
  pixel_rows c tc_id tc_dt lat1 lon1 sw y x i
  = match pixel_step c tc_id tc_dt x y (lon_of_col c lon1 x) (lat_of_row c lat1 y)
                     cm cw i init_acc with
    | Ok acc => acc_data acc
    | _ => []
    end.
Proof. intros Hc. unfold pixel_rows, pass_body. rewrite Hc. reflexivity. Qed.

(** A pass appends nothing, or the one record of its pixel. *)
Lemma pixel_rows_cases (c : config) (tc_id : string) (tc_dt : datetime)
    (lat1 lon1 : Q) (sw : swath) (y x i : Z) :
  pixel_rows c tc_id tc_dt lat1 lon1 sw y x i = [] \/
  exists cm cw t w,
    cell_at sw y x = Ok (cm, cw) /\
    pixel_time c tc_dt cm cw i = Ok (Some t) /\
    py_index cw i = Ok w /\
    rounds_to_next_day t = false /\
    pixel_rows c tc_id tc_dt lat1 lon1 sw y x i
    = [Row tc_id t (x - half_edge_grid_intervals c) (y - half_edge_grid_intervals c)
           (lon_of_col c lon1 x) (lat_of_row c lat1 y)
           (t, lon_of_col c lon1 x, lat_of_row c lat1 y) w None None ∅].
Proof.
  unfold pixel_rows.
  destruct (pass_body c tc_id tc_dt lat1 lon1 sw y x i init_acc) as [a | |] eqn:E;
    [| left; reflexivity | left; reflexivity].
  apply pass_body_cases_wind in E
    as (cm & cw & Hc & [[Hp ->] | (t & w & Hp & Hw & ->)]); [left; reflexivity |].
  destruct (add_pixel_data c tc_id x y (lon_of_col c lon1 x) (lat_of_row c lat1 y)
              w t init_acc) as [Hnext Hkeep].
  destruct (rounds_to_next_day t) eqn:R.
  - left. exact (proj1 (Hnext eq_refl)).
  - right. exists cm, cw, t, w.
    split; [exact Hc |]. split; [exact Hp |]. split; [exact Hw |].
    split; [exact R |]. exact (proj1 (Hkeep eq_refl)).
Qed.

Lemma pixel_rows_complete (c : config) (tc_id : string) (tc_dt : datetime)
    (lat1 lon1 : Q) (sw : swath) (y x i : Z) (cm : list Z) (cw : list Q)
    (t : datetime) (w : Q) :
  cell_at sw y x = Ok (cm, cw) ->
  pixel_time c tc_dt cm cw i = Ok (Some t) ->
  py_index cw i = Ok w ->
  rounds_to_next_day t = false ->
  pixel_rows c tc_id tc_dt lat1 lon1 sw y x i
  = [Row tc_id t (x - half_edge_grid_intervals c) (y - half_edge_grid_intervals c)
         (lon_of_col c lon1 x) (lat_of_row c lat1 y)
         (t, lon_of_col c lon1 x, lat_of_row c lat1 y) w None None ∅].
Proof.
  intros Hc Hp Hw R. rewrite (pixel_rows_eq _ _ _ _ _ _ _ _ _ _ _ Hc).
  unfold pixel_step. rewrite Hp, obind_ret, Hw, obind_ret.
  destruct (add_pixel_data c tc_id x y (lon_of_col c lon1 x) (lat_of_row c lat1 y)
              w t init_acc) as [_ Hkeep].
  exact (proj1 (Hkeep R)).
Qed.

(** What a pass does to the list does not depend on the accumulators. *)
Lemma pass_body_data (c : config) (tc_id : string) (tc_dt : datetime)
    (lat1 lon1 : Q) (sw : swath) (y x i : Z) (acc acc' : smap_acc) :
  pass_body c tc_id tc_dt lat1 lon1 sw y x i acc = Ok acc' ->
  acc_data acc' = acc_data acc ++ pixel_rows c tc_id tc_dt lat1 lon1 sw y x i.
Proof.
  intros H. apply pass_body_cases_wind in H
    as (cm & cw & Hc & [[Hp ->] | (t & w & Hp & Hw & ->)]).
  - rewrite (pixel_rows_eq _ _ _ _ _ _ _ _ _ _ _ Hc). unfold pixel_step.
    rewrite Hp, obind_ret. cbn. rewrite app_nil_r. reflexivity.
  - destruct (add_pixel_data c tc_id x y (lon_of_col c lon1 x) (lat_of_row c lat1 y)
                w t acc) as [Hnext Hkeep].
    destruct (rounds_to_next_day t) eqn:R.
    + rewrite (proj1 (Hnext eq_refl)).
      rewrite (pixel_rows_eq _ _ _ _ _ _ _ _ _ _ _ Hc). unfold pixel_step.
      rewrite Hp, obind_ret, Hw, obind_ret.
      destruct (add_pixel_data c tc_id x y (lon_of_col c lon1 x) (lat_of_row c lat1 y)
                  w t init_acc) as [Hnext0 _].
      rewrite (proj1 (Hnext0 R)). cbn. rewrite app_nil_r. reflexivity.
    + rewrite (proj1 (Hkeep eq_refl)).
      rewrite (pixel_rows_complete _ _ _ _ _ _ _ _ _ _ _ _ _ Hc Hp Hw R). reflexivity.
Qed.

Lemma for_each_data {A} (g : A -> list row) (f : A -> smap_acc -> outcome smap_acc)
    (l : list A) :
  (forall a s s', In a l -> f a s = Ok s' -> acc_data s' = acc_data s ++ g a) ->
  forall s s', for_each l f s = Ok s' -> acc_data s' = acc_data s ++ flat_map g l.
Proof.
  induction l as [| a l IH]; intros Hstep s s' H; cbn [for_each flat_map] in *.
  - injection H as <-. rewrite app_nil_r. reflexivity.
  - apply obind_Ok in H as [s1 [H1 H]].
    rewrite (IH (fun b t t' Hb => Hstep b t t' (or_intror Hb)) s1 s' H).
    rewrite (Hstep a s s1 (or_introl eq_refl) H1).
    rewrite <- app_assoc. reflexivity.
Qed.

(** The list the triple loop returns is the concatenation of what each
    pass appends, in the order of the loop. *)
Lemma smap_loops_data (c : config) (tc_id : string) (tc_dt : datetime)
    (lat1 lon1 : Q) (sw : swath) (acc : smap_acc) :
  smap_loops c tc_id tc_dt lat1 lon1 sw = Ok acc ->
  acc_data acc = window_rows c tc_id tc_dt lat1 lon1 sw.
Proof.
  unfold smap_loops, window_rows. intros H.
  apply (for_each_data
           (fun y => flat_map (fun x =>
              flat_map (pixel_rows c tc_id tc_dt lat1 lon1 sw y x)
                       (zrange (passes_num sw))) (zrange (lons_num sw)))) in H.
  - exact H.
  - intros y s s' _ Hy.
    apply (for_each_data
             (fun x => flat_map (pixel_rows c tc_id tc_dt lat1 lon1 sw y x)
                                (zrange (passes_num sw)))) in Hy.
    + exact Hy.
    + intros x t t' _ Hx.
      apply (for_each_data (pixel_rows c tc_id tc_dt lat1 lon1 sw y x)) in Hx.
      * exact Hx.
      * intros i u u' _ Hi. apply pass_body_data. exact Hi.
Qed.

Lemma In_window_rows (c : config) (tc_id : string) (tc_dt : datetime)
    (lat1 lon1 : Q) (sw : swath) (r : row) :
  In r (window_rows c tc_id tc_dt lat1 lon1 sw) <->
  exists y x i,
    0 <= y < Z.of_nat (lats_num sw) /\ 0 <= x < Z.of_nat (lons_num sw) /\
    0 <= i < Z.of_nat (passes_num sw) /\
    In r (pixel_rows c tc_id tc_dt lat1 lon1 sw y x i).
Proof.
  unfold window_rows. rewrite in_flat_map. split.
  - intros (y & Hy & H). apply in_flat_map in H as (x & Hx & H).
    apply in_flat_map in H as (i & Hi & H).
    apply In_zrange in Hy, Hx, Hi. exists y, x, i. tauto.
  - intros (y & x & i & Hy & Hx & Hi & H).
    exists y. split; [apply In_zrange, Hy |].
    apply in_flat_map. exists x. split; [apply In_zrange, Hx |].
    apply in_flat_map. exists i. split; [apply In_zrange, Hi | exact H].
Qed.

(** The fields of a record, read back from the pass that appended it. *)
Lemma pixel_rows_fields (c : config) (tc_id : string) (tc_dt : datetime)
    (lat1 lon1 : Q) (sw : swath) (y x i : Z) (r : row) :
  In r (pixel_rows c tc_id tc_dt lat1 lon1 sw y x i) ->
  r_x r = x - half_edge_grid_intervals c /\
  r_y r = y - half_edge_grid_intervals c /\
  r_lon r = lon_of_col c lon1 x /\ r_lat r = lat_of_row c lat1 y /\
  satel_datetime_lon_lat r = (satel_datetime r, r_lon r, r_lat r) /\
  exists cm cw,
    cell_at sw y x = Ok (cm, cw) /\
    pixel_time c tc_dt cm cw i = Ok (Some (satel_datetime r)).
Proof.
  destruct (pixel_rows_cases c tc_id tc_dt lat1 lon1 sw y x i)
    as [-> | (cm & cw & t & w & Hc & Hp & _ & _ & ->)]; [intros [] |].
  intros [<- | []]. cbn.
  split; [reflexivity |]. split; [reflexivity |]. split; [reflexivity |].
  split; [reflexivity |]. split; [reflexivity |].
  exists cm, cw. split; assumption.
Qed.

(** The minutes behind a pixel that got through lines 278-290. *)
Lemma pixel_time_passes (c : config) (tc_dt : datetime) (cm : list Z) (cw : list Q)
    (i : Z) (t : datetime) :
  pixel_time c tc_dt cm cw i = Ok (Some t) ->
  exists m_i m0 m1,
    py_index cm i = Ok m_i /\ py_index cm 0 = Ok m0 /\ py_index cm 1 = Ok m1 /\
    m0 <> m1 /\ t = combine (dt_date tc_dt) (m_i * 60).
Proof.
  unfold pixel_time. intros H.
  apply obind_Ok in H as [m_i [Hm H]].
  destruct (m_i =? minute_missing c); [discriminate |].
  apply obind_Ok in H as [w_i [_ H]].
  destruct (Qeq_bool w_i (wind_missing c)); [discriminate |].
  apply obind_Ok in H as [m0 [H0 H]].
  apply obind_Ok in H as [m1 [H1 H]].
  destruct (m0 =? m1) eqn:E01; [discriminate |].
  apply obind_Ok in H as [time_ [Ht H]].
  destruct (in_window tc_dt (combine (dt_date tc_dt) time_)); [| discriminate].
  injection H as <-.
  unfold mk_time in Ht.
  destruct ((0 <=? m_i / 60) && (m_i / 60 <? 24) && (0 <=? m_i mod 60) && (m_i mod 60 <? 60));
    [| discriminate].
  injection Ht as <-.
  exists m_i, m0, m1. split; [exact Hm |]. split; [exact H0 |]. split; [exact H1 |].
  split; [apply Z.eqb_neq, E01 |].
  f_equal. pose proof (Z.div_mod m_i 60 ltac:(lia)). lia.
Qed.

Lemma NoDup_zrange (n : nat) : NoDup (zrange n).
Proof.
  unfold zrange. generalize 0%nat. induction n as [| n IH]; intros k; cbn.
  - constructor.
  - constructor; [| apply IH].
    intros Hin. apply list_elem_of_In, in_map_iff in Hin as (j & Hj & Hin).
    apply in_seq in Hin. lia.
Qed.

Lemma NoDup_map_flat_map {A B K} (k : B -> K) (g : A -> list B) (l : list A) :
  NoDup l ->
  (forall a, In a l -> NoDup (List.map k (g a))) ->
  (forall a b u v, In a l -> In b l -> In u (g a) -> In v (g b) -> k u = k v -> a = b) ->
  NoDup (List.map k (flat_map g l)).
Proof.
  induction l as [| a l IH]; intros Hnd Hg Hd; cbn [flat_map List.map].
  - constructor.
  - inversion Hnd as [| ? ? Hnotin Hnd']; subst.
    rewrite List.map_app. apply NoDup_app.
    split; [apply Hg; left; reflexivity |]. split.
    + intros kv Hin1 Hin2. apply list_elem_of_In in Hin1, Hin2.
      apply in_map_iff in Hin1 as (u & Hu & Hin1).
      apply in_map_iff in Hin2 as (v & Hv & Hin2).
      apply in_flat_map in Hin2 as (b & Hb & Hin2).
      assert (a = b) as ->.
      { apply (Hd a b u v); [left; reflexivity | right; exact Hb | exact Hin1
                            | exact Hin2 | congruence]. }
      apply Hnotin, list_elem_of_In, Hb.
    + apply IH; [exact Hnd' | |].
      * intros b Hb. apply Hg. right. exact Hb.
      * intros b b' u v Hb Hb'. apply Hd; right; assumption.
Qed.

Lemma NoDup_map_refine {A K K'} (f : A -> K) (g : A -> K') (l : list A) :
  NoDup (List.map f l) ->
  (forall a b, In a l -> In b l -> g a = g b -> f a = f b) ->
  NoDup (List.map g l).
Proof.
  induction l as [| a l IH]; intros Hnd Hfg; cbn [List.map] in *.
  - constructor.
  - inversion Hnd as [| ? ? Hnotin Hnd']; subst. constructor.
    + intros Hin. apply list_elem_of_In, in_map_iff in Hin as (b & Hb & Hin).
      apply Hnotin. apply list_elem_of_In, in_map_iff. exists b. split; [| exact Hin].
      apply Hfg; [right; exact Hin | left; reflexivity | exact Hb].
    + apply IH; [exact Hnd' |]. intros b b' Hb Hb'. apply Hfg; right; assumption.
Qed.

(** With at most two passes in a cell, no two records of the window share
    their time and their offsets. *)
Lemma window_rows_NoDup (c : config) (tc_id : string) (tc_dt : datetime)
    (lat1 lon1 : Q) (sw : swath) :
  (passes_num sw <= 2)%nat ->
  NoDup (List.map pixel_key (window_rows c tc_id tc_dt lat1 lon1 sw)).
Proof.
  intros HP. unfold window_rows.
  apply NoDup_map_flat_map; [apply NoDup_zrange | |].
  - intros y _. apply NoDup_map_flat_map; [apply NoDup_zrange | |].
    + intros x _. apply NoDup_map_flat_map; [apply NoDup_zrange | |].
      * intros i _.
        destruct (pixel_rows_cases c tc_id tc_dt lat1 lon1 sw y x i)
          as [-> | (cm & cw & t & w & _ & _ & _ & _ & ->)]; cbn [List.map].
        -- constructor.
        -- constructor; [apply not_elem_of_nil | constructor].
      * intros i j u v Hi Hj Hu Hv Hk.
        apply In_zrange in Hi, Hj.
        apply pixel_rows_fields in Hu as (_ & _ & _ & _ & _ & cm & cw & Hc & Hpu).
        apply pixel_rows_fields in Hv as (_ & _ & _ & _ & _ & cm' & cw' & Hc' & Hpv).
        rewrite Hc in Hc'. injection Hc' as <- <-.
        apply pixel_time_passes in Hpu as (mi & m0 & m1 & Hmi & H0 & H1 & Hne & Htu).
        apply pixel_time_passes in Hpv as (mj & m0' & m1' & Hmj & H0' & H1' & _ & Htv).
        rewrite H0 in H0'. injection H0' as <-. rewrite H1 in H1'. injection H1' as <-.
        assert (Ht : satel_datetime u = satel_datetime v)
          by (unfold pixel_key in Hk; congruence).
        rewrite Htu, Htv in Ht. unfold combine in Ht.
        assert (Hm : mi = mj) by lia.
        assert (Hi' : i = 0 \/ i = 1) by lia.
        assert (Hj' : j = 0 \/ j = 1) by lia.
        destruct Hi' as [-> | ->]; destruct Hj' as [-> | ->];
          try reflexivity; exfalso; apply Hne; congruence.
    + intros x x' u v _ _ Hu Hv Hk.
      apply in_flat_map in Hu as (i & _ & Hu). apply in_flat_map in Hv as (j & _ & Hv).
      apply pixel_rows_fields in Hu as (Hxu & _). apply pixel_rows_fields in Hv as (Hxv & _).
      assert (Hx : r_x u = r_x v) by (unfold pixel_key in Hk; congruence). lia.
  - intros y y' u v _ _ Hu Hv Hk.
    apply in_flat_map in Hu as (x & _ & Hu). apply in_flat_map in Hv as (x' & _ & Hv).
    apply in_flat_map in Hu as (i & _ & Hu). apply in_flat_map in Hv as (j & _ & Hv).
    apply pixel_rows_fields in Hu as (_ & Hyu & _).
    apply pixel_rows_fields in Hv as (_ & Hyv & _).
    assert (Hy : r_y u = r_y v) by (unfold pixel_key in Hk; congruence). lia.
Qed.

Lemma grid_coordinate_injective (res base : Q) (a b : Z) :
  ~ (res == 0)%Q ->
  (inject_Z a * res + base)%Q = (inject_Z b * res + base)%Q -> a = b.
Proof.
  intros Hres E.
  assert (Eq : (inject_Z a * res + base == inject_Z b * res + base)%Q)
    by (rewrite E; reflexivity).
  assert (Ez : ((inject_Z a - inject_Z b) * res == 0)%Q) by lra.
  apply Qmult_integral in Ez as [Ez | Ez]; [| contradiction].
  apply inject_Z_injective. lra.
Qed.

(** On a grid of non-zero resolution the key written to the table
    determines the time and the offsets. *)
Lemma window_rows_key (c : config) (tc_id : string) (tc_dt : datetime)
    (lat1 lon1 : Q) (sw : swath) (a b : row) :
  ~ (smap_resolution c == 0)%Q ->
  In a (window_rows c tc_id tc_dt lat1 lon1 sw) ->
  In b (window_rows c tc_id tc_dt lat1 lon1 sw) ->
  satel_datetime_lon_lat a = satel_datetime_lon_lat b ->
  pixel_key a = pixel_key b.
Proof.
  intros Hres Ha Hb Hk.
  apply In_window_rows in Ha as (y & x & i & _ & _ & _ & Ha).
  apply In_window_rows in Hb as (y' & x' & i' & _ & _ & _ & Hb).
  apply pixel_rows_fields in Ha as (Hxa & Hya & Hlon_a & Hlat_a & Hka & _).
  apply pixel_rows_fields in Hb as (Hxb & Hyb & Hlon_b & Hlat_b & Hkb & _).
  rewrite Hka, Hkb in Hk. injection Hk as Ht Hlon Hlat.
  rewrite Hlon_a, Hlon_b in Hlon. rewrite Hlat_a, Hlat_b in Hlat.
  apply (grid_coordinate_injective _ _ _ _ Hres) in Hlon.
  apply (grid_coordinate_injective _ _ _ _ Hres) in Hlat.
  unfold pixel_key. rewrite Ht, Hxa, Hxb, Hya, Hyb, Hlon, Hlat. reflexivity.
Qed.

Lemma get_smap_part_data (c : config) (read : string -> square -> outcome swath)
    (tc_id : string) (tc_dt : datetime) (tc_lon tc_lat : Q) (path : string)
    (data : list row) (hourtimes : list Z) (ar : area) :
  get_smap_part c read tc_id tc_dt tc_lon tc_lat path = Ok (Triple data hourtimes ar) ->
  exists sq sw,
    get_square_around_tc c tc_lon tc_lat = Ok sq /\ read path sq = Ok sw /\
    data = window_rows c tc_id tc_dt (sq_lat1 sq) (sq_lon1 sq) sw.
Proof.
  intros H. apply get_smap_part_triple in H
    as (sq & sw & acc & Hsq & _ & Hsw & Hacc & -> & _).
  exists sq, sw. split; [exact Hsq |]. split; [exact Hsw |].
  apply smap_loops_data, Hacc.
Qed.

(** X23.  No qualifying pixel is lost: when the extraction returns, every
    pass of every cell of the window that gets through the filters of
    lines 278-290 and does not round into the next day has its record in
    the list, with the fields of lines 295-317. *)
Theorem qualifying_pixels_are_extracted (c : config)
    (read : string -> square -> outcome swath) (tc_id : string)
    (tc_dt : datetime) (tc_lon tc_lat : Q) (path : string)
    (data : list row) (hourtimes : list Z) (ar : area)
    (sq : square) (sw : swath) (y x i : Z) (cm : list Z) (cw : list Q)
    (t : datetime) (w : Q) :
  get_smap_part c read tc_id tc_dt tc_lon tc_lat path = Ok (Triple data hourtimes ar) ->
  get_square_around_tc c tc_lon tc_lat = Ok sq -> read path sq = Ok sw ->
  0 <= y < Z.of_nat (lats_num sw) -> 0 <= x < Z.of_nat (lons_num sw) ->
  0 <= i < Z.of_nat (passes_num sw) ->
  cell_at sw y x = Ok (cm, cw) ->
  pixel_time c tc_dt cm cw i = Ok (Some t) ->
  py_index cw i = Ok w ->
  rounds_to_next_day t = false ->
  In (Row tc_id t (x - half_edge_grid_intervals c) (y - half_edge_grid_intervals c)
          (lon_of_col c (sq_lon1 sq) x) (lat_of_row c (sq_lat1 sq) y)
          (t, lon_of_col c (sq_lon1 sq) x, lat_of_row c (sq_lat1 sq) y) w None None ∅)
     data.
Proof.
  intros H Hsq Hsw Hy Hx Hi Hc Hp Hw R.
  apply get_smap_part_data in H as (sq' & sw' & Hsq' & Hsw' & ->).
  rewrite Hsq in Hsq'. injection Hsq' as <-.
  rewrite Hsw in Hsw'. injection Hsw' as <-.
  apply In_window_rows. exists y, x, i.
  split; [exact Hy |]. split; [exact Hx |]. split; [exact Hi |].
  rewrite (pixel_rows_complete c tc_id tc_dt (sq_lat1 sq) (sq_lon1 sq) sw y x i
             cm cw t w Hc Hp Hw R).
  left. reflexivity.
Qed.

Lemma qualifying_pixels_are_extracted_witness :
  exists data hourtimes ar sq,
    get_smap_part (cfg_rss 1) (fun _ _ => Ok twin_swath) "2018250N12160"
                  evening 120.125 10.125 "smap.nc"
    = Ok (Triple data hourtimes ar) /\
    In (Row "2018250N12160" (sep15 + 23 * 3600 + 25 * 60) (0 - 1) (0 - 1)
            (lon_of_col (cfg_rss 1) (sq_lon1 sq) 0)
            (lat_of_row (cfg_rss 1) (sq_lat1 sq) 0)
            (sep15 + 23 * 3600 + 25 * 60,
             lon_of_col (cfg_rss 1) (sq_lon1 sq) 0,
             lat_of_row (cfg_rss 1) (sq_lat1 sq) 0) 12 None None ∅)
       data.
Proof.
  do 4 eexists. split; [vm_compute; reflexivity |].
  eapply (qualifying_pixels_are_extracted (cfg_rss 1) (fun _ _ => Ok twin_swath)
           "2018250N12160" evening 120.125 10.125 "smap.nc" _ _ _ _ twin_swath
           0 0 1 [1400; 1405] [11; 12]%Q (sep15 + 23 * 3600 + 25 * 60) 12).
  - vm_compute. reflexivity.
  - vm_compute. reflexivity.
  - reflexivity.
  - vm_compute. split; [discriminate | reflexivity].
  - vm_compute. split; [discriminate | reflexivity].
  - vm_compute. split; [discriminate | reflexivity].
  - reflexivity.
  - vm_compute. reflexivity.
  - reflexivity.
  - vm_compute. reflexivity.
Defined.

(** X24.  With at most two passes in a cell, as in the swath files, no two
    records of an extraction share their time and their offsets in the
    window; on a grid of non-zero resolution no two share the key
    [satel_datetime_lon_lat] on which the insertion drops duplicates. *)
Theorem extracted_records_have_distinct_keys (c : config)
    (read : string -> square -> outcome swath) (tc_id : string)
    (tc_dt : datetime) (tc_lon tc_lat : Q) (path : string)
    (data : list row) (hourtimes : list Z) (ar : area) :
  get_smap_part c read tc_id tc_dt tc_lon tc_lat path = Ok (Triple data hourtimes ar) ->
  (forall sq sw,
      get_square_around_tc c tc_lon tc_lat = Ok sq -> read path sq = Ok sw ->
      (passes_num sw <= 2)%nat) ->
  NoDup (List.map pixel_key data) /\
  (~ (smap_resolution c == 0)%Q -> NoDup (List.map satel_datetime_lon_lat data)).
Proof.
  intros H HP.
  apply get_smap_part_data in H as (sq & sw & Hsq & Hsw & ->).
  pose proof (window_rows_NoDup c tc_id tc_dt (sq_lat1 sq) (sq_lon1 sq) sw
                (HP sq sw Hsq Hsw)) as Hnd.
  split; [exact Hnd |].
  intros Hres. apply (NoDup_map_refine pixel_key); [exact Hnd |].
  intros a b. apply window_rows_key. exact Hres.
Qed.

Lemma extracted_records_have_distinct_keys_witness :
  exists data hourtimes ar,
    get_smap_part (cfg_rss 1) (fun _ _ => Ok twin_swath) "2018250N12160"
                  evening 120.125 10.125 "smap.nc"
    = Ok (Triple data hourtimes ar) /\
    length data = 2%nat /\
    NoDup (List.map pixel_key data) /\
    (~ (smap_resolution (cfg_rss 1) == 0)%Q ->
     NoDup (List.map satel_datetime_lon_lat data)).
Proof.
  do 3 eexists. split; [vm_compute; reflexivity |].
  split; [reflexivity |].
  eapply (extracted_records_have_distinct_keys (cfg_rss 1) (fun _ _ => Ok twin_swath)
           "2018250N12160" evening 120.125 10.125 "smap.nc").
  - vm_compute. reflexivity.
  - intros sq sw _ [= <-]. vm_compute. lia.
Defined.

(** X25.  A point around which no pass of the window gets through the
    filters is skipped: [extract_detail] returns after the satellite step,
    the hour buckets are never built and nothing is handed to the
    insertion. *)
Theorem point_without_pixels_is_skipped (e : env) (c : call) (s : list event)
    (data : list row) (hourtimes : list Z) (ar : area) :
  create_smap_era5_table e (c_dt c) = Ok tt ->
  extract_smap e (c_sid c) (c_dt c) (c_lon c) (c_lat c) = Ok (data, hourtimes, ar) ->
  (forall path sq sw y x i,
      smap_download e (c_dt c) = Ok path ->
      get_square_around_tc (cfg e) (c_lon c) (c_lat c) = Ok sq ->
      read_swath e path sq = Ok sw ->
      ~ reaches_row (cfg e) (c_dt c) sw y x i) ->
  extract_detail e c s = (Ok tt, s ++ [EvExtract c]).
Proof.
  intros Htable Hsmap Hnone.
  assert (Hdata : data = []).
  { unfold extract_smap in Hsmap.
    apply obind_Ok in Hsmap as [path [Hpath Hsmap]].
    apply obind_Ok in Hsmap as [[| d h a] [Hpart Hun]]; [discriminate |].
    injection Hun as -> -> ->.
    apply get_smap_part_data in Hpart as (sq & sw & Hsq & Hsw & ->).
    destruct (window_rows (cfg e) (c_sid c) (c_dt c) (sq_lat1 sq) (sq_lon1 sq) sw)
      as [| r rs] eqn:E; [reflexivity |].
    assert (Hin : In r (window_rows (cfg e) (c_sid c) (c_dt c) (sq_lat1 sq)
                                    (sq_lon1 sq) sw))
      by (rewrite E; left; reflexivity).
    apply In_window_rows in Hin as (y & x & i & Hy & Hx & Hi & Hin).
    apply pixel_rows_fields in Hin as (_ & _ & _ & _ & _ & cm & cw & Hc & Hp).
    exfalso. apply (Hnone path sq sw y x i Hpath Hsq Hsw).
    split; [exact Hy |]. split; [exact Hx |]. split; [exact Hi |].
    exists cm, cw, (satel_datetime r). split; assumption. }
  subst data.
  unfold extract_detail, bind, tell, lift. rewrite Htable, Hsmap. reflexivity.
Qed.

Lemma point_without_pixels_is_skipped_witness :
  extract_detail env_all_missing (call_of_fix fix_morning) []
  = (Ok tt, [] ++ [EvExtract (call_of_fix fix_morning)]).
Proof.
  eapply (point_without_pixels_is_skipped env_all_missing (call_of_fix fix_morning) []).
  - reflexivity.
  - vm_compute. reflexivity.
  - intros path sq sw y x i _ _ [= <-] (Hy & Hx & Hi & cm & cw & t & Hc & Hp).
    cbn in Hy, Hx, Hi.
    assert (Hy' : y = 0 \/ y = 1 \/ y = 2) by lia.
    assert (Hx' : x = 0 \/ x = 1 \/ x = 2) by lia.
    assert (Hi' : i = 0 \/ i = 1) by lia.
    destruct Hy' as [-> | [-> | ->]]; destruct Hx' as [-> | [-> | ->]];
      vm_compute in Hc; injection Hc as <- <-;
      destruct Hi' as [-> | ->]; vm_compute in Hp; discriminate.
Defined.

(** ** Where the extraction points come from *)

Lemma py_index_nat_inv {A} (l : list A) (z : Z) (a : A) :
  0 <= z -> py_index l z = Ok a -> nth_error l (Z.to_nat z) = Some a.
Proof.
  intros Hz. unfold py_index. cbv zeta.
  destruct (z <? 0) eqn:E; [lia |].
  destruct (_ || _); [discriminate |].
  destruct (nth_error l (Z.to_nat z)); [| discriminate].
  intros [= ->]. reflexivity.
Qed.

Section Origins.

Variable e : env.
Variable q : list tc_fix.
Let P := calls_from e q.

Lemma origin_log_error (msg : string) : P (EvLogError msg).
Proof. exact I. Qed.

Lemma origin_buckets (rows : list row) : P (EvBuckets rows).
Proof. exact I. Qed.

Lemma hoare_extract_detail_origin (c : call) :
  call_origin e q c -> hoare P (extract_detail e c) (fun _ => True).
Proof.
  intros Hc. unfold extract_detail.
  apply (hoare_bind _ _ _ (fun _ => True)); [apply hoare_tell; [exact Hc | exact I] |].
  intros _ _.
  apply (hoare_bind _ _ _ (fun _ => True)); [apply hoare_lift; intros; exact I |].
  intros _ _.
  apply (hoare_bind _ _ _ (fun _ => True)); [apply hoare_lift; intros; exact I |].
  intros [[data hourtimes] ar] _.
  apply hoare_if; [apply hoare_ret; exact I |].
  apply (hoare_bind _ _ _ (fun _ => True)).
  { eapply hoare_weaken;
      [apply (hoare_extract_era5_result P origin_log_error origin_buckets) |].
    intros; exact I. }
  intros rows _.
  apply (hoare_bind _ _ _ (fun _ => True)); [apply hoare_lift; intros; exact I |].
  intros _ _. apply hoare_tell; exact I.
Qed.

Lemma hoare_extract_from_origin (rest : list tc_fix) :
  forall pre, q = pre ++ rest ->
    hoare P (extract_from (extract_detail e) (longtitude_converter e) (is_land e) q
                          (Z.of_nat (length q)) (Z.of_nat (length pre)) rest)
          (fun _ => True).
Proof.
  induction rest as [| tc rest IH]; intros pre Hq; cbn [extract_from].
  - apply hoare_ret. exact I.
  - assert (Htc : nth_error q (length pre) = Some tc).
    { rewrite Hq, nth_error_app2 by lia. rewrite Nat.sub_diag. reflexivity. }
    apply (hoare_bind _ _ _ (fun _ => True)).
    2:{ intros _ _.
        replace (Z.of_nat (length pre) + 1) with (Z.of_nat (length (pre ++ [tc])))
          by (rewrite length_app; cbn; lia).
        apply IH. rewrite <- app_assoc. exact Hq. }
    apply hoare_exit_on_exception. unfold extract_fix.
    apply (hoare_bind _ _ _ (fun l => longtitude_converter e (lon tc) = Ok l));
      [apply hoare_lift; intros l Hl; exact Hl |].
    intros converted_lon Hlon.
    apply (hoare_bind _ _ _ (fun b => is_land e (lat tc) converted_lon = Ok b));
      [apply hoare_lift; intros b Hb; exact Hb |].
    intros on_land Hland.
    destruct on_land; [apply hoare_ret; exact I |].
    assert (Hocean : ocean_fix e tc) by (exists converted_lon; split; assumption).
    assert (Hfix : call_origin e q (call_of_fix tc)).
    { exists (length pre), tc. split; [exact Htc |]. split; [exact Hocean |].
      left. reflexivity. }
    apply hoare_if; [| apply hoare_extract_detail_origin, Hfix].
    apply (hoare_bind _ _ _
             (fun n => py_index q (Z.of_nat (length pre) + 1) = Ok n));
      [apply hoare_lift; intros n Hn; exact Hn |].
    intros next_tc Hnext.
    apply py_index_nat_inv in Hnext; [| lia].
    replace (Z.to_nat (Z.of_nat (length pre) + 1)) with (S (length pre)) in Hnext by lia.
    destruct (String.eqb (sid tc) (sid next_tc)) eqn:Esid;
      [| apply hoare_extract_detail_origin, Hfix].
    apply String.eqb_eq in Esid.
    unfold extract_between_two_tc_records.
    destruct (td_days (date_time next_tc - date_time tc) =? 0) eqn:Edays;
      cbn [negb]; [| apply hoare_extract_detail_origin, Hfix].
    apply Z.eqb_eq in Edays.
    cbn [get_center_shift_of_two_tcs].
    apply hoare_if; [apply hoare_lift; intros; exact I |].
    apply hoare_for_eachM; [| exact I].
    intros h [] Hh _. apply In_zrange in Hh.
    apply hoare_extract_detail_origin.
    exists (length pre), tc. split; [exact Htc |]. split; [exact Hocean |].
    right. exists next_tc, h.
    split; [exact Hnext |]. split; [exact Esid |]. split; [exact Edays |].
    split; [lia | reflexivity].
Qed.

End Origins.

(** X26.  In every run of the traversal, whatever the collaborators
    answer, each point for which an extraction is started is a fix of the
    query that the land test lets through, or one of the hourly points
    between such a fix and the fix that follows it in the query, of the
    same track and less than a day later.  Nothing is extracted for a fix
    on land. *)
Theorem extraction_points_come_from_ocean_fixes (e : env) (tc_query : list tc_fix) :
  Forall (calls_from e tc_query) (snd (extract e tc_query [])).
Proof.
  unfold extract, extract_with.
  apply (hoare_extract_from_origin e tc_query tc_query [] eq_refl). constructor.
Qed.
